(** * NGO site-selection tool: the two Streamlit front ends.

    A shallow embedding of [NGOexcelspider.py] (the tabular, CSV driven
    workflow) and [NGOsliderspider.py] (the slider workflow), and the
    properties of their normalizer, radar geometry and fit scoring.

    Conventions of the embedding.
    - Python [str] is [string], a string of bytes; [lower] maps the ASCII
      letters only and [split] knows the ASCII blanks only.
    - Python [float] is [pyfloat]: a rational or NaN.  The theme score of
      the tabular workflow, whose sign and position against -2 choose a
      branch, is computed with binary64 rounding ([round64], [fadd64]);
      the other operations are kept exact, and the angles of the chart,
      which involve [pi], are real numbers.
    - Python lists that are mutated in place live in a store indexed by
      references, so that aliasing between caller and callee is visible.
    - [st.error] followed by [return None, None, None] is a value of
      [load_error]; an uncaught exception is [Raise]. *)

From Stdlib Require Import ZArith QArith Qround Qabs Reals Lra Lqa Lia.
From Stdlib Require Import List String Ascii Bool Floats.
From stdpp Require Import gmap fin_maps.
Import ListNotations.
Open Scope string_scope.
Open Scope list_scope.

(** ** Python strings *)

Module PyStr.

(** [c.lower()] on one ASCII character. *)
Definition lower_ascii (c : ascii) : ascii :=
  let n := nat_of_ascii c in
  if ((65 <=? n) && (n <=? 90))%nat then ascii_of_nat (n + 32) else c.

(** [s.lower()] *)
Fixpoint lower (s : string) : string :=
  match s with
  | EmptyString => EmptyString
  | String c s' => String (lower_ascii c) (lower s')
  end.

(** [needle in hay]: substring test. *)
Fixpoint contains (needle hay : string) : bool :=
  String.prefix needle hay ||
  match hay with
  | EmptyString => false
  | String _ hay' => contains needle hay'
  end.

(** The ASCII characters [str.split()] treats as separators. *)
Definition is_space (c : ascii) : bool :=
  let n := nat_of_ascii c in
  (((9 <=? n) && (n <=? 13)) || ((28 <=? n) && (n <=? 32)))%nat.

(** [split_aux s cur]: [cur] is the word being read, reversed. *)
Fixpoint split_aux (s : string) (cur : list ascii) : list string :=
  let flush (rest : list string) :=
    match cur with
    | [] => rest
    | _ => string_of_list_ascii (rev cur) :: rest
    end in
  match s with
  | EmptyString => flush []
  | String c s' =>
      if is_space c then flush (split_aux s' [])
      else split_aux s' (c :: cur)
  end.

(** [s.split()]: the maximal runs of non-blank characters. *)
Definition split (s : string) : list string := split_aux s [].

End PyStr.

(** ** Python numbers *)

Module PyNum.

(** A Python [float]: a finite value, as the rational it is, or NaN
    (what pandas stores for a missing field).  Infinities are left out. *)
Inductive pyfloat : Type :=
| Fin (q : Q)
| NaN.

(** [2^e] *)
Definition pow2 (e : Z) : Q :=
  if (0 <=? e)%Z then inject_Z (2 ^ e) else 1 # Z.to_pos (2 ^ (- e)).

(** The whole number nearest to [y], the even one of two that are
    equally near. *)
Definition rint (y : Q) : Z :=
  let f := Qfloor y in
  match ((y - inject_Z f) ?= (1 # 2))%Q with
  | Lt => f
  | Gt => (f + 1)%Z
  | Eq => if Z.even f then f else (f + 1)%Z
  end.

(** The binary exponent of [x <> 0]: the [e] with [2^e <= |x| < 2^(e+1)].
    The difference of the bit lengths of numerator and denominator is
    [e] or [e + 1]. *)
Definition ilog2 (x : Q) : Z :=
  let e := (Z.log2 (Z.abs (Qnum x)) - Z.log2 (Zpos (Qden x)))%Z in
  if Qle_bool (pow2 e) (Qabs x) then e else (e - 1)%Z.

(** The binary64 number nearest to [x], ties to even: 53 significant
    bits, the unit in the last place never below [2^-1074].  Overflow
    to an infinity is left out. *)
Definition round64 (x : Q) : Q :=
  if Qeq_bool x 0 then 0 else
  let s := Z.max (ilog2 x - 52) (-1074) in
  Qred (inject_Z (rint (x / pow2 s)) * pow2 s).

(** [float(z)] for a Python [int]. *)
Definition of_int (z : Z) : pyfloat := Fin (inject_Z z).

(** Sum, difference, product and quotient as exact numbers, for the
    radii of the chart and the fit of the sliders. *)
Definition fadd (a b : pyfloat) : pyfloat :=
  match a, b with
  | Fin x, Fin y => Fin (x + y)
  | _, _ => NaN
  end.

(** [a + b] as the machine computes it: the sum, rounded. *)
Definition fadd64 (a b : pyfloat) : pyfloat :=
  match a, b with
  | Fin x, Fin y => Fin (round64 (x + y))
  | _, _ => NaN
  end.

Definition fsub (a b : pyfloat) : pyfloat :=
  match a, b with
  | Fin x, Fin y => Fin (x - y)
  | _, _ => NaN
  end.

Definition fmul (a b : pyfloat) : pyfloat :=
  match a, b with
  | Fin x, Fin y => Fin (x * y)
  | _, _ => NaN
  end.

(** numpy's division of a sum by a count: [0/0] is NaN. *)
Definition fdiv (a b : pyfloat) : pyfloat :=
  match a, b with
  | Fin x, Fin y => if Qeq_bool y 0 then NaN else Fin (x / y)
  | _, _ => NaN
  end.

(** Comparisons: every comparison with NaN is [False]. *)
Definition fle (a b : pyfloat) : bool :=
  match a, b with
  | Fin x, Fin y => Qle_bool x y
  | _, _ => false
  end.

Definition flt (a b : pyfloat) : bool :=
  match a, b with
  | Fin x, Fin y => negb (Qle_bool y x)
  | _, _ => false
  end.

Definition feq (a b : pyfloat) : bool :=
  match a, b with
  | Fin x, Fin y => Qeq_bool x y
  | _, _ => false
  end.

(** Equality of floats as numbers ([==] of the rationals). *)
Definition same (a b : pyfloat) : Prop :=
  match a, b with
  | Fin x, Fin y => (x == y)%Q
  | NaN, NaN => True
  | _, _ => False
  end.

(** [np.mean(l)]: the sum of the entries over their number. *)
Definition mean (l : list pyfloat) : pyfloat :=
  fdiv (fold_left fadd l (Fin 0)) (of_int (Z.of_nat (length l))).

End PyNum.

(** ** Mutable lists and exceptions *)

Module PyHeap.

Inductive exn : Type :=
| ZeroDivisionError
| ValueError
| IndexError
| AttributeError.

Inductive outcome (A : Type) : Type :=
| Ok (a : A)
| Raise (e : exn).
Arguments Ok {A} a.
Arguments Raise {A} e.

(** A reference to a list object. *)
Definition ref : Type := nat.

Section Store.
Context {V : Type}.

(** A computation over the store of list objects.  The store is
    returned also when an exception is raised: what was mutated
    before stays mutated. *)
Definition M (A : Type) : Type :=
  gmap nat (list V) -> outcome A * gmap nat (list V).

Definition ret {A} (a : A) : M A := fun h => (Ok a, h).

Definition raise {A} (e : exn) : M A := fun h => (Raise e, h).

Definition bind {A B} (m : M A) (k : A -> M B) : M B :=
  fun h =>
    match m h with
    | (Ok a, h') => k a h'
    | (Raise e, h') => (Raise e, h')
    end.

(** The list a reference denotes (a reference that was never
    allocated denotes the empty list; no program below makes one). *)
Definition content (h : gmap nat (list V)) (r : ref) : list V :=
  match h !! r with
  | Some l => l
  | None => []
  end.

Definition deref (r : ref) : M (list V) :=
  fun h => (Ok (content h r), h).

(** A new list object with the given elements. *)
Definition new_list (l : list V) : M ref :=
  fun h => let r := fresh (dom h) in (Ok r, <[r := l]> h).

(** [r.copy()] *)
Definition copy (r : ref) : M ref :=
  bind (deref r) new_list.

(** [r += xs]: extends the object in place. *)
Definition iadd (r : ref) (xs : list V) : M unit :=
  fun h => (Ok tt, <[r := content h r ++ xs]> h).

(** [r += r[:1]] *)
Definition close_loop (r : ref) : M unit :=
  bind (deref r) (fun l => iadd r (firstn 1 l)).

(** [r[i]] *)
Definition index (r : ref) (i : nat) : M V :=
  bind (deref r) (fun l =>
    match nth_error l i with
    | Some v => ret v
    | None => raise IndexError
    end).

(** A [for] loop that collects one result per element. *)
Fixpoint for_each {A B} (f : A -> M B) (l : list A) : M (list B) :=
  match l with
  | [] => ret []
  | a :: l' =>
      bind (f a) (fun b => bind (for_each f l') (fun bs => ret (b :: bs)))
  end.

End Store.

Arguments M V A : clear implicits.

End PyHeap.

Notation "'let!' x ':=' m 'in' k" := (PyHeap.bind m (fun x => k))
  (at level 10, x name, m at level 100, k at level 200).
Notation "'do!' m 'in' k" := (PyHeap.bind m (fun _ => k))
  (at level 10, m at level 100, k at level 200).

(** ** The radar geometry shared by the two [create_radar_chart] *)

Module Radar.
Import PyHeap.

(** [n / float(N) * 2 * pi] *)
Definition angle (N n : nat) : R := (INR n / INR N * 2 * PI)%R.

(** [angles = [... for n in range(N)]] followed by [angles += angles[:1]] *)
Definition closed_angles (N : nat) : list R :=
  let angles := map (angle N) (seq 0 N) in
  angles ++ firstn 1 angles.

Section Geometry.
Context {V L : Type}.

(** [max_value - val], an [int] minus an entry of the list. *)
Variable rsub : Z -> V -> V.

(** What is drawn on the polar axes. *)
Record polygon : Type := {
  angles : list R;                  (* the angle of every plotted point *)
  ngo_line : list V;                (* outward series: radius = value *)
  community_outer : list Z;         (* the faint outer ring *)
  community_fill_values : list V;   (* inward series: the inner boundary *)
  xticks : list R;                  (* [angles[:-1]] *)
  xticklabels : list L
}.

(** The part of [create_radar_chart] that the two files have in
    common: close the angle list, close both value lists IN PLACE,
    plot.  matplotlib refuses to plot x and y of different lengths. *)
Definition geometry (ngo_capabilities community_capacities : ref)
    (categories : list L) : M V polygon :=
  let N := length categories in
  let angles := closed_angles N in
  do! close_loop ngo_capabilities in
  do! close_loop community_capacities in
  let! ngo := deref ngo_capabilities in
  if negb (length angles =? length ngo)%nat then raise ValueError else
  let max_value := 10%Z in
  let! comm := deref community_capacities in
  let community_outer := repeat max_value (length comm) in
  let community_fill_values := map (fun val => rsub max_value val) comm in
  if negb (length angles =? length comm)%nat then raise ValueError else
  ret {| angles := angles;
         ngo_line := ngo;
         community_outer := community_outer;
         community_fill_values := community_fill_values;
         xticks := removelast angles;
         xticklabels := categories |}.

End Geometry.

Arguments polygon V L : clear implicits.

End Radar.

(** ** NGOexcelspider.py: the tabular workflow *)

Module Excel.
Import PyStr PyNum PyHeap.

(** *** The uploaded table *)

(** One field of the table, as pandas hands it to the code:
    - [Number v]: a Python number ([Number NaN] is a missing field);
    - [NumStr s v]: the [str] [s], which spells the number [v] (the cells
      of a column that also holds text stay strings);
    - [Text s]: a [str] that does not spell a number. *)
Inductive cell : Type :=
| Number (v : pyfloat)
| NumStr (s : string) (v : pyfloat)
| Text (s : string).

(** [pd.to_numeric(x)] on one field; [None] is [ValueError]. *)
Definition pd_to_numeric (x : cell) : option pyfloat :=
  match x with
  | Number v => Some v
  | NumStr _ v => Some v
  | Text _ => None
  end.

(** [float(x)]; [None] is [ValueError]. *)
Definition py_float (x : cell) : option pyfloat :=
  match x with
  | Number v => Some v
  | NumStr _ v => Some v
  | Text _ => None
  end.

(** The uploaded file as pandas tokenizes it: its lines, each split into
    its fields, every field as the value pandas makes of it. *)
Definition csv_file : Type := list (list cell).

Record DataFrame : Type := {
  columns : list cell;        (* the column names *)
  rows : list (list cell)
}.

(** [pd.read_csv(uploaded_file)] with its default [header='infer']: the
    FIRST LINE of the file becomes the column names and is not a row of
    the frame.  [None] is the exception pandas raises on an empty file.
    This is what pandas does with a file whose lines all have as many
    fields as the first one; what it does with a longer line (an error,
    or the leading fields taken as row labels) and with a blank line is
    not followed here, so statements about files that are not given
    line by line assume [well_formed] below. *)
Definition read_csv (uploaded_file : csv_file) : option DataFrame :=
  match uploaded_file with
  | [] => None
  | names :: lines => Some {| columns := names; rows := lines |}
  end.

(** [df.shape] *)
Definition shape0 (df : DataFrame) : nat := length (rows df).
Definition shape1 (df : DataFrame) : nat := length (columns df).

(** The field in column [c] of a row (a short line is padded with
    missing values). *)
Definition entry (c : nat) (row : list cell) : cell := nth c row (Number NaN).

(** [df.iloc[start:stop, c].tolist()]; a slice never raises. *)
Definition iloc_slice (df : DataFrame) (start stop c : nat) : list cell :=
  map (entry c) (firstn (stop - start) (skipn start (rows df))).

(** *** load_data_from_csv *)

(** The messages [load_data_from_csv] shows before it returns
    [None, None, None]. *)
Inductive load_error : Type :=
| SchemaError            (* "CSV file must have at least 3 columns ..." *)
| RowCountError (n : nat) (* "CSV file must have at least {n} rows of data
                              (including headers if present)" *)
| NotNineRows            (* "Expected exactly 9 rows of data" *)
| TypeError              (* "All capacity values must be numeric. ..." *)
| RangeError (row : nat) (* "Values in row {row} are out of range. All
                              values must be between 0 and 10." *)
| ReadError.             (* "Error reading CSV file: {e}" *)

(** What a successful load returns. *)
Record Assessment : Type := {
  themes : list cell;
  community_capacities : list pyfloat;
  ngo_capabilities : list pyfloat
}.

(** The header test on row 0 of the frame: [start_row].  [None] is the
    [IndexError] of [df.iloc[0, 1]] on a frame without rows, which the
    inner [except (ValueError, TypeError)] does not catch. *)
Definition start_row (df : DataFrame) : option nat :=
  match rows df with
  | [] => None
  | row0 :: _ =>
      match pd_to_numeric (entry 1 row0), pd_to_numeric (entry 2 row0) with
      | Some _, Some _ => Some 0
      | _, _ => Some 1
      end
  end.

(** [[float(x) for x in l]] *)
Fixpoint floats (l : list cell) : option (list pyfloat) :=
  match l with
  | [] => Some []
  | x :: l' =>
      match py_float x, floats l' with
      | Some v, Some vs => Some (v :: vs)
      | _, _ => None
      end
  end.

(** [0 <= v <= 10] *)
Definition in_range (v : pyfloat) : bool :=
  fle (of_int 0) v && fle v (of_int 10).

(** The range loop over [enumerate(zip(community, ngo))], from index
    [i]: the index of the first pair with a value out of range. *)
Fixpoint first_out_of_range (i : nat) (comm ngo : list pyfloat) : option nat :=
  match comm, ngo with
  | comm_cap :: comm', ngo_cap :: ngo' =>
      if negb (in_range comm_cap) || negb (in_range ngo_cap) then Some i
      else first_out_of_range (S i) comm' ngo'
  | _, _ => None
  end.

(** The body of [load_data_from_csv] once the frame is read. *)
Definition normalize (df : DataFrame) : load_error + Assessment :=
  if (shape1 df <? 3)%nat then inl SchemaError else
  match start_row df with
  | None => inl ReadError
  | Some start_row =>
      let end_row := start_row + 9 in
      if (shape0 df <? end_row)%nat then inl (RowCountError (9 + start_row)) else
      let themes := iloc_slice df start_row end_row 0 in
      let community_capacities := iloc_slice df start_row end_row 1 in
      let ngo_capabilities := iloc_slice df start_row end_row 2 in
      if negb (length themes =? 9)%nat
         || negb (length community_capacities =? 9)%nat
         || negb (length ngo_capabilities =? 9)%nat
      then inl NotNineRows else
      match floats community_capacities, floats ngo_capabilities with
      | Some community_capacities, Some ngo_capabilities =>
          match first_out_of_range 0 community_capacities ngo_capabilities with
          | Some i => inl (RangeError (i + start_row + 1))
          | None =>
              inr {| themes := themes;
                     community_capacities := community_capacities;
                     ngo_capabilities := ngo_capabilities |}
          end
      | _, _ => inl TypeError
      end
  end.

Definition load_data_from_csv (uploaded_file : csv_file)
  : load_error + Assessment :=
  match read_csv uploaded_file with
  | None => inl ReadError
  | Some df => normalize df
  end.

(** *** create_radar_chart *)

(** The figure: the polar plot, the radial grid [range(0, 11)], and the
    numbers 1..10 written along the two series, each as
    (angle, radius, number). *)
Record figure : Type := {
  plot : Radar.polygon pyfloat cell;
  yticks : list Z;
  ngo_numbers : list (R * Z * Z);
  community_numbers : list (R * Z * Z)
}.

Definition create_radar_chart (ngo_capabilities community_capacities : ref)
    (categories : list cell) : M pyfloat figure :=
  let N := length categories in
  let! plot := Radar.geometry (fun max_value val => fsub (of_int max_value) val)
                 ngo_capabilities community_capacities categories in
  let one_to_ten := map Z.of_nat (seq 1 10) in
  let ngo_numbers := map (fun i => (0%R, i, i)) one_to_ten in
  (* [angle_offset = pi/N] *)
  if (N =? 0)%nat then raise ZeroDivisionError else
  let angle_offset := (PI / INR N)%R in
  let community_numbers :=
    map (fun i => (angle_offset, (10 - i + 1)%Z, i)) one_to_ten in
  ret {| plot := plot;
         yticks := map Z.of_nat (seq 0 11);
         ngo_numbers := ngo_numbers;
         community_numbers := community_numbers |}.

(** *** Theme-by-theme assessment *)

(** The dict [strategic_recommendations], in its insertion order, which
    is the order [.items()] iterates in. *)
Definition strategic_recommendations : list (string * string) :=
  [ ("1.1 Awareness & Education",
     "improving communication on the effects of conservation, or reaching out to younger generations");
    ("1.2 Community Governance",
     "strengthening ties with community members to gain trust");
    ("1.3 Tradition Preservation",
     "collaborating with the community to include traditional elements in ecotourism");
    ("2.1 Income & Revenue",
     "adapting business model to increase the portion of the revenue reserved for tour guide salaries and conservation");
    ("2.2 Employment",
     "offer employment to more local residents with opportunities to develop skills and expertise");
    ("2.3 Amenities",
     "improve infrastructure for the daily lives of residents and adapt it to accommodate tourists");
    ("3.1 Habitat Conservation",
     "creating habitat improvements for the natural resource");
    ("3.2 Shark Preservation",
     "strengthening fishing conservation efforts");
    ("3.3 Protected Area",
     "strengthening and implementing area protection regulations") ].

(** [key.lower() in theme.lower() or
     any(word in theme.lower() for word in key.lower().split())] *)
Definition key_matches (key theme : string) : bool :=
  contains (lower key) (lower theme)
  || existsb (fun word => contains word (lower theme)) (split (lower key)).

(** The [for key, value in ...items()] loop with its [break]. *)
Fixpoint first_match (items : list (string * string)) (theme : string)
  : option string :=
  match items with
  | [] => None
  | (key, value) :: items' =>
      if key_matches key theme then Some value else first_match items' theme
  end.

Definition find_recommendation (theme : string) : string :=
  match first_match strategic_recommendations theme with
  | Some recommendation => recommendation
  | None => "general strategic adjustments"
  end.

(** The four branches of the two [if score == 0 / elif score > 0 /
    elif score < -2 / else] chains (green, orange, red, blue). *)
Inductive band : Type := Aligned | Redundant | Gap | PartialGap.

Definition classify (score : pyfloat) : band :=
  if feq score (of_int 0) then Aligned
  else if flt (of_int 0) score then Redundant
  else if flt score (of_int (-2)) then Gap
  else PartialGap.

Definition colour (b : band) : string :=
  match b with
  | Aligned => "green"
  | Redundant => "orange"
  | Gap => "red"
  | PartialGap => "blue"
  end.

(** [score = -10 + ngo_cap + comm_cap]: two additions from the left,
    each rounded. *)
Definition theme_score (ngo_cap comm_cap : pyfloat) : pyfloat :=
  fadd64 (fadd64 (of_int (-10)) ngo_cap) comm_cap.

(** The text of a theme that is a [str]; a number has no [.lower()]. *)
Definition theme_text (theme : cell) : option string :=
  match theme with
  | Number _ => None
  | NumStr s _ => Some s
  | Text s => Some s
  end.

(** One line of the assessment: theme, score, colour of the score, and
    the comment next to it. *)
Record theme_row : Type := {
  row_theme : cell;
  row_score : pyfloat;
  row_band : band;
  row_comment : string
}.

Definition comment (b : band) (theme : cell) : option string :=
  match b with
  | Aligned =>
      Some "Congratulations! On this theme, the project seems to be suitable for this community."
  | Redundant =>
      Some "The capacity and capability seems to overlap for this theme. The added benefit from the NGO's strategy may be negated. Strategic effort should be placed on other themes."
  | Gap =>
      Some "There is a gap between the community context and the strategy of the NGO. It might be indicative of a bad fit."
  | PartialGap =>
      match theme_text theme with
      | None => None
      | Some t =>
          Some ("There is a gap between the community context and the strategy of the NGO. This could potentially be solved by changing the strategy to include: "
                ++ find_recommendation t)%string
      end
  end.

(** The body of [for i, theme in enumerate(themes)]. *)
Definition assess (ngo_capabilities community_capacities : ref)
    (i : nat) (theme : cell) : M pyfloat theme_row :=
  let! ngo_cap := index ngo_capabilities i in
  let! comm_cap := index community_capacities i in
  let score := theme_score ngo_cap comm_cap in
  match comment (classify score) theme with
  | None => raise AttributeError
  | Some text =>
      ret {| row_theme := theme;
             row_score := score;
             row_band := classify score;
             row_comment := text |}
  end.

(** What [main] puts on the page. *)
Inductive page : Type :=
| NoUpload
| Rejected (e : load_error)
| Assessed (preview : Assessment) (fig : figure) (assessment : list theme_row).

(** [main], from the upload on.  The two vectors are list objects; the
    chart gets copies of them. *)
Definition main (uploaded_file : option csv_file) : M pyfloat page :=
  match uploaded_file with
  | None => ret NoUpload
  | Some file =>
      match load_data_from_csv file with
      | inl e => ret (Rejected e)
      | inr loaded =>
          let themes := themes loaded in
          let! community_capacities := new_list (community_capacities loaded) in
          let! ngo_capabilities := new_list (ngo_capabilities loaded) in
          let! ngo_copy := copy ngo_capabilities in
          let! community_copy := copy community_capacities in
          let! fig := create_radar_chart ngo_copy community_copy themes in
          let! assessment :=
            for_each (fun it => assess ngo_capabilities community_capacities
                                  (fst it) (snd it))
                     (combine (seq 0 (length themes)) themes) in
          ret (Assessed loaded fig assessment)
      end
  end.

End Excel.

(** ** NGOsliderspider.py: the slider workflow *)

Module Slider.
Import PyNum PyHeap.

(** The figure: the polar plot and the labelled radial grid
    [range(0, 11, 2)]. *)
Record figure : Type := {
  plot : Radar.polygon Z string;
  yticks : list Z
}.

Definition create_radar_chart (ngo_capabilities community_capacities : ref)
    (categories : list string) : M Z figure :=
  let! plot := Radar.geometry (fun max_value val => (max_value - val)%Z)
                 ngo_capabilities community_capacities categories in
  ret {| plot := plot; yticks := [0; 2; 4; 6; 8; 10]%Z |}.

(** The sustainability themes of [main]. *)
Definition themes : list string :=
  [ "Generational Development"; "Community Cohesion";
    "Tradition Preservation"; "Infrastructure"; "Employment"; "Revenue";
    "Habitat Conservation"; "Shark Population"; "Protected Land" ].

(** The constant NGO capabilities of [main]. *)
Definition ngo_capabilities : list Z := [5; 4; 5; 3; 4; 2; 4; 6; 6]%Z.

(** [min(ngo_cap, comm_cap) + (abs(ngo_cap - comm_cap) * 0.1)] on two
    Python [int]s. *)
Definition fit_score (ngo_cap comm_cap : Z) : pyfloat :=
  fadd (of_int (Z.min ngo_cap comm_cap))
       (fmul (of_int (Z.abs (ngo_cap - comm_cap))) (Fin (1 # 10))).

(** The three messages under the metric. *)
Inductive verdict : Type := Excellent | Good | Limited.

Definition recommend (overall_fit : pyfloat) : verdict :=
  if fle (of_int 8) overall_fit then Excellent
  else if fle (of_int 6) overall_fit then Good
  else Limited.

(** [for ngo_cap, comm_cap in zip(ngo[:-1], comm)] *)
Definition fit_scores (ngo comm : list Z) : list pyfloat :=
  map (fun p => fit_score (fst p) (snd p)) (combine (removelast ngo) comm).

(** What [main] puts on the page. *)
Record page : Type := {
  chart : figure;
  overall_fit : pyfloat;
  advice : verdict
}.

(** [main]; [slider theme] is the position of the slider of that theme,
    an [int] the widget keeps between 0 and 10. *)
Definition main (slider : string -> Z) : M Z page :=
  let themes := themes in
  let! ngo_capabilities := new_list ngo_capabilities in
  let! community_capacities := new_list [] in
  do! for_each (fun theme => iadd community_capacities [slider theme]) themes in
  let! ngo_copy := copy ngo_capabilities in
  let! community_copy := copy community_capacities in
  let! fig := create_radar_chart ngo_copy community_copy themes in
  let! ngo := deref ngo_capabilities in
  let! comm := deref community_capacities in
  let overall_fit := mean (fit_scores ngo comm) in
  ret {| chart := fig;
         overall_fit := overall_fit;
         advice := recommend overall_fit |}.

End Slider.

(** ** Vocabulary of the statements *)

(** [l + l[:1]]: a list followed by its own first element. *)
Definition closed {V : Type} (l : list V) : list V := l ++ firstn 1 l.

(** The ten angles of a nine-sided chart: the nine base angles
    [2 pi i / 9] in increasing order below the full turn, then the
    first one again. *)
Definition nine_angles (a : list R) : Prop :=
  length a = 10
  /\ (forall i, (i < 9)%nat -> nth i a 0%R = (2 * PI * INR i / 9)%R)
  /\ (forall i j, (i < j)%nat -> (j < 9)%nat -> (nth i a 0 < nth j a 0)%R)
  /\ (nth 8 a 0 < 2 * PI)%R
  /\ nth 9 a 0%R = nth 0 a 0%R.

(** The overall fit as the specification words it: the mean of the
    scores of ALL dimensions.  [Slider.main] is compared with it. *)
Definition spec_overall_fit (ngo comm : list Z) : PyNum.pyfloat :=
  PyNum.mean (map (fun p => Slider.fit_score (fst p) (snd p)) (combine ngo comm)).

(** A float that is a number between 0 and 10. *)
Definition on_scale (v : PyNum.pyfloat) : Prop :=
  exists q, v = PyNum.Fin q /\ (0 <= q)%Q /\ (q <= 10)%Q.

(** The figure the tabular [create_radar_chart] returns for given
    categories and values of its two lists at the call. *)
Definition excel_figure (categories : list Excel.cell)
    (ngo comm : list PyNum.pyfloat) : Excel.figure :=
  let N := length categories in
  {| Excel.plot :=
       {| Radar.angles := Radar.closed_angles N;
          Radar.ngo_line := closed ngo;
          Radar.community_outer := repeat 10%Z (length (closed comm));
          Radar.community_fill_values :=
            map (PyNum.fsub (PyNum.of_int 10)) (closed comm);
          Radar.xticks := removelast (Radar.closed_angles N);
          Radar.xticklabels := categories |};
     Excel.yticks := map Z.of_nat (seq 0 11);
     Excel.ngo_numbers := map (fun i => (0%R, i, i)) (map Z.of_nat (seq 1 10));
     Excel.community_numbers :=
       map (fun i => ((PI / INR N)%R, (10 - i + 1)%Z, i))
           (map Z.of_nat (seq 1 10)) |}.

(** The figure the slider [create_radar_chart] returns. *)
Definition slider_figure (categories : list string) (ngo comm : list Z)
  : Slider.figure :=
  let N := length categories in
  {| Slider.plot :=
       {| Radar.angles := Radar.closed_angles N;
          Radar.ngo_line := closed ngo;
          Radar.community_outer := repeat 10%Z (length (closed comm));
          Radar.community_fill_values := map (Z.sub 10) (closed comm);
          Radar.xticks := removelast (Radar.closed_angles N);
          Radar.xticklabels := categories |};
     Slider.yticks := [0; 2; 4; 6; 8; 10]%Z |}.

(** One pass of the loop of the tabular [main] on values, not on
    references: the row of a theme, or nothing when [theme.lower()]
    raises. *)
Definition expected_row (theme : Excel.cell) (ngo_cap comm_cap : PyNum.pyfloat)
  : option Excel.theme_row :=
  let score := Excel.theme_score ngo_cap comm_cap in
  match Excel.comment (Excel.classify score) theme with
  | None => None
  | Some text =>
      Some {| Excel.row_theme := theme;
              Excel.row_score := score;
              Excel.row_band := Excel.classify score;
              Excel.row_comment := text |}
  end.

(** The whole loop on values: all the rows, or nothing as soon as one
    theme raises. *)
Fixpoint expected_rows (themes : list Excel.cell)
    (ngo comm : list PyNum.pyfloat) : option (list Excel.theme_row) :=
  match themes, ngo, comm with
  | theme :: themes', ngo_cap :: ngo', comm_cap :: comm' =>
      match expected_row theme ngo_cap comm_cap with
      | None => None
      | Some row =>
          match expected_rows themes' ngo' comm' with
          | None => None
          | Some rows => Some (row :: rows)
          end
      end
  | _, _, _ => Some []
  end.

(** ** Sample inputs *)

(** The header line and the nine data lines of the example table that
    [NGOexcelspider.py] keeps in a comment. *)
Definition sample_header : list Excel.cell :=
  [Excel.Text "Theme"; Excel.Text "Community Capacity"; Excel.Text "NGO Capability"].

Definition sample_line (theme : string) (comm ngo : Z) : list Excel.cell :=
  [Excel.Text theme; Excel.Number (PyNum.of_int comm); Excel.Number (PyNum.of_int ngo)].

Definition sample_lines : list (list Excel.cell) :=
  [ sample_line "1.1 Awareness & Education" 7 8;
    sample_line "1.2 Community Governance" 5 6;
    sample_line "1.3 Tradition Preservation" 8 7;
    sample_line "2.1 Income & Revenue" 6 5;
    sample_line "2.2 Employment" 4 7;
    sample_line "2.3 Amenities" 5 4;
    sample_line "3.1 Habitat Conservation" 9 9;
    sample_line "3.2 Shark Preservation" 7 8;
    sample_line "3.3 Protected Area" 8 9 ].

Definition sample_themes : list Excel.cell := map (Excel.entry 0) sample_lines.
Definition sample_community : list PyNum.pyfloat :=
  map PyNum.of_int [7; 5; 8; 6; 4; 5; 9; 7; 8]%Z.
Definition sample_ngo : list PyNum.pyfloat :=
  map PyNum.of_int [8; 6; 7; 5; 7; 4; 9; 8; 9]%Z.

(** The sample lines with a community capacity of 11 in the fifth data
    line. *)
Definition bad_lines : list (list Excel.cell) :=
  [ sample_line "1.1 Awareness & Education" 7 8;
    sample_line "1.2 Community Governance" 5 6;
    sample_line "1.3 Tradition Preservation" 8 7;
    sample_line "2.1 Income & Revenue" 6 5;
    sample_line "2.2 Employment" 11 7;
    sample_line "2.3 Amenities" 5 4;
    sample_line "3.1 Habitat Conservation" 9 9;
    sample_line "3.2 Shark Preservation" 7 8;
    sample_line "3.3 Protected Area" 8 9 ].

(** The lines of [bad_lines] with, moreover, a word for the NGO
    capability of the ninth data line. *)
Definition mixed_lines : list (list Excel.cell) :=
  firstn 8 bad_lines
  ++ [[Excel.Text "3.3 Protected Area"; Excel.Number (PyNum.of_int 8);
       Excel.Text "high"]].

(** A title line, as a spreadsheet export may put above the header. *)
Definition title_line : list Excel.cell :=
  [Excel.Text "Assessment"; Excel.Text ""; Excel.Text ""].

(** The sample lines with the themes numbered 1 to 9 instead of named:
    pandas reads such a column as numbers. *)
Definition numbered_lines : list (list Excel.cell) :=
  map (fun it => Excel.Number (PyNum.of_int (Z.of_nat (fst it))) :: tl (snd it))
      (combine (seq 1 9) sample_lines).

(** The sample lines with the community capacity of the third data
    line left empty. *)
Definition gap_lines : list (list Excel.cell) :=
  firstn 2 sample_lines
  ++ [[Excel.Text "1.3 Tradition Preservation"; Excel.Number PyNum.NaN;
       Excel.Number (PyNum.of_int 7)]]
  ++ skipn 3 sample_lines.

(** A tenth data line. *)
Definition extra_line : list Excel.cell := sample_line "4.1 Outreach" 2 3.

(** The same message about a table with one more row on top. *)
Definition one_row_down (e : Excel.load_error) : Excel.load_error :=
  match e with
  | Excel.RowCountError n => Excel.RowCountError (S n)
  | Excel.RangeError row => Excel.RangeError (S row)
  | _ => e
  end.

(** What loading the sample table returns. *)
Definition sample_assessment : Excel.Assessment :=
  {| Excel.themes := sample_themes;
     Excel.community_capacities := sample_community;
     Excel.ngo_capabilities := sample_ngo |}.

(** Two positions of the sliders: all at their default 0, and all at 0
    but the last theme, [Protected Land], at 10. *)
Definition sliders_at_rest (theme : string) : Z := 0%Z.

Definition last_slider_up (theme : string) : Z :=
  if String.eqb theme "Protected Land" then 10%Z else 0%Z.

(** A store holding two list objects, at references 0 and 1. *)
Definition two_lists {V : Type} (l0 l1 : list V) : gmap nat (list V) :=
  <[1 := l1]> (<[0 := l0]> ∅).

(** ** Well-formed files *)

(** A character of printable ASCII. *)
Definition printable (c : ascii) : bool :=
  let n := nat_of_ascii c in ((32 <=? n) && (n <=? 126))%nat.

Definition plain_cell (x : Excel.cell) : bool :=
  match x with
  | Excel.Number _ => true
  | Excel.NumStr s _ => forallb printable (list_ascii_of_string s)
  | Excel.Text s => forallb printable (list_ascii_of_string s)
  end.

(** A file that [pd.read_csv] reads field by field into a frame: plain
    text, a first line of at least two fields (so that no line is
    blank), and every other line with as many fields as the first. *)
Definition well_formed (file : Excel.csv_file) : bool :=
  match file with
  | [] => false
  | names :: lines =>
      (2 <=? length names)%nat
      && forallb (fun line => (length line =? length names)%nat) lines
      && forallb (forallb plain_cell) file
  end.

(** The header test of the code, on any line: does [pd.to_numeric] take
    fields 2 and 3 for numbers? *)
Definition numeric_line (line : list Excel.cell) : bool :=
  match Excel.pd_to_numeric (Excel.entry 1 line),
        Excel.pd_to_numeric (Excel.entry 2 line) with
  | Some _, Some _ => true
  | _, _ => false
  end.

(** A data row: a line whose fields 2 and 3 are numbers for the header
    test and for [float] alike. *)
Definition data_row (line : list Excel.cell) : bool :=
  numeric_line line
  && match Excel.py_float (Excel.entry 1 line),
           Excel.py_float (Excel.entry 2 line) with
     | Some _, Some _ => true
     | _, _ => false
     end.

(** The Assessment made of the first nine of some data rows, given the
    coerced values of their columns 2 and 3. *)
Definition first_nine (data : list (list Excel.cell))
    (comm ngo : list PyNum.pyfloat) : Excel.Assessment :=
  {| Excel.themes := map (Excel.entry 0) (firstn 9 data);
     Excel.community_capacities := comm;
     Excel.ngo_capabilities := ngo |}.

(** ** Binary64 numbers *)

(** The rational a finite machine float stands for. *)
Definition binary64_value (f : float) : option Q :=
  match Prim2SF f with
  | S754_zero _ => Some 0%Q
  | S754_finite s m e =>
      Some (Qred ((if s then -1 else 1) * inject_Z (Zpos m) * PyNum.pow2 e))
  | _ => None
  end.

(** The binary64 numbers nearest to 0.54, 7.46, 0.1 and 9.9: what
    [float] makes of these fields. *)
Definition b64_0_54 : Q := 607985949695017 # 1125899906842624.
Definition b64_7_46 : Q := 8399213305045975 # 1125899906842624.
Definition b64_0_1 : Q := 3602879701896397 # 36028797018963968.
Definition b64_9_9 : Q := 5573204538870989 # 562949953421312.

(** Pairs of machine floats to add, among them the additions of the
    theme score on the four numbers above. *)
Definition sample_additions : list (float * float) :=
  [ ((-0x1.4p+3)%float, 0x1.147ae147ae148p-1%float);
    ((-0x1.2eb851eb851ecp+3)%float, 0x1.dd70a3d70a3d7p+2%float);
    ((-0x1.4p+3)%float, 0x1.999999999999ap-4%float);
    ((-0x1.3cccccccccccdp+3)%float, 0x1.3cccccccccccdp+3%float);
    (0x1.999999999999ap-4%float, 0x1.999999999999ap-3%float);
    (0x1p+0%float, 0x1p-53%float);
    (0x1p+0%float, 0x1.8p-53%float);
    (0x1.0000000000001p+0%float, 0x1p-53%float);
    (0x1p-1074%float, 0x1p-1074%float);
    (0x1.fffffffffffffp-1%float, 0x1p-54%float);
    ((-0x1.8p+1)%float, 0x1.5555555555555p-2%float) ].

(** * Properties *)

(** ** The store *)

Section StoreFacts.
Context {V : Type}.
Implicit Types (h : gmap nat (list V)) (r : PyHeap.ref) (l : list V).

Lemma content_lookup h r l : h !! r = Some l -> PyHeap.content h r = l.
Proof. intros Hr. unfold PyHeap.content. now rewrite Hr. Qed.

Lemma length_closed l : length (l ++ firstn 1 l) = length l + Nat.min 1 (length l).
Proof. now rewrite length_app, length_firstn. Qed.

(** [r += r[:1]] replaces the object behind [r] and nothing else. *)
Lemma close_loop_run r h l :
  h !! r = Some l ->
  PyHeap.close_loop r h = (PyHeap.Ok tt, <[r := l ++ firstn 1 l]> h).
Proof.
  intros Hr. unfold PyHeap.close_loop, PyHeap.bind, PyHeap.deref, PyHeap.iadd.
  now rewrite (content_lookup _ _ _ Hr).
Qed.

(** A new object gets a reference that was not in use. *)
Lemma new_list_run l h :
  exists r, h !! r = None /\ PyHeap.new_list l h = (PyHeap.Ok r, <[r := l]> h).
Proof.
  exists (fresh (dom h)). split; [|reflexivity].
  apply not_elem_of_dom, is_fresh.
Qed.

Lemma copy_run r l h :
  h !! r = Some l ->
  exists r', h !! r' = None /\ PyHeap.copy r h = (PyHeap.Ok r', <[r' := l]> h).
Proof.
  intros Hr. destruct (new_list_run l h) as (r' & Hfresh & Hrun).
  exists r'. split; [assumption|].
  unfold PyHeap.copy, PyHeap.bind, PyHeap.deref.
  now rewrite (content_lookup _ _ _ Hr).
Qed.

(** A loop whose body leaves the store alone leaves the store alone. *)
Lemma for_each_store {A B} (f : A -> PyHeap.M V B) (xs : list A) :
  (forall a h, snd (f a h) = h) -> forall h, snd (PyHeap.for_each f xs h) = h.
Proof.
  intros Hf. induction xs as [|a xs IH]; intros h; [reflexivity|].
  simpl. unfold PyHeap.bind at 1.
  specialize (Hf a h). destruct (f a h) as [[b|e] h1]; simpl in Hf; subst h1;
    [|reflexivity].
  unfold PyHeap.bind. specialize (IH h).
  destruct (PyHeap.for_each f xs h) as [[bs|e] h2]; simpl in IH; now subst.
Qed.

End StoreFacts.

(** ** The shared geometry *)

Section GeometryFacts.
Context {V L : Type} (rsub : Z -> V -> V).

Lemma closed_angles_length N :
  length (Radar.closed_angles N) = N + Nat.min 1 N.
Proof.
  unfold Radar.closed_angles.
  now rewrite length_closed, length_map, length_seq.
Qed.

(** The store after the shared part of [create_radar_chart], whatever
    its outcome: both argument lists are closed in place, the first
    argument first. *)
Lemma geometry_store (r1 r2 : PyHeap.ref) (cats : list L)
    (h : gmap nat (list V)) (l1 : list V) :
  h !! r1 = Some l1 ->
  let h1 := <[r1 := l1 ++ firstn 1 l1]> h in
  let l2 := PyHeap.content h1 r2 in
  snd (Radar.geometry rsub r1 r2 cats h) = <[r2 := l2 ++ firstn 1 l2]> h1.
Proof.
  intros H1 h1 l2. unfold Radar.geometry.
  unfold PyHeap.bind at 1. rewrite (close_loop_run _ _ _ H1). fold h1.
  unfold PyHeap.bind at 1.
  unfold PyHeap.close_loop at 1, PyHeap.bind at 1, PyHeap.deref at 1, PyHeap.iadd.
  fold l2.
  unfold PyHeap.bind, PyHeap.deref, PyHeap.raise, PyHeap.ret.
  repeat match goal with |- context [if ?b then _ else _] => destruct b end;
    reflexivity.
Qed.

(** The run of the shared part on two distinct lists as long as the
    list of categories. *)
Lemma geometry_run (r1 r2 : PyHeap.ref) (cats : list L)
    (h : gmap nat (list V)) (l1 l2 : list V) :
  r1 <> r2 -> h !! r1 = Some l1 -> h !! r2 = Some l2 ->
  length l1 = length cats -> length l2 = length cats ->
  Radar.geometry rsub r1 r2 cats h =
    (PyHeap.Ok
       {| Radar.angles := Radar.closed_angles (length cats);
          Radar.ngo_line := l1 ++ firstn 1 l1;
          Radar.community_outer := repeat 10%Z (length (l2 ++ firstn 1 l2));
          Radar.community_fill_values := map (rsub 10%Z) (l2 ++ firstn 1 l2);
          Radar.xticks := removelast (Radar.closed_angles (length cats));
          Radar.xticklabels := cats |},
     <[r2 := l2 ++ firstn 1 l2]> (<[r1 := l1 ++ firstn 1 l1]> h)).
Proof.
  intros Hne H1 H2 Hl1 Hl2. unfold Radar.geometry.
  unfold PyHeap.bind at 1. rewrite (close_loop_run _ _ _ H1).
  unfold PyHeap.bind at 1.
  rewrite (close_loop_run r2 _ l2) by now rewrite lookup_insert_ne.
  unfold PyHeap.bind, PyHeap.deref, PyHeap.raise, PyHeap.ret.
  rewrite (content_lookup _ r1 (l1 ++ firstn 1 l1))
    by now rewrite lookup_insert_ne, lookup_insert_eq by congruence.
  rewrite closed_angles_length, length_closed, Hl1, Nat.eqb_refl.
  cbn [negb]. cbv beta.
  rewrite (content_lookup _ r2 (l2 ++ firstn 1 l2)) by apply lookup_insert_eq.
  rewrite length_closed, Hl2, Nat.eqb_refl.
  reflexivity.
Qed.

End GeometryFacts.

(** ** The two [create_radar_chart] *)

Lemma excel_chart_store r1 r2 cats h :
  snd (Excel.create_radar_chart r1 r2 cats h)
  = snd (Radar.geometry (fun m v => PyNum.fsub (PyNum.of_int m) v) r1 r2 cats h).
Proof.
  unfold Excel.create_radar_chart, PyHeap.bind.
  destruct (Radar.geometry _ r1 r2 cats h) as [[p|e] h']; [|reflexivity].
  now destruct (length cats =? 0)%nat.
Qed.

Lemma slider_chart_store r1 r2 cats h :
  snd (Slider.create_radar_chart r1 r2 cats h)
  = snd (Radar.geometry (fun m v => (m - v)%Z) r1 r2 cats h).
Proof.
  unfold Slider.create_radar_chart, PyHeap.bind.
  now destruct (Radar.geometry _ r1 r2 cats h) as [[p|e] h'].
Qed.

(** The tabular chart is drawn whenever there is a category and the two
    lists are distinct objects as long as the list of categories. *)
Lemma excel_chart_run r1 r2 (cats : list Excel.cell) h ngo comm :
  r1 <> r2 -> h !! r1 = Some ngo -> h !! r2 = Some comm ->
  length ngo = length cats -> length comm = length cats -> cats <> [] ->
  exists fig,
    Excel.create_radar_chart r1 r2 cats h
    = (PyHeap.Ok fig,
       <[r2 := comm ++ firstn 1 comm]> (<[r1 := ngo ++ firstn 1 ngo]> h))
    /\ Radar.angles (Excel.plot fig) = Radar.closed_angles (length cats)
    /\ Radar.ngo_line (Excel.plot fig) = ngo ++ firstn 1 ngo
    /\ Radar.community_outer (Excel.plot fig)
       = repeat 10%Z (length (comm ++ firstn 1 comm))
    /\ Radar.community_fill_values (Excel.plot fig)
       = map (PyNum.fsub (PyNum.of_int 10)) (comm ++ firstn 1 comm).
Proof.
  intros Hne H1 H2 Hl1 Hl2 Hcats.
  unfold Excel.create_radar_chart, PyHeap.bind.
  rewrite (geometry_run _ r1 r2 cats h ngo comm) by assumption.
  destruct cats as [|c cats]; [congruence|]. cbn [length Nat.eqb].
  eexists. split; [reflexivity|]. cbn. repeat split; reflexivity.
Qed.

Lemma slider_chart_run r1 r2 (cats : list string) h ngo comm :
  r1 <> r2 -> h !! r1 = Some ngo -> h !! r2 = Some comm ->
  length ngo = length cats -> length comm = length cats ->
  exists fig,
    Slider.create_radar_chart r1 r2 cats h
    = (PyHeap.Ok fig,
       <[r2 := comm ++ firstn 1 comm]> (<[r1 := ngo ++ firstn 1 ngo]> h))
    /\ Radar.angles (Slider.plot fig) = Radar.closed_angles (length cats)
    /\ Radar.ngo_line (Slider.plot fig) = ngo ++ firstn 1 ngo
    /\ Radar.community_outer (Slider.plot fig)
       = repeat 10%Z (length (comm ++ firstn 1 comm))
    /\ Radar.community_fill_values (Slider.plot fig)
       = map (Z.sub 10) (comm ++ firstn 1 comm).
Proof.
  intros Hne H1 H2 Hl1 Hl2.
  unfold Slider.create_radar_chart, PyHeap.bind.
  rewrite (geometry_run _ r1 r2 cats h ngo comm) by assumption.
  eexists. split; [reflexivity|]. cbn. repeat split; reflexivity.
Qed.

(** ** Angles *)

Lemma angle_formula N n : Radar.angle N n = (2 * PI * INR n / INR N)%R.
Proof. unfold Radar.angle, Rdiv. ring. Qed.

Lemma angle_first N : Radar.angle N 0 = 0%R.
Proof. unfold Radar.angle, Rdiv. simpl. ring. Qed.

Lemma angle_increasing N i j :
  (0 < N)%nat -> (i < j)%nat -> (Radar.angle N i < Radar.angle N j)%R.
Proof.
  intros HN Hij. unfold Radar.angle.
  pose proof PI_RGT_0 as Hpi.
  assert (HN' : (0 < INR N)%R) by (apply lt_0_INR; lia).
  assert (Hij' : (INR i < INR j)%R) by (apply lt_INR; lia).
  apply Rmult_lt_compat_r; [assumption|].
  apply Rmult_lt_compat_r; [Lra.lra|].
  apply Rmult_lt_compat_r; [|assumption].
  now apply Rinv_0_lt_compat.
Qed.

Lemma angle_below_full_turn N n :
  (n < N)%nat -> (Radar.angle N n < 2 * PI)%R.
Proof.
  intros Hn. unfold Radar.angle.
  pose proof PI_RGT_0 as Hpi.
  assert (HN' : (0 < INR N)%R) by (apply lt_0_INR; lia).
  assert (Hn' : (INR n < INR N)%R) by (apply lt_INR; lia).
  assert (Hq : (INR n / INR N < 1)%R).
  { apply Rmult_lt_reg_r with (INR N); [assumption|].
    unfold Rdiv. rewrite Rmult_assoc, Rinv_l by Lra.lra. Lra.lra. }
  assert (H2 : (INR n / INR N * 2 < 2)%R) by Lra.lra.
  apply Rmult_lt_compat_r with (r := PI) in H2; [exact H2|exact Hpi].
Qed.

Lemma closed_angles_nth N i :
  (i < N)%nat -> nth i (Radar.closed_angles N) 0%R = Radar.angle N i.
Proof.
  intros Hi. unfold Radar.closed_angles.
  rewrite app_nth1 by now rewrite length_map, length_seq.
  rewrite (nth_indep _ 0%R (Radar.angle N 0)) by now rewrite length_map, length_seq.
  now rewrite map_nth, seq_nth.
Qed.

Lemma closed_angles_last N :
  (0 < N)%nat ->
  nth N (Radar.closed_angles N) 0%R = nth 0 (Radar.closed_angles N) 0%R.
Proof.
  intros HN. rewrite (closed_angles_nth N 0 HN).
  unfold Radar.closed_angles.
  rewrite app_nth2 by (rewrite length_map, length_seq; lia).
  rewrite length_map, length_seq, Nat.sub_diag.
  destruct N as [|N]; [lia|]. reflexivity.
Qed.

Lemma nine_closed_angles : nine_angles (Radar.closed_angles 9).
Proof.
  unfold nine_angles. split; [apply closed_angles_length|].
  split.
  { intros i Hi. rewrite closed_angles_nth, angle_formula by assumption.
    replace (INR 9) with 9%R by (simpl; ring). reflexivity. }
  split.
  { intros i j Hij Hj. rewrite !closed_angles_nth by lia.
    apply angle_increasing; lia. }
  split.
  { rewrite closed_angles_nth by lia. apply angle_below_full_turn. lia. }
  apply (closed_angles_last 9). lia.
Qed.

(** C8. For nine categories both [create_radar_chart] compute the angles
    [2 pi i / 9], i = 0..8, strictly increasing and below [2 pi], and
    append the first angle again; the outward series is the first list
    followed by its own first value, and both argument lists are closed
    the same way (the inward series is drawn from the closed list). *)
Theorem radar_angles_close_the_loop :
  (forall r1 r2 (cats : list Excel.cell) h ngo comm,
     r1 <> r2 -> h !! r1 = Some ngo -> h !! r2 = Some comm ->
     length cats = 9 -> length ngo = 9 -> length comm = 9 ->
     exists fig h',
       Excel.create_radar_chart r1 r2 cats h = (PyHeap.Ok fig, h')
       /\ nine_angles (Radar.angles (Excel.plot fig))
       /\ Radar.ngo_line (Excel.plot fig) = closed ngo
       /\ Radar.community_fill_values (Excel.plot fig)
          = map (PyNum.fsub (PyNum.of_int 10)) (closed comm)
       /\ h' !! r1 = Some (closed ngo) /\ h' !! r2 = Some (closed comm))
  /\
  (forall r1 r2 (cats : list string) h ngo comm,
     r1 <> r2 -> h !! r1 = Some ngo -> h !! r2 = Some comm ->
     length cats = 9 -> length ngo = 9 -> length comm = 9 ->
     exists fig h',
       Slider.create_radar_chart r1 r2 cats h = (PyHeap.Ok fig, h')
       /\ nine_angles (Radar.angles (Slider.plot fig))
       /\ Radar.ngo_line (Slider.plot fig) = closed ngo
       /\ Radar.community_fill_values (Slider.plot fig)
          = map (Z.sub 10) (closed comm)
       /\ h' !! r1 = Some (closed ngo) /\ h' !! r2 = Some (closed comm)).
Proof.
  split; intros r1 r2 cats h ngo comm Hne H1 H2 Hc Hn Hm.
  - destruct (excel_chart_run r1 r2 cats h ngo comm) as (fig & Hrun & Ha & Hl & _ & Hf);
      try assumption; try congruence.
    { intros ->. discriminate. }
    exists fig. eexists. split; [exact Hrun|].
    rewrite Ha, Hc. split; [apply nine_closed_angles|].
    repeat split; try assumption.
    + now rewrite lookup_insert_ne, lookup_insert_eq by congruence.
    + apply lookup_insert_eq.
  - destruct (slider_chart_run r1 r2 cats h ngo comm) as (fig & Hrun & Ha & Hl & _ & Hf);
      try assumption; try congruence.
    exists fig. eexists. split; [exact Hrun|].
    rewrite Ha, Hc. split; [apply nine_closed_angles|].
    repeat split; try assumption.
    + now rewrite lookup_insert_ne, lookup_insert_eq by congruence.
    + apply lookup_insert_eq.
Qed.

Lemma radar_angles_close_the_loop_witness :
  (exists fig h',
     Excel.create_radar_chart 0 1 sample_themes
       (two_lists sample_ngo sample_community) = (PyHeap.Ok fig, h')
     /\ nine_angles (Radar.angles (Excel.plot fig))
     /\ Radar.ngo_line (Excel.plot fig) = closed sample_ngo
     /\ Radar.community_fill_values (Excel.plot fig)
        = map (PyNum.fsub (PyNum.of_int 10)) (closed sample_community)
     /\ h' !! 0 = Some (closed sample_ngo)
     /\ h' !! 1 = Some (closed sample_community))
  /\
  (exists fig h',
     Slider.create_radar_chart 0 1 Slider.themes
       (two_lists Slider.ngo_capabilities [0; 1; 2; 3; 4; 5; 6; 7; 10]%Z)
     = (PyHeap.Ok fig, h')
     /\ nine_angles (Radar.angles (Slider.plot fig))
     /\ Radar.ngo_line (Slider.plot fig) = closed Slider.ngo_capabilities
     /\ Radar.community_fill_values (Slider.plot fig)
        = map (Z.sub 10) (closed [0; 1; 2; 3; 4; 5; 6; 7; 10]%Z)
     /\ h' !! 0 = Some (closed Slider.ngo_capabilities)
     /\ h' !! 1 = Some (closed [0; 1; 2; 3; 4; 5; 6; 7; 10]%Z)).
Proof.
  split.
  - apply (proj1 radar_angles_close_the_loop 0 1 sample_themes
             (two_lists sample_ngo sample_community) sample_ngo sample_community);
      [lia | reflexivity | reflexivity | reflexivity | reflexivity | reflexivity].
  - apply (proj2 radar_angles_close_the_loop 0 1 Slider.themes
             (two_lists Slider.ngo_capabilities [0; 1; 2; 3; 4; 5; 6; 7; 10]%Z)
             Slider.ngo_capabilities [0; 1; 2; 3; 4; 5; 6; 7; 10]%Z);
      [lia | reflexivity | reflexivity | reflexivity | reflexivity | reflexivity].
Defined.

(** ** Ranges *)

Lemma in_range_spec v :
  Excel.in_range v = true <-> exists q, v = PyNum.Fin q /\ (0 <= q /\ q <= 10)%Q.
Proof.
  unfold Excel.in_range. split.
  - destruct v as [q|]; simpl; [|discriminate].
    rewrite andb_true_iff, !Qle_bool_iff. intros [H0 H10].
    exists q. repeat split; assumption.
  - intros (q & -> & H0 & H10). simpl.
    rewrite andb_true_iff, !Qle_bool_iff. split; assumption.
Qed.

Lemma Forall_at {V : Type} (P : V -> Prop) (l : list V) i v :
  Forall P l -> nth_error l i = Some v -> P v.
Proof.
  intros Hall Hi. apply nth_error_In in Hi.
  rewrite List.Forall_forall in Hall. now apply Hall.
Qed.

Lemma Forall_repeat {V : Type} (x : V) n : Forall (fun y => y = x) (repeat x n).
Proof. induction n; simpl; constructor; auto. Qed.

Lemma nth_error_closed {V : Type} (l : list V) i v :
  nth_error l i = Some v -> nth_error (l ++ firstn 1 l) i = Some v.
Proof.
  intros Hi. rewrite nth_error_app1; [assumption|].
  apply nth_error_Some. congruence.
Qed.

(** C7. In both charts the inner boundary of the community series is at
    radius [10 - capacity] at every point (hence 0 for a capacity of 10 and
    10 for a capacity of 0, and within [0, 10] for capacities in range),
    the closing point included, and the outer ring is 10 at every angle. *)
Theorem inner_boundary_is_ten_minus_capacity :
  (forall r1 r2 (cats : list Excel.cell) h ngo comm,
     r1 <> r2 -> h !! r1 = Some ngo -> h !! r2 = Some comm ->
     length ngo = length cats -> length comm = length cats -> cats <> [] ->
     Forall (fun v => Excel.in_range v = true) comm ->
     exists fig h',
       Excel.create_radar_chart r1 r2 cats h = (PyHeap.Ok fig, h')
       /\ (forall i v, nth_error comm i = Some v ->
             exists q, v = PyNum.Fin q
               /\ nth_error (Radar.community_fill_values (Excel.plot fig)) i
                  = Some (PyNum.Fin (10 - q))
               /\ (0 <= 10 - q /\ 10 - q <= 10)%Q
               /\ (q == 10 -> 10 - q == 0)%Q
               /\ (q == 0 -> 10 - q == 10)%Q)
       /\ Radar.community_fill_values (Excel.plot fig)
          = map (PyNum.fsub (PyNum.of_int 10)) (closed comm)
       /\ length (Radar.community_outer (Excel.plot fig))
          = length (Radar.angles (Excel.plot fig))
       /\ Forall (fun radius => radius = 10%Z)
            (Radar.community_outer (Excel.plot fig)))
  /\
  (forall r1 r2 (cats : list string) h ngo comm,
     r1 <> r2 -> h !! r1 = Some ngo -> h !! r2 = Some comm ->
     length ngo = length cats -> length comm = length cats ->
     Forall (fun v => 0 <= v <= 10)%Z comm ->
     exists fig h',
       Slider.create_radar_chart r1 r2 cats h = (PyHeap.Ok fig, h')
       /\ (forall i v, nth_error comm i = Some v ->
             nth_error (Radar.community_fill_values (Slider.plot fig)) i
               = Some (10 - v)%Z
             /\ (0 <= 10 - v <= 10)%Z
             /\ (v = 10 -> 10 - v = 0)%Z
             /\ (v = 0 -> 10 - v = 10)%Z)
       /\ Radar.community_fill_values (Slider.plot fig)
          = map (Z.sub 10) (closed comm)
       /\ length (Radar.community_outer (Slider.plot fig))
          = length (Radar.angles (Slider.plot fig))
       /\ Forall (fun radius => radius = 10%Z)
            (Radar.community_outer (Slider.plot fig))).
Proof.
  unfold closed.
  split; intros r1 r2 cats h ngo comm Hne H1 H2 Hn Hm.
  - intros Hcats Hrange.
    destruct (excel_chart_run r1 r2 cats h ngo comm)
      as (fig & Hrun & Ha & _ & Ho & Hf); try assumption.
    exists fig. eexists. split; [exact Hrun|].
    rewrite Hf, Ho, Ha. repeat split.
    + intros i v Hi.
      destruct (proj1 (in_range_spec v)) as (q & -> & H0 & H10).
      { exact (Forall_at _ _ _ _ Hrange Hi). }
      exists q. split; [reflexivity|].
      split.
      { rewrite nth_error_map, (nth_error_closed _ _ _ Hi). reflexivity. }
      split; [split; Lqa.lra|]. split; intros Hq; Lqa.lra.
    + now rewrite repeat_length, closed_angles_length, length_closed, Hm.
    + apply Forall_repeat.
  - intros Hrange.
    destruct (slider_chart_run r1 r2 cats h ngo comm)
      as (fig & Hrun & Ha & _ & Ho & Hf); try assumption.
    exists fig. eexists. split; [exact Hrun|].
    rewrite Hf, Ho, Ha. repeat split.
    + rewrite nth_error_map, (nth_error_closed _ _ _ H). reflexivity.
    + pose proof (Forall_at _ _ _ _ Hrange H) as Hv. simpl in Hv. lia.
    + pose proof (Forall_at _ _ _ _ Hrange H) as Hv. simpl in Hv. lia.
    + lia.
    + lia.
    + now rewrite repeat_length, closed_angles_length, length_closed, Hm.
    + apply Forall_repeat.
Qed.

Lemma inner_boundary_is_ten_minus_capacity_witness :
  (exists fig h',
     Excel.create_radar_chart 0 1 sample_themes
       (two_lists sample_ngo sample_community) = (PyHeap.Ok fig, h')
     /\ (forall i v, nth_error sample_community i = Some v ->
           exists q, v = PyNum.Fin q
             /\ nth_error (Radar.community_fill_values (Excel.plot fig)) i
                = Some (PyNum.Fin (10 - q))
             /\ (0 <= 10 - q /\ 10 - q <= 10)%Q
             /\ (q == 10 -> 10 - q == 0)%Q
             /\ (q == 0 -> 10 - q == 10)%Q)
     /\ Radar.community_fill_values (Excel.plot fig)
        = map (PyNum.fsub (PyNum.of_int 10)) (closed sample_community)
     /\ length (Radar.community_outer (Excel.plot fig))
        = length (Radar.angles (Excel.plot fig))
     /\ Forall (fun radius => radius = 10%Z)
          (Radar.community_outer (Excel.plot fig)))
  /\
  (exists fig h',
     Slider.create_radar_chart 0 1 Slider.themes
       (two_lists Slider.ngo_capabilities [10; 0; 2; 3; 4; 5; 6; 7; 8]%Z)
     = (PyHeap.Ok fig, h')
     /\ (forall i v, nth_error [10; 0; 2; 3; 4; 5; 6; 7; 8]%Z i = Some v ->
           nth_error (Radar.community_fill_values (Slider.plot fig)) i
             = Some (10 - v)%Z
           /\ (0 <= 10 - v <= 10)%Z
           /\ (v = 10 -> 10 - v = 0)%Z
           /\ (v = 0 -> 10 - v = 10)%Z)
     /\ Radar.community_fill_values (Slider.plot fig)
        = map (Z.sub 10) (closed [10; 0; 2; 3; 4; 5; 6; 7; 8]%Z)
     /\ length (Radar.community_outer (Slider.plot fig))
        = length (Radar.angles (Slider.plot fig))
     /\ Forall (fun radius => radius = 10%Z)
          (Radar.community_outer (Slider.plot fig))).
Proof.
  split.
  - apply (proj1 inner_boundary_is_ten_minus_capacity 0 1 sample_themes
             (two_lists sample_ngo sample_community) sample_ngo sample_community);
      [lia | reflexivity | reflexivity | reflexivity | reflexivity
      | discriminate | repeat constructor].
  - apply (proj2 inner_boundary_is_ten_minus_capacity 0 1 Slider.themes
             (two_lists Slider.ngo_capabilities [10; 0; 2; 3; 4; 5; 6; 7; 8]%Z)
             Slider.ngo_capabilities [10; 0; 2; 3; 4; 5; 6; 7; 8]%Z);
      [lia | reflexivity | reflexivity | reflexivity | reflexivity
      | repeat constructor; lia].
Defined.

(** ** Mutation of the argument lists *)

(** The store after a chart call on two distinct non-empty lists,
    whatever the categories and whether or not the call raises. *)
Lemma geometry_closes_arguments {V L : Type} (rsub : Z -> V -> V)
    r1 r2 (cats : list L) (h : gmap nat (list V)) x ngo y comm :
  r1 <> r2 -> h !! r1 = Some (x :: ngo) -> h !! r2 = Some (y :: comm) ->
  snd (Radar.geometry rsub r1 r2 cats h)
  = <[r2 := (y :: comm) ++ [y]]> (<[r1 := (x :: ngo) ++ [x]]> h).
Proof.
  intros Hne H1 H2.
  rewrite (geometry_store rsub r1 r2 cats h _ H1). cbv zeta.
  rewrite (content_lookup _ r2 (y :: comm)) by now rewrite lookup_insert_ne.
  reflexivity.
Qed.

(** The same list object passed twice is extended twice. *)
Lemma geometry_aliased_arguments {V L : Type} (rsub : Z -> V -> V)
    r (cats : list L) (h : gmap nat (list V)) x l :
  h !! r = Some (x :: l) ->
  snd (Radar.geometry rsub r r cats h) = <[r := (x :: l) ++ [x; x]]> h.
Proof.
  intros Hr.
  rewrite (geometry_store rsub r r cats h _ Hr). cbv zeta.
  rewrite (content_lookup _ r ((x :: l) ++ [x])) by apply lookup_insert_eq.
  rewrite insert_insert_eq. simpl. now rewrite <- app_assoc.
Qed.

(** An empty list stays empty. *)
Lemma geometry_empty_arguments {V L : Type} (rsub : Z -> V -> V)
    r1 r2 (cats : list L) (h : gmap nat (list V)) :
  h !! r1 = Some [] -> h !! r2 = Some [] ->
  snd (Radar.geometry rsub r1 r2 cats h) = h.
Proof.
  intros H1 H2.
  rewrite (geometry_store rsub r1 r2 cats h _ H1). cbv zeta. simpl.
  rewrite (insert_id h r1 []) by assumption.
  rewrite (content_lookup _ r2 []) by assumption.
  now apply insert_id.
Qed.

(** ** The normalizer *)

Lemma floats_length l vs : Excel.floats l = Some vs -> length vs = length l.
Proof.
  revert vs. induction l as [|x l IH]; simpl; intros vs H.
  - now inversion H.
  - destruct (Excel.py_float x); [|discriminate].
    destruct (Excel.floats l) as [ws|]; [|discriminate].
    inversion H; subst. simpl. now rewrite (IH ws).
Qed.

Lemma iloc_slice_length df s c :
  s + 9 <= Excel.shape0 df -> length (Excel.iloc_slice df s (s + 9) c) = 9.
Proof.
  intros Hs. unfold Excel.iloc_slice, Excel.shape0 in *.
  rewrite length_map, length_firstn, length_skipn. lia.
Qed.

Lemma start_row_cases df s : Excel.start_row df = Some s -> s = 0 \/ s = 1.
Proof.
  unfold Excel.start_row. destruct (Excel.rows df); [discriminate|].
  destruct (Excel.pd_to_numeric _); [destruct (Excel.pd_to_numeric _)|];
    intros [= <-]; auto.
Qed.

(** What [normalize] does once the frame has its three columns, a first
    row and enough rows: the "exactly 9" test cannot fail any more. *)
Lemma normalize_enough_rows df s :
  3 <= Excel.shape1 df -> Excel.start_row df = Some s ->
  s + 9 <= Excel.shape0 df ->
  Excel.normalize df =
    match Excel.floats (Excel.iloc_slice df s (s + 9) 1),
          Excel.floats (Excel.iloc_slice df s (s + 9) 2) with
    | Some comm, Some ngo =>
        match Excel.first_out_of_range 0 comm ngo with
        | Some i => inl (Excel.RangeError (i + s + 1))
        | None =>
            inr {| Excel.themes := Excel.iloc_slice df s (s + 9) 0;
                   Excel.community_capacities := comm;
                   Excel.ngo_capabilities := ngo |}
        end
    | _, _ => inl Excel.TypeError
    end.
Proof.
  intros Hc Hs Hr. unfold Excel.normalize. rewrite Hs.
  destruct (Nat.ltb_spec (Excel.shape1 df) 3); [lia|].
  destruct (Nat.ltb_spec (Excel.shape0 df) (s + 9)); [lia|].
  now rewrite !iloc_slice_length by assumption.
Qed.

Lemma normalize_too_few_rows df s :
  3 <= Excel.shape1 df -> Excel.start_row df = Some s ->
  Excel.shape0 df < s + 9 ->
  Excel.normalize df = inl (Excel.RowCountError (9 + s)).
Proof.
  intros Hc Hs Hr. unfold Excel.normalize. rewrite Hs.
  destruct (Nat.ltb_spec (Excel.shape1 df) 3); [lia|].
  now destruct (Nat.ltb_spec (Excel.shape0 df) (s + 9)); [|lia].
Qed.

(** A successful load, read backwards. *)
Lemma normalize_ok df a :
  Excel.normalize df = inr a ->
  exists s,
    3 <= Excel.shape1 df /\ Excel.start_row df = Some s
    /\ s + 9 <= Excel.shape0 df
    /\ Excel.themes a = Excel.iloc_slice df s (s + 9) 0
    /\ Excel.floats (Excel.iloc_slice df s (s + 9) 1)
       = Some (Excel.community_capacities a)
    /\ Excel.floats (Excel.iloc_slice df s (s + 9) 2)
       = Some (Excel.ngo_capabilities a)
    /\ Excel.first_out_of_range 0 (Excel.community_capacities a)
         (Excel.ngo_capabilities a) = None.
Proof.
  intros H.
  assert (Hc : 3 <= Excel.shape1 df).
  { unfold Excel.normalize in H.
    destruct (Nat.ltb_spec (Excel.shape1 df) 3); [discriminate|assumption]. }
  destruct (Excel.start_row df) as [s|] eqn:Hs.
  2:{ unfold Excel.normalize in H. rewrite Hs in H.
      now destruct (Excel.shape1 df <? 3)%nat. }
  assert (Hr : s + 9 <= Excel.shape0 df).
  { destruct (Nat.le_gt_cases (s + 9) (Excel.shape0 df)); [assumption|].
    rewrite (normalize_too_few_rows df s) in H by assumption. discriminate. }
  rewrite (normalize_enough_rows df s) in H by assumption.
  exists s.
  destruct (Excel.floats (Excel.iloc_slice df s (s + 9) 1)) as [comm|];
    [|discriminate].
  destruct (Excel.floats (Excel.iloc_slice df s (s + 9) 2)) as [ngo|];
    [|discriminate].
  destruct (Excel.first_out_of_range 0 comm ngo) eqn:Hrange; [discriminate|].
  inversion H; subst; simpl. repeat split; auto.
Qed.

Lemma normalize_ok_lengths df a :
  Excel.normalize df = inr a ->
  length (Excel.themes a) = 9
  /\ length (Excel.community_capacities a) = 9
  /\ length (Excel.ngo_capabilities a) = 9.
Proof.
  intros (s & _ & _ & Hr & Ht & Hc & Hn & _)%normalize_ok.
  rewrite Ht, (floats_length _ _ Hc), (floats_length _ _ Hn).
  now rewrite !iloc_slice_length.
Qed.

Lemma load_ok_lengths file a :
  Excel.load_data_from_csv file = inr a ->
  length (Excel.themes a) = 9
  /\ length (Excel.community_capacities a) = 9
  /\ length (Excel.ngo_capabilities a) = 9.
Proof.
  unfold Excel.load_data_from_csv.
  destruct (Excel.read_csv file); [apply normalize_ok_lengths|discriminate].
Qed.

(** ** The two [main] and their list objects *)

Lemma bind_ret_store {V A B : Type} (m : PyHeap.M V A) (f : A -> B) h :
  snd (PyHeap.bind m (fun a => PyHeap.ret (f a)) h) = snd (m h).
Proof. unfold PyHeap.bind. now destruct (m h) as [[a|e] h']. Qed.

Lemma assess_store r1 r2 i theme h : snd (Excel.assess r1 r2 i theme h) = h.
Proof.
  cbv [Excel.assess PyHeap.bind PyHeap.index PyHeap.deref
       PyHeap.ret PyHeap.raise].
  destruct (nth_error (PyHeap.content h r1) i); [|reflexivity].
  destruct (nth_error (PyHeap.content h r2) i); [|reflexivity].
  now destruct (Excel.comment _ theme).
Qed.

(** The sliders are read into a list by appending, one per theme. *)
Lemma for_each_append {V A : Type} (f : A -> V) (xs : list A) r :
  forall (h : gmap nat (list V)) l,
    h !! r = Some l ->
    PyHeap.for_each (fun x => PyHeap.iadd r [f x]) xs h
    = (PyHeap.Ok (map (fun _ => tt) xs), <[r := l ++ map f xs]> h).
Proof.
  induction xs as [|x xs IH]; intros h l Hr; simpl.
  - unfold PyHeap.ret. now rewrite app_nil_r, insert_id.
  - unfold PyHeap.bind at 1. unfold PyHeap.iadd at 1.
    rewrite (content_lookup _ _ _ Hr).
    unfold PyHeap.bind at 1.
    rewrite (IH _ (l ++ [f x])) by apply lookup_insert_eq.
    unfold PyHeap.ret. now rewrite insert_insert_eq, <- app_assoc.
Qed.

(** Four list objects are alive when the tabular [main] is done: its own
    two vectors, untouched, and the two copies the chart has closed. *)
Lemma excel_main_store file a :
  Excel.load_data_from_csv file = inr a ->
  exists r_comm r_ngo r_ngo_copy r_comm_copy,
    List.NoDup [r_comm; r_ngo; r_ngo_copy; r_comm_copy]
    /\ snd (Excel.main (Some file) ∅)
       = <[r_comm_copy := closed (Excel.community_capacities a)]>
           (<[r_ngo_copy := closed (Excel.ngo_capabilities a)]>
              (<[r_ngo := Excel.ngo_capabilities a]>
                 (<[r_comm := Excel.community_capacities a]> ∅))).
Proof.
  intros Hload. destruct (load_ok_lengths _ _ Hload) as (Ht & Hc & Hn).
  unfold Excel.main. rewrite Hload.
  set (comm := Excel.community_capacities a) in *.
  set (ngo := Excel.ngo_capabilities a) in *.
  destruct (new_list_run comm ∅) as (rc & Hrc & Hrun1).
  unfold PyHeap.bind at 1. rewrite Hrun1.
  set (h1 := <[rc := comm]> ∅).
  destruct (new_list_run ngo h1) as (rn & Hrn & Hrun2).
  unfold PyHeap.bind at 1. rewrite Hrun2.
  set (h2 := <[rn := ngo]> h1).
  assert (Hn_c : rn <> rc).
  { intros ->. unfold h1 in Hrn. now rewrite lookup_insert_eq in Hrn. }
  destruct (copy_run rn ngo h2) as (rnc & Hrnc & Hrun3);
    [apply lookup_insert_eq|].
  unfold PyHeap.bind at 1. rewrite Hrun3.
  set (h3 := <[rnc := ngo]> h2).
  assert (Hnc_n : rnc <> rn).
  { intros ->. unfold h2 in Hrnc. now rewrite lookup_insert_eq in Hrnc. }
  assert (Hnc_c : rnc <> rc).
  { intros ->. unfold h2, h1 in Hrnc.
    now rewrite lookup_insert_ne, lookup_insert_eq in Hrnc by congruence. }
  destruct (copy_run rc comm h3) as (rcc & Hrcc & Hrun4).
  { unfold h3, h2, h1.
    now rewrite !lookup_insert_ne, lookup_insert_eq by congruence. }
  unfold PyHeap.bind at 1. rewrite Hrun4.
  set (h4 := <[rcc := comm]> h3).
  assert (Hcc_nc : rcc <> rnc).
  { intros ->. unfold h3 in Hrcc. now rewrite lookup_insert_eq in Hrcc. }
  assert (Hcc_n : rcc <> rn).
  { intros ->. unfold h3, h2 in Hrcc.
    now rewrite lookup_insert_ne, lookup_insert_eq in Hrcc by congruence. }
  assert (Hcc_c : rcc <> rc).
  { intros ->. unfold h3, h2, h1 in Hrcc.
    now rewrite !lookup_insert_ne, lookup_insert_eq in Hrcc by congruence. }
  destruct (excel_chart_run rnc rcc (Excel.themes a) h4 ngo comm)
    as (fig & Hrun5 & _); try congruence.
  { unfold h4, h3. now rewrite lookup_insert_ne, lookup_insert_eq by congruence. }
  { apply lookup_insert_eq. }
  { intros E. rewrite E in Ht. discriminate. }
  unfold PyHeap.bind at 1. rewrite Hrun5.
  rewrite bind_ret_store.
  rewrite for_each_store by (intros [i theme] h; apply assess_store).
  exists rc, rn, rnc, rcc. split.
  { repeat (apply List.NoDup_cons; [simpl; intuition congruence|]).
    apply List.NoDup_nil. }
  unfold h4, h3, h2, h1, closed.
  rewrite (insert_insert_ne _ rnc rcc) by congruence.
  rewrite (insert_insert_eq _ rnc).
  now rewrite (insert_insert_eq _ rcc).
Qed.

(** The slider [main] always gets to the end.  Its fit is computed from
    its own two vectors, which the chart did not touch. *)
Lemma slider_main_run (slider : string -> Z) :
  exists r_ngo r_comm r_ngo_copy r_comm_copy fig,
    List.NoDup [r_ngo; r_comm; r_ngo_copy; r_comm_copy]
    /\ Slider.main slider ∅
       = (PyHeap.Ok
            {| Slider.chart := fig;
               Slider.overall_fit :=
                 PyNum.mean (Slider.fit_scores Slider.ngo_capabilities
                               (map slider Slider.themes));
               Slider.advice :=
                 Slider.recommend
                   (PyNum.mean (Slider.fit_scores Slider.ngo_capabilities
                                  (map slider Slider.themes))) |},
          <[r_comm_copy := closed (map slider Slider.themes)]>
            (<[r_ngo_copy := closed Slider.ngo_capabilities]>
               (<[r_comm := map slider Slider.themes]>
                  (<[r_ngo := Slider.ngo_capabilities]> ∅)))).
Proof.
  unfold Slider.main.
  set (ngo := Slider.ngo_capabilities).
  set (comm := map slider Slider.themes).
  destruct (new_list_run ngo ∅) as (rn & Hrn & Hrun1).
  unfold PyHeap.bind at 1. rewrite Hrun1.
  set (h1 := <[rn := ngo]> ∅).
  destruct (new_list_run (@nil Z) h1) as (rc & Hrc & Hrun2).
  unfold PyHeap.bind at 1. rewrite Hrun2.
  assert (Hc_n : rc <> rn).
  { intros ->. unfold h1 in Hrc. now rewrite lookup_insert_eq in Hrc. }
  unfold PyHeap.bind at 1.
  rewrite (for_each_append slider Slider.themes rc _ []) by apply lookup_insert_eq.
  rewrite insert_insert_eq, app_nil_l. fold comm. cbv beta iota.
  set (h2 := <[rc := comm]> h1).
  destruct (copy_run rn ngo h2) as (rnc & Hrnc & Hrun3).
  { unfold h2, h1. now rewrite lookup_insert_ne, lookup_insert_eq by congruence. }
  unfold PyHeap.bind at 1. rewrite Hrun3.
  set (h3 := <[rnc := ngo]> h2).
  assert (Hnc_c : rnc <> rc).
  { intros ->. unfold h2 in Hrnc. now rewrite lookup_insert_eq in Hrnc. }
  assert (Hnc_n : rnc <> rn).
  { intros ->. unfold h2, h1 in Hrnc.
    now rewrite lookup_insert_ne, lookup_insert_eq in Hrnc by congruence. }
  destruct (copy_run rc comm h3) as (rcc & Hrcc & Hrun4).
  { unfold h3, h2. now rewrite lookup_insert_ne, lookup_insert_eq by congruence. }
  unfold PyHeap.bind at 1. rewrite Hrun4.
  set (h4 := <[rcc := comm]> h3).
  assert (Hcc_nc : rcc <> rnc).
  { intros ->. unfold h3 in Hrcc. now rewrite lookup_insert_eq in Hrcc. }
  assert (Hcc_c : rcc <> rc).
  { intros ->. unfold h3, h2 in Hrcc.
    now rewrite lookup_insert_ne, lookup_insert_eq in Hrcc by congruence. }
  assert (Hcc_n : rcc <> rn).
  { intros ->. unfold h3, h2, h1 in Hrcc.
    now rewrite !lookup_insert_ne, lookup_insert_eq in Hrcc by congruence. }
  destruct (slider_chart_run rnc rcc Slider.themes h4 ngo comm)
    as (fig & Hrun5 & _);
    try (unfold comm, ngo; rewrite ?length_map; reflexivity); try congruence.
  { unfold h4, h3. now rewrite lookup_insert_ne, lookup_insert_eq by congruence. }
  { apply lookup_insert_eq. }
  unfold PyHeap.bind at 1. rewrite Hrun5.
  unfold PyHeap.bind, PyHeap.deref, PyHeap.ret.
  rewrite (content_lookup _ rn ngo).
  2:{ unfold h4, h3, h2, h1.
      now rewrite !lookup_insert_ne, lookup_insert_eq by congruence. }
  rewrite (content_lookup _ rc comm).
  2:{ unfold h4, h3, h2.
      now rewrite !lookup_insert_ne, lookup_insert_eq by congruence. }
  exists rn, rc, rnc, rcc, fig. split.
  { repeat (apply List.NoDup_cons; [simpl; intuition congruence|]).
    apply List.NoDup_nil. }
  f_equal.
  unfold h4, h3, h2, h1, closed.
  rewrite (insert_insert_ne _ rnc rcc) by congruence.
  rewrite (insert_insert_eq _ rnc).
  now rewrite (insert_insert_eq _ rcc).
Qed.

(** C9. [create_radar_chart] (either file) mutates its list arguments:
    called on two distinct list objects of length N >= 1, it leaves each
    of them with N + 1 elements, the last one equal to the first, whether
    or not it then returns a figure, and touches no other object.  Both
    [main] hand it copies: when they are done their own vectors are the
    nine-element lists they built, and the two closed ten-element lists
    are separate objects. *)
Theorem chart_closes_its_arguments_in_place :
  (forall r1 r2 (cats : list Excel.cell) h x ngo y comm N,
     r1 <> r2 -> h !! r1 = Some (x :: ngo) -> h !! r2 = Some (y :: comm) ->
     length (x :: ngo) = N -> length (y :: comm) = N ->
     let h' := snd (Excel.create_radar_chart r1 r2 cats h) in
     h' !! r1 = Some ((x :: ngo) ++ [x])
     /\ h' !! r2 = Some ((y :: comm) ++ [y])
     /\ length ((x :: ngo) ++ [x]) = N + 1
     /\ length ((y :: comm) ++ [y]) = N + 1
     /\ (forall r, r <> r1 -> r <> r2 -> h' !! r = h !! r))
  /\
  (forall r1 r2 (cats : list string) h x ngo y comm N,
     r1 <> r2 -> h !! r1 = Some (x :: ngo) -> h !! r2 = Some (y :: comm) ->
     length (x :: ngo) = N -> length (y :: comm) = N ->
     let h' := snd (Slider.create_radar_chart r1 r2 cats h) in
     h' !! r1 = Some ((x :: ngo) ++ [x])
     /\ h' !! r2 = Some ((y :: comm) ++ [y])
     /\ length ((x :: ngo) ++ [x]) = N + 1
     /\ length ((y :: comm) ++ [y]) = N + 1
     /\ (forall r, r <> r1 -> r <> r2 -> h' !! r = h !! r))
  /\
  (forall file a,
     Excel.load_data_from_csv file = inr a ->
     exists r_comm r_ngo r_ngo_copy r_comm_copy,
       List.NoDup [r_comm; r_ngo; r_ngo_copy; r_comm_copy]
       /\ snd (Excel.main (Some file) ∅)
          = <[r_comm_copy := closed (Excel.community_capacities a)]>
              (<[r_ngo_copy := closed (Excel.ngo_capabilities a)]>
                 (<[r_ngo := Excel.ngo_capabilities a]>
                    (<[r_comm := Excel.community_capacities a]> ∅)))
       /\ length (Excel.community_capacities a) = 9
       /\ length (Excel.ngo_capabilities a) = 9
       /\ length (closed (Excel.community_capacities a)) = 10
       /\ length (closed (Excel.ngo_capabilities a)) = 10)
  /\
  (forall slider : string -> Z,
     exists r_ngo r_comm r_ngo_copy r_comm_copy page,
       List.NoDup [r_ngo; r_comm; r_ngo_copy; r_comm_copy]
       /\ Slider.main slider ∅
          = (PyHeap.Ok page,
             <[r_comm_copy := closed (map slider Slider.themes)]>
               (<[r_ngo_copy := closed Slider.ngo_capabilities]>
                  (<[r_comm := map slider Slider.themes]>
                     (<[r_ngo := Slider.ngo_capabilities]> ∅))))
       /\ length Slider.ngo_capabilities = 9
       /\ length (map slider Slider.themes) = 9
       /\ length (closed Slider.ngo_capabilities) = 10
       /\ length (closed (map slider Slider.themes)) = 10).
Proof.
  split; [|split; [|split]].
  - intros r1 r2 cats h x ngo y comm N Hne H1 H2 Hn Hm h'. subst h'.
    rewrite excel_chart_store, (geometry_closes_arguments _ r1 r2 cats h x ngo y comm)
      by assumption.
    rewrite lookup_insert_ne, !lookup_insert_eq by congruence.
    rewrite !length_app, Hn, Hm. repeat split; try reflexivity.
    intros r Hr1 Hr2. now rewrite !lookup_insert_ne by congruence.
  - intros r1 r2 cats h x ngo y comm N Hne H1 H2 Hn Hm h'. subst h'.
    rewrite slider_chart_store, (geometry_closes_arguments _ r1 r2 cats h x ngo y comm)
      by assumption.
    rewrite lookup_insert_ne, !lookup_insert_eq by congruence.
    rewrite !length_app, Hn, Hm. repeat split; try reflexivity.
    intros r Hr1 Hr2. now rewrite !lookup_insert_ne by congruence.
  - intros file a Hload.
    destruct (excel_main_store file a Hload) as (rc & rn & rnc & rcc & Hnd & Hst).
    destruct (load_ok_lengths _ _ Hload) as (_ & Hc & Hn).
    exists rc, rn, rnc, rcc. unfold closed at 3 4.
    rewrite !length_closed, Hc, Hn. repeat split; assumption || reflexivity.
  - intros slider.
    destruct (slider_main_run slider) as (rn & rc & rnc & rcc & fig & Hnd & Hrun).
    exists rn, rc, rnc, rcc. eexists. split; [exact Hnd|]. split; [exact Hrun|].
    unfold closed. rewrite !length_closed, length_map. repeat split; reflexivity.
Qed.

Lemma chart_closes_its_arguments_in_place_witness :
  (let h' := snd (Excel.create_radar_chart 0 1 sample_themes
                    (two_lists sample_ngo sample_community)) in
   h' !! 0 = Some (sample_ngo ++ [PyNum.of_int 8])
   /\ h' !! 1 = Some (sample_community ++ [PyNum.of_int 7])
   /\ length (sample_ngo ++ [PyNum.of_int 8]) = 9 + 1
   /\ length (sample_community ++ [PyNum.of_int 7]) = 9 + 1
   /\ (forall r, r <> 0 -> r <> 1 ->
         h' !! r = two_lists sample_ngo sample_community !! r))
  /\
  (let h' := snd (Slider.create_radar_chart 0 1 Slider.themes
                    (two_lists Slider.ngo_capabilities [0; 1; 2; 3; 4; 5; 6; 7; 10]%Z)) in
   h' !! 0 = Some (Slider.ngo_capabilities ++ [5%Z])
   /\ h' !! 1 = Some ([0; 1; 2; 3; 4; 5; 6; 7; 10]%Z ++ [0%Z])
   /\ length (Slider.ngo_capabilities ++ [5%Z]) = 9 + 1
   /\ length ([0; 1; 2; 3; 4; 5; 6; 7; 10]%Z ++ [0%Z]) = 9 + 1
   /\ (forall r, r <> 0 -> r <> 1 ->
         h' !! r = two_lists Slider.ngo_capabilities
                     [0; 1; 2; 3; 4; 5; 6; 7; 10]%Z !! r))
  /\
  (exists r_comm r_ngo r_ngo_copy r_comm_copy,
     List.NoDup [r_comm; r_ngo; r_ngo_copy; r_comm_copy]
     /\ snd (Excel.main (Some (sample_header :: sample_lines)) ∅)
        = <[r_comm_copy := closed sample_community]>
            (<[r_ngo_copy := closed sample_ngo]>
               (<[r_ngo := sample_ngo]> (<[r_comm := sample_community]> ∅)))
     /\ length sample_community = 9
     /\ length sample_ngo = 9
     /\ length (closed sample_community) = 10
     /\ length (closed sample_ngo) = 10).
Proof.
  split.
  - apply (proj1 chart_closes_its_arguments_in_place 0 1 sample_themes
             (two_lists sample_ngo sample_community)
             (PyNum.of_int 8) (tl sample_ngo)
             (PyNum.of_int 7) (tl sample_community) 9);
      [lia | reflexivity | reflexivity | reflexivity | reflexivity].
  - split.
    apply (proj1 (proj2 chart_closes_its_arguments_in_place) 0 1 Slider.themes
             (two_lists Slider.ngo_capabilities [0; 1; 2; 3; 4; 5; 6; 7; 10]%Z)
             5%Z (tl Slider.ngo_capabilities)
             0%Z [1; 2; 3; 4; 5; 6; 7; 10]%Z 9);
      [lia | reflexivity | reflexivity | reflexivity | reflexivity].
    apply (proj1 (proj2 (proj2 chart_closes_its_arguments_in_place))
             (sample_header :: sample_lines) sample_assessment).
    reflexivity.
Defined.

(** ** Scores and bands of the tabular workflow *)

Lemma Qle_bool_false (a b : Q) : Qle_bool a b = false <-> (b < a)%Q.
Proof.
  split.
  - intros E. apply Qnot_le_lt. rewrite <- Qle_bool_iff. congruence.
  - intros Hlt. destruct (Qle_bool a b) eqn:E; [|reflexivity].
    apply Qle_bool_iff in E. Lqa.lra.
Qed.

Lemma Qeq_bool_false (a b : Q) : Qeq_bool a b = false <-> ~ (a == b)%Q.
Proof.
  split.
  - intros E H. apply Qeq_bool_iff in H. congruence.
  - intros H. destruct (Qeq_bool a b) eqn:E; [|reflexivity].
    now apply Qeq_bool_iff in E.
Qed.

(** The four branches, read as conditions on the score. *)
Lemma classify_spec (s : Q) :
  (Excel.classify (PyNum.Fin s) = Excel.Aligned <-> (s == 0)%Q)
  /\ (Excel.classify (PyNum.Fin s) = Excel.Redundant <-> (0 < s)%Q)
  /\ (Excel.classify (PyNum.Fin s) = Excel.Gap <-> (s < -2)%Q)
  /\ (Excel.classify (PyNum.Fin s) = Excel.PartialGap
      <-> (-2 <= s)%Q /\ (s < 0)%Q).
Proof.
  unfold Excel.classify, PyNum.feq, PyNum.flt, PyNum.of_int.
  change (inject_Z 0) with 0%Q. change (inject_Z (-2)) with (-2)%Q.
  destruct (Qeq_bool s 0) eqn:E0.
  { apply Qeq_bool_iff in E0.
    repeat split; try discriminate; intros; try Lqa.lra.
    all: exfalso; Lqa.lra. }
  apply Qeq_bool_false in E0.
  destruct (Qle_bool s 0) eqn:E1; cbn [negb].
  2:{ apply Qle_bool_false in E1.
      repeat split; try discriminate; intros; try Lqa.lra.
      all: exfalso; Lqa.lra. }
  apply Qle_bool_iff in E1.
  assert (Hneg : (s < 0)%Q).
  { destruct (Qlt_le_dec s 0); [assumption|]. exfalso. apply E0. Lqa.lra. }
  destruct (Qle_bool (-2) s) eqn:E2; cbn [negb].
  - apply Qle_bool_iff in E2.
    repeat split; try discriminate; intros; try Lqa.lra.
    all: exfalso; Lqa.lra.
  - apply Qle_bool_false in E2.
    repeat split; try discriminate; intros; try Lqa.lra.
    all: exfalso; Lqa.lra.
Qed.

(** The row [main] shows for a theme is made of that score and branch. *)
Lemma assess_run r_ngo r_comm i theme (h : gmap nat (list PyNum.pyfloat))
    ngo comm ngo_cap comm_cap text :
  h !! r_ngo = Some ngo -> h !! r_comm = Some comm ->
  nth_error ngo i = Some ngo_cap -> nth_error comm i = Some comm_cap ->
  Excel.comment (Excel.classify (Excel.theme_score ngo_cap comm_cap)) theme
    = Some text ->
  Excel.assess r_ngo r_comm i theme h
  = (PyHeap.Ok {| Excel.row_theme := theme;
                  Excel.row_score := Excel.theme_score ngo_cap comm_cap;
                  Excel.row_band :=
                    Excel.classify (Excel.theme_score ngo_cap comm_cap);
                  Excel.row_comment := text |}, h).
Proof.
  intros Hn Hc Hni Hci Htext.
  cbv [Excel.assess PyHeap.bind PyHeap.index PyHeap.deref PyHeap.ret PyHeap.raise].
  rewrite (content_lookup _ _ _ Hn), Hni, (content_lookup _ _ _ Hc), Hci.
  now rewrite Htext.
Qed.

(** *** Binary64 rounding *)

Lemma pow2_pos e : (0 < PyNum.pow2 e)%Q.
Proof.
  unfold PyNum.pow2. destruct (0 <=? e)%Z eqn:E; [|reflexivity].
  apply Z.leb_le in E.
  assert (0 < 2 ^ e)%Z by (apply Z.pow_pos_nonneg; lia).
  unfold Qlt. cbn [Qnum Qden inject_Z]. lia.
Qed.

Lemma pow2_inverse s :
  (s <= 0)%Z -> (PyNum.pow2 s * inject_Z (2 ^ (- s)) == 1)%Q.
Proof.
  intros Hs. unfold PyNum.pow2. destruct (0 <=? s)%Z eqn:E.
  - apply Z.leb_le in E. assert (s = 0%Z) by lia. subst. reflexivity.
  - assert (0 < 2 ^ (- s))%Z by (apply Z.pow_pos_nonneg; lia).
    unfold Qeq, Qmult, inject_Z. cbn [Qnum Qden].
    rewrite Pos.mul_1_r, Z2Pos.id by assumption. lia.
Qed.

Lemma rint_cases y :
  PyNum.rint y = Qfloor y
  \/ (PyNum.rint y = (Qfloor y + 1)%Z /\ (1 # 2 <= y - inject_Z (Qfloor y))%Q).
Proof.
  unfold PyNum.rint.
  destruct ((y - inject_Z (Qfloor y)) ?= (1 # 2))%Q eqn:E.
  - apply Qeq_alt in E. destruct (Z.even (Qfloor y)); [left; reflexivity|].
    right. split; [reflexivity|]. rewrite E. apply Qle_refl.
  - now left.
  - right. split; [reflexivity|]. apply Qlt_le_weak. now apply Qgt_alt in E.
Qed.

Lemma rint_above (k : Z) y : (inject_Z k <= y)%Q -> (k <= PyNum.rint y)%Z.
Proof.
  intros H. assert (k <= Qfloor y)%Z.
  { rewrite <- (Qfloor_Z k). now apply Qfloor_resp_le. }
  destruct (rint_cases y) as [-> | [-> _]]; lia.
Qed.

Lemma rint_below (k : Z) y : (y <= inject_Z k)%Q -> (PyNum.rint y <= k)%Z.
Proof.
  intros H. assert (Hf : (Qfloor y <= k)%Z).
  { rewrite <- (Qfloor_Z k). now apply Qfloor_resp_le. }
  destruct (rint_cases y) as [-> | [-> Hr]]; [assumption|].
  assert (Hlt : (inject_Z (Qfloor y) < inject_Z k)%Q) by Lqa.lra.
  rewrite <- Zlt_Qlt in Hlt. lia.
Qed.

Lemma rint_near y : (Qabs (inject_Z (PyNum.rint y) - y) <= 1 # 2)%Q.
Proof.
  pose proof (Qfloor_le y) as Hlo. pose proof (Qlt_floor y) as Hhi.
  rewrite inject_Z_plus in Hhi. change (inject_Z 1) with 1%Q in Hhi.
  apply Qabs_Qle_condition. unfold PyNum.rint.
  destruct ((y - inject_Z (Qfloor y)) ?= (1 # 2))%Q eqn:E.
  - apply Qeq_alt in E. destruct (Z.even (Qfloor y)).
    + split; Lqa.lra.
    + rewrite inject_Z_plus. change (inject_Z 1) with 1%Q. split; Lqa.lra.
  - apply Qlt_alt in E. split; Lqa.lra.
  - apply Qgt_alt in E. rewrite inject_Z_plus. change (inject_Z 1) with 1%Q.
    split; Lqa.lra.
Qed.

Lemma rint_comp x y : (x == y)%Q -> PyNum.rint x = PyNum.rint y.
Proof.
  intros H. unfold PyNum.rint. rewrite (Qfloor_comp _ _ H).
  assert (E : ((x - inject_Z (Qfloor y)) ?= (1 # 2))%Q
              = ((y - inject_Z (Qfloor y)) ?= (1 # 2))%Q) by now rewrite H.
  now rewrite E.
Qed.

(** A number below 16 has a binary exponent of at most 3. *)
Lemma ilog2_below_16 x :
  ~ (x == 0)%Q -> (Qabs x < 16)%Q -> (PyNum.ilog2 x <= 3)%Z.
Proof.
  intros Hx Hlt. unfold PyNum.ilog2.
  set (n := Z.abs (Qnum x)). set (d := Zpos (Qden x)).
  assert (Hn : (0 < n)%Z).
  { unfold n. destruct x as [[|p|p] q]; simpl; try lia.
    exfalso. apply Hx. reflexivity. }
  assert (Hnd : (n < 16 * d)%Z).
  { unfold Qlt, Qabs in Hlt. destruct x as [a q]. simpl in *.
    unfold n, d. simpl. lia. }
  destruct (Z.log2_spec n Hn) as [Ha _].
  assert (Hd : (0 < d)%Z) by (unfold d; lia).
  destruct (Z.log2_spec d Hd) as [_ Hb].
  pose proof (Z.log2_nonneg n). pose proof (Z.log2_nonneg d).
  assert (He0 : (Z.log2 n - Z.log2 d <= 4)%Z).
  { assert (Hp : (2 ^ Z.log2 n < 2 ^ (Z.log2 d + 5))%Z).
    { replace (Z.log2 d + 5)%Z with (Z.succ (Z.log2 d) + 4)%Z by lia.
      rewrite Z.pow_add_r by lia. change (2 ^ 4)%Z with 16%Z. lia. }
    apply Z.pow_lt_mono_r_iff in Hp; lia. }
  destruct (Qle_bool (PyNum.pow2 (Z.log2 n - Z.log2 d)) (Qabs x)) eqn:E; [|lia].
  apply Qle_bool_iff in E.
  destruct (Z.eq_dec (Z.log2 n - Z.log2 d)%Z 4%Z) as [E4|]; [|lia].
  rewrite E4 in E. change (PyNum.pow2 4) with 16%Q in E. Lqa.lra.
Qed.

(** Below 16 the rounded number is a multiple of a unit [1 / P], [P] a
    power of two not below [2^49]: the multiple nearest to the argument. *)
Lemma round64_grid x :
  ~ (x == 0)%Q -> (Qabs x < 16)%Q ->
  exists P : Z,
    (2 ^ 49 <= P)%Z
    /\ (PyNum.round64 x * inject_Z P == inject_Z (PyNum.rint (x * inject_Z P)))%Q.
Proof.
  intros Hx Hlt. unfold PyNum.round64.
  destruct (Qeq_bool x 0) eqn:E0; [apply Qeq_bool_iff in E0; contradiction|].
  pose proof (ilog2_below_16 x Hx Hlt) as He.
  set (s := Z.max (PyNum.ilog2 x - 52) (-1074)).
  assert (Hs : (s <= -49)%Z) by (unfold s; lia).
  exists (2 ^ (- s))%Z. split.
  { apply Z.pow_le_mono_r; lia. }
  pose proof (pow2_inverse s ltac:(lia)) as Hinv.
  pose proof (pow2_pos s) as Hpos.
  rewrite Qred_correct.
  assert (Hdiv : (x / PyNum.pow2 s == x * inject_Z (2 ^ (- s)))%Q).
  { apply (Qmult_inj_r _ _ (PyNum.pow2 s)); [Lqa.lra|].
    unfold Qdiv. rewrite <- !Qmult_assoc.
    rewrite (Qmult_comm (/ PyNum.pow2 s)), Qmult_inv_r by Lqa.lra.
    rewrite (Qmult_comm (inject_Z _)), Hinv. reflexivity. }
  rewrite (rint_comp _ _ Hdiv), <- Qmult_assoc, Hinv. Lqa.lra.
Qed.

Lemma round64_zero x : (x == 0)%Q -> PyNum.round64 x = 0%Q.
Proof.
  intros H. unfold PyNum.round64. apply Qeq_bool_iff in H. now rewrite H.
Qed.

(** Rounding does not cross a whole number. *)
Lemma round64_above (k : Z) x :
  (Qabs x < 16)%Q -> (inject_Z k <= x)%Q -> (inject_Z k <= PyNum.round64 x)%Q.
Proof.
  intros Hlt Hk. destruct (Qeq_dec x 0) as [E|E].
  { rewrite (round64_zero x E). Lqa.lra. }
  destruct (round64_grid x E Hlt) as (P & HP & Hgrid).
  assert (HP0 : (0 < inject_Z P)%Q).
  { change 0%Q with (inject_Z 0). rewrite <- Zlt_Qlt.
    assert (0 < 2 ^ 49)%Z by reflexivity. lia. }
  assert (Hy : (inject_Z (k * P) <= x * inject_Z P)%Q).
  { rewrite inject_Z_mult. apply Qmult_le_compat_r; Lqa.lra. }
  apply rint_above in Hy. rewrite Zle_Qle, <- Hgrid, inject_Z_mult in Hy.
  apply Qmult_le_r in Hy; assumption.
Qed.

Lemma round64_below (k : Z) x :
  (Qabs x < 16)%Q -> (x <= inject_Z k)%Q -> (PyNum.round64 x <= inject_Z k)%Q.
Proof.
  intros Hlt Hk. destruct (Qeq_dec x 0) as [E|E].
  { rewrite (round64_zero x E). Lqa.lra. }
  destruct (round64_grid x E Hlt) as (P & HP & Hgrid).
  assert (HP0 : (0 < inject_Z P)%Q).
  { change 0%Q with (inject_Z 0). rewrite <- Zlt_Qlt.
    assert (0 < 2 ^ 49)%Z by reflexivity. lia. }
  assert (Hy : (x * inject_Z P <= inject_Z (k * P))%Q).
  { rewrite inject_Z_mult. apply Qmult_le_compat_r; Lqa.lra. }
  apply rint_below in Hy. rewrite Zle_Qle, <- Hgrid, inject_Z_mult in Hy.
  apply Qmult_le_r in Hy; assumption.
Qed.

(** Below 16 one rounding moves a number by at most [2^-50]. *)
Lemma round64_near x :
  (Qabs x < 16)%Q -> (Qabs (PyNum.round64 x - x) <= 1 # 2 ^ 50)%Q.
Proof.
  intros Hlt. destruct (Qeq_dec x 0) as [E|E].
  { rewrite (round64_zero x E), E. discriminate. }
  destruct (round64_grid x E Hlt) as (P & HP & Hgrid).
  assert (HP0 : (0 < inject_Z P)%Q).
  { change 0%Q with (inject_Z 0). rewrite <- Zlt_Qlt.
    assert (0 < 2 ^ 49)%Z by reflexivity. lia. }
  assert (HPle : (inject_Z (2 ^ 49) <= inject_Z P)%Q) by now rewrite <- Zle_Qle.
  pose proof (rint_near (x * inject_Z P)) as Hn. rewrite <- Hgrid in Hn.
  apply Qabs_Qle_condition in Hn. destruct Hn as [Hn1 Hn2].
  apply Qabs_Qle_condition.
  change (inject_Z (2 ^ 49)) with (562949953421312 # 1)%Q in HPle.
  change (1 # 2 ^ 50)%Q with (1 # 1125899906842624)%Q.
  set (r := PyNum.round64 x) in *. set (p := inject_Z P) in *.
  assert (H1 : ((r - x) * p <= 1 # 2)%Q) by Lqa.lra.
  assert (H2 : (- (1 # 2) <= (r - x) * p)%Q) by Lqa.lra.
  split.
  - apply Qnot_lt_le. intros H.
    assert ((r - x) * p < - (1 # 1125899906842624) * p)%Q.
    { apply Qmult_lt_compat_r; assumption. }
    assert (- (1 # 1125899906842624) * p <= - (1 # 2))%Q by Lqa.lra.
    Lqa.lra.
  - apply Qnot_lt_le. intros H.
    assert ((1 # 1125899906842624) * p < (r - x) * p)%Q.
    { apply Qmult_lt_compat_r; assumption. }
    Lqa.lra.
Qed.

(** [round64] against the addition of the machine: on the sample pairs
    the rounded sum of the two values is the value of the machine's
    sum. *)
Lemma round64_is_the_machine_addition :
  Forall (fun p =>
            match binary64_value (fst p), binary64_value (snd p) with
            | Some x, Some y =>
                binary64_value (fst p + snd p)%float
                = Some (PyNum.round64 (x + y))
            | _, _ => False
            end)
         sample_additions.
Proof. repeat constructor. Qed.

Lemma samples_are_binary64 :
  binary64_value 0x1.147ae147ae148p-1%float = Some b64_0_54
  /\ binary64_value 0x1.dd70a3d70a3d7p+2%float = Some b64_7_46
  /\ binary64_value 0x1.999999999999ap-4%float = Some b64_0_1
  /\ binary64_value 0x1.3cccccccccccdp+3%float = Some b64_9_9
  /\ PyNum.round64 (54 # 100) = b64_0_54
  /\ PyNum.round64 (746 # 100) = b64_7_46
  /\ PyNum.round64 (1 # 10) = b64_0_1
  /\ PyNum.round64 (99 # 10) = b64_9_9.
Proof. repeat split; vm_compute; reflexivity. Qed.

(** *** The score *)

Lemma theme_score_rounded (org comm : Q) :
  Excel.theme_score (PyNum.Fin org) (PyNum.Fin comm)
  = PyNum.Fin (PyNum.round64 (PyNum.round64 (-10 + org) + comm)).
Proof. reflexivity. Qed.

Lemma Qabs_below_16 x : (-10 <= x)%Q -> (x <= 10)%Q -> (Qabs x < 16)%Q.
Proof.
  intros H1 H2. apply Qabs_case; intros; Lqa.lra.
Qed.

(** The two roundings keep the score in [-10, 10] and within [2^-49] of
    the exact sum. *)
Lemma theme_score_bounds (org comm : Q) :
  (0 <= org)%Q -> (org <= 10)%Q -> (0 <= comm)%Q -> (comm <= 10)%Q ->
  let score := PyNum.round64 (PyNum.round64 (-10 + org) + comm) in
  (-10 <= score)%Q /\ (score <= 10)%Q
  /\ (Qabs (score - (org + comm - 10)) <= 1 # 2 ^ 49)%Q.
Proof.
  intros Ho Ho' Hc Hc'.
  assert (H1 : (Qabs (-10 + org) < 16)%Q) by (apply Qabs_below_16; Lqa.lra).
  pose proof (round64_above (-10) (-10 + org) H1) as Ha.
  pose proof (round64_below 0 (-10 + org) H1) as Hb.
  pose proof (round64_near (-10 + org) H1) as Hn.
  change (inject_Z (-10)) with (-10)%Q in Ha. change (inject_Z 0) with 0%Q in Hb.
  set (r1 := PyNum.round64 (-10 + org)) in *.
  assert (Hr1 : (-10 <= r1)%Q) by (apply Ha; Lqa.lra).
  assert (Hr1' : (r1 <= 0)%Q) by (apply Hb; Lqa.lra).
  assert (H2 : (Qabs (r1 + comm) < 16)%Q) by (apply Qabs_below_16; Lqa.lra).
  pose proof (round64_above (-10) (r1 + comm) H2) as Ha2.
  pose proof (round64_below 10 (r1 + comm) H2) as Hb2.
  pose proof (round64_near (r1 + comm) H2) as Hn2.
  change (inject_Z (-10)) with (-10)%Q in Ha2.
  change (inject_Z 10) with 10%Q in Hb2.
  cbv zeta. set (score := PyNum.round64 (r1 + comm)) in *.
  split; [apply Ha2; Lqa.lra|]. split; [apply Hb2; Lqa.lra|].
  apply Qabs_Qle_condition in Hn, Hn2. apply Qabs_Qle_condition.
  change (1 # 2 ^ 50)%Q with (1 # 1125899906842624)%Q in *.
  change (1 # 2 ^ 49)%Q with (1 # 562949953421312)%Q.
  split; Lqa.lra.
Qed.

(** On whole numbers nothing is rounded away. *)
Lemma theme_score_whole (o c : Z) :
  (0 <= o <= 10)%Z -> (0 <= c <= 10)%Z ->
  Excel.theme_score (PyNum.of_int o) (PyNum.of_int c) = PyNum.of_int (o + c - 10).
Proof.
  intros Ho Hc.
  assert (Ho' : (o = 0 \/ o = 1 \/ o = 2 \/ o = 3 \/ o = 4 \/ o = 5 \/ o = 6
                 \/ o = 7 \/ o = 8 \/ o = 9 \/ o = 10)%Z) by lia.
  assert (Hc' : (c = 0 \/ c = 1 \/ c = 2 \/ c = 3 \/ c = 4 \/ c = 5 \/ c = 6
                 \/ c = 7 \/ c = 8 \/ c = 9 \/ c = 10)%Z) by lia.
  clear Ho Hc.
  repeat match goal with H : _ \/ _ |- _ => destruct H as [H|H] end;
    subst; vm_compute; reflexivity.
Qed.

(** C6, amended.  For a theme whose capability and capacity, in the two
    lists of [main], are in [0, 10] and whose label is a string, the row
    [main] shows carries as score the binary64 value of
    [(-10 + org) + comm]: it is within [2^-49] of [org + comm - 10], it
    lies in [-10, 10], and the branch taken is green (aligned) iff this
    score is 0, orange (redundant) iff it is positive, red (gap) iff it
    is below -2, blue (partial gap) iff it is in [-2, 0).  On whole
    numbers the score is [org + comm - 10] itself; (10, 10) scores 10 and
    is redundant, (0, 0) scores -10 and is a gap, (5, 5) scores 0 and is
    aligned. *)
Theorem tabular_score_and_band :
  (forall (org comm : Q) r_ngo r_comm i theme text
          (h : gmap nat (list PyNum.pyfloat)) ngo_list comm_list,
     (0 <= org)%Q -> (org <= 10)%Q -> (0 <= comm)%Q -> (comm <= 10)%Q ->
     h !! r_ngo = Some ngo_list -> h !! r_comm = Some comm_list ->
     nth_error ngo_list i = Some (PyNum.Fin org) ->
     nth_error comm_list i = Some (PyNum.Fin comm) ->
     Excel.theme_text theme = Some text ->
     exists score row,
       Excel.assess r_ngo r_comm i theme h = (PyHeap.Ok row, h)
       /\ Excel.row_theme row = theme
       /\ Excel.row_score row = PyNum.Fin score
       /\ score = PyNum.round64 (PyNum.round64 (-10 + org) + comm)
       /\ (Qabs (score - (org + comm - 10)) <= 1 # 2 ^ 49)%Q
       /\ (-10 <= score)%Q /\ (score <= 10)%Q
       /\ (Excel.row_band row = Excel.Aligned <-> (score == 0)%Q)
       /\ (Excel.row_band row = Excel.Redundant <-> (0 < score)%Q)
       /\ (Excel.row_band row = Excel.Gap <-> (score < -2)%Q)
       /\ (Excel.row_band row = Excel.PartialGap
           <-> (-2 <= score)%Q /\ (score < 0)%Q))
  /\ (forall o c : Z,
        (0 <= o <= 10)%Z -> (0 <= c <= 10)%Z ->
        Excel.theme_score (PyNum.of_int o) (PyNum.of_int c)
        = PyNum.of_int (o + c - 10))
  /\ (Excel.theme_score (PyNum.Fin 10) (PyNum.Fin 10) = PyNum.Fin 10
      /\ Excel.classify (PyNum.Fin 10) = Excel.Redundant)
  /\ (Excel.theme_score (PyNum.Fin 0) (PyNum.Fin 0) = PyNum.Fin (-10)
      /\ Excel.classify (PyNum.Fin (-10)) = Excel.Gap)
  /\ (Excel.theme_score (PyNum.Fin 5) (PyNum.Fin 5) = PyNum.Fin 0
      /\ Excel.classify (PyNum.Fin 0) = Excel.Aligned).
Proof.
  split; [|split; [exact theme_score_whole|repeat split; reflexivity]].
  intros org comm r_ngo r_comm i theme text h ngo_list comm_list
         Ho Ho' Hc Hc' Hn Hcm Hni Hci Htext.
  set (score := PyNum.round64 (PyNum.round64 (-10 + org) + comm)).
  assert (Hcomment : exists t,
             Excel.comment (Excel.classify (PyNum.Fin score)) theme = Some t).
  { unfold Excel.comment. rewrite Htext.
    destruct (Excel.classify (PyNum.Fin score)); eauto. }
  destruct Hcomment as (t & Ht).
  exists score.
  exists {| Excel.row_theme := theme;
            Excel.row_score := PyNum.Fin score;
            Excel.row_band := Excel.classify (PyNum.Fin score);
            Excel.row_comment := t |}.
  split.
  { rewrite (assess_run r_ngo r_comm i theme h ngo_list comm_list
               (PyNum.Fin org) (PyNum.Fin comm) t Hn Hcm Hni Hci);
      rewrite theme_score_rounded; [reflexivity|exact Ht]. }
  split; [reflexivity|]. split; [reflexivity|]. split; [reflexivity|].
  destruct (theme_score_bounds org comm Ho Ho' Hc Hc') as (Hlo & Hhi & Hnear).
  split; [exact Hnear|]. split; [exact Hlo|]. split; [exact Hhi|].
  cbn [Excel.row_band]. apply classify_spec.
Qed.

Lemma tabular_score_and_band_witness :
  exists score row,
    Excel.assess 0 1 0 (Excel.Text "2.1 Income & Revenue")
      (two_lists [PyNum.Fin 6] [PyNum.Fin 3])
    = (PyHeap.Ok row, two_lists [PyNum.Fin 6] [PyNum.Fin 3])
    /\ Excel.row_theme row = Excel.Text "2.1 Income & Revenue"
    /\ Excel.row_score row = PyNum.Fin score
    /\ score = PyNum.round64 (PyNum.round64 (-10 + 6) + 3)
    /\ (Qabs (score - (6 + 3 - 10)) <= 1 # 2 ^ 49)%Q
    /\ (-10 <= score)%Q /\ (score <= 10)%Q
    /\ (Excel.row_band row = Excel.Aligned <-> (score == 0)%Q)
    /\ (Excel.row_band row = Excel.Redundant <-> (0 < score)%Q)
    /\ (Excel.row_band row = Excel.Gap <-> (score < -2)%Q)
    /\ (Excel.row_band row = Excel.PartialGap
        <-> (-2 <= score)%Q /\ (score < 0)%Q).
Proof.
  apply (proj1 tabular_score_and_band 6%Q 3%Q 0 1 0
           (Excel.Text "2.1 Income & Revenue") "2.1 Income & Revenue"
           (two_lists [PyNum.Fin 6] [PyNum.Fin 3]) [PyNum.Fin 6] [PyNum.Fin 3]);
    [Lqa.lra | Lqa.lra | Lqa.lra | Lqa.lra | reflexivity | reflexivity
    | reflexivity | reflexivity | reflexivity].
Defined.

(** C6, as stated, fails.  With a capability of 0.54 and a capacity of
    7.46 (the binary64 numbers of these fields, which add up to 8) the
    claim's score [org + comm - 10] is -2, in the blue branch; the code
    computes [-10 + 0.54] first, rounds it, and gets a score just below
    -2, in the red branch.  With 0.1 and 9.9 the exact sum is above 0, the
    code gets 0 and shows the green branch. *)
Lemma rounding_moves_the_score_across_a_band :
  (PyNum.round64 (54 # 100) = b64_0_54 /\ PyNum.round64 (746 # 100) = b64_7_46
   /\ (0 <= b64_0_54)%Q /\ (b64_0_54 <= 10)%Q /\ (0 <= b64_7_46)%Q /\ (b64_7_46 <= 10)%Q
   /\ (b64_0_54 + b64_7_46 - 10 == -2)%Q
   /\ Excel.classify (PyNum.Fin (b64_0_54 + b64_7_46 - 10)) = Excel.PartialGap
   /\ exists row,
        Excel.assess 0 1 0 (Excel.Text "2.1 Income & Revenue")
          (two_lists [PyNum.Fin b64_0_54] [PyNum.Fin b64_7_46])
        = (PyHeap.Ok row, two_lists [PyNum.Fin b64_0_54] [PyNum.Fin b64_7_46])
        /\ Excel.row_score row
           = PyNum.Fin (-2251799813685249 # 1125899906842624)
        /\ ~ (-2251799813685249 # 1125899906842624
              == b64_0_54 + b64_7_46 - 10)%Q
        /\ Excel.row_band row = Excel.Gap)
  /\ (PyNum.round64 (1 # 10) = b64_0_1 /\ PyNum.round64 (99 # 10) = b64_9_9
      /\ (0 <= b64_0_1)%Q /\ (b64_0_1 <= 10)%Q /\ (0 <= b64_9_9)%Q /\ (b64_9_9 <= 10)%Q
      /\ (0 < b64_0_1 + b64_9_9 - 10)%Q
      /\ Excel.classify (PyNum.Fin (b64_0_1 + b64_9_9 - 10)) = Excel.Redundant
      /\ exists row,
           Excel.assess 0 1 0 (Excel.Text "2.1 Income & Revenue")
             (two_lists [PyNum.Fin b64_0_1] [PyNum.Fin b64_9_9])
           = (PyHeap.Ok row, two_lists [PyNum.Fin b64_0_1] [PyNum.Fin b64_9_9])
           /\ Excel.row_score row = PyNum.Fin 0
           /\ Excel.row_band row = Excel.Aligned).
Proof.
  split.
  - split; [vm_compute; reflexivity|]. split; [vm_compute; reflexivity|].
    split; [discriminate|]. split; [discriminate|]. split; [discriminate|].
    split; [discriminate|]. split; [reflexivity|]. split; [reflexivity|].
    eexists. split; [vm_compute; reflexivity|].
    split; [reflexivity|]. split; [discriminate|reflexivity].
  - split; [vm_compute; reflexivity|]. split; [vm_compute; reflexivity|].
    split; [discriminate|]. split; [discriminate|]. split; [discriminate|].
    split; [discriminate|]. split; [reflexivity|]. split; [reflexivity|].
    eexists. split; [vm_compute; reflexivity|].
    split; reflexivity.
Qed.

(** ** The fit of the slider workflow *)

Lemma fit_score_scale (n c : Z) :
  (0 <= n <= 10)%Z -> (0 <= c <= 10)%Z ->
  exists s,
    Slider.fit_score n c = PyNum.Fin s
    /\ (0 <= s)%Q /\ (s <= 10)%Q
    /\ ((s == 10)%Q <-> n = 10%Z /\ c = 10%Z).
Proof.
  intros Hn Hc. unfold Slider.fit_score, PyNum.of_int, PyNum.fmul, PyNum.fadd.
  eexists. split; [reflexivity|].
  set (m := Z.min n c). set (d := Z.abs (n - c)).
  assert (Hm : (0 <= m <= 10)%Z) by (unfold m; lia).
  assert (Hd : (0 <= d)%Z) by (unfold d; lia).
  assert (Hmd : (m + d <= 10)%Z) by (unfold m, d; lia).
  assert (Qm0 : (0 <= inject_Z m)%Q) by (unfold Qle; cbn [Qnum Qden inject_Z]; lia).
  assert (Qd0 : (0 <= inject_Z d)%Q) by (unfold Qle; cbn [Qnum Qden inject_Z]; lia).
  assert (Qmd : (inject_Z m + inject_Z d <= 10)%Q).
  { rewrite <- inject_Z_plus. unfold Qle; cbn [Qnum Qden inject_Z]; lia. }
  split; [Lqa.lra|]. split; [Lqa.lra|].
  split.
  - intros Heq.
    assert (Hd0 : (inject_Z d == 0)%Q) by Lqa.lra.
    assert (Hm10 : (inject_Z m == 10)%Q) by Lqa.lra.
    apply (inject_Z_injective d 0) in Hd0.
    apply (inject_Z_injective m 10) in Hm10. unfold m, d in *. lia.
  - intros [-> ->]. reflexivity.
Qed.

Lemma fit_score_on_scale (n c : Z) :
  (0 <= n <= 10)%Z -> (0 <= c <= 10)%Z -> on_scale (Slider.fit_score n c).
Proof.
  intros Hn Hc. destruct (fit_score_scale n c Hn Hc) as (s & E & H0 & H10 & _).
  exists s. auto.
Qed.

(** The running sum of scores on the scale. *)
Lemma sum_on_scale (l : list PyNum.pyfloat) :
  Forall on_scale l ->
  forall a : Q,
    exists t, fold_left PyNum.fadd l (PyNum.Fin a) = PyNum.Fin t
      /\ (a <= t)%Q
      /\ (t <= a + 10 * inject_Z (Z.of_nat (length l)))%Q.
Proof.
  induction 1 as [|v l (q & -> & H0 & H10) _ IH]; intros a.
  - exists a. split; [reflexivity|]. split; [Lqa.lra|].
    change (inject_Z (Z.of_nat (length (@nil PyNum.pyfloat)))) with 0%Q. Lqa.lra.
  - cbn [fold_left PyNum.fadd length].
    destruct (IH (a + q)%Q) as (t & E & Hlo & Hhi).
    exists t. split; [exact E|]. split; [Lqa.lra|].
    rewrite Nat2Z.inj_succ, <- Z.add_1_r, inject_Z_plus.
    change (inject_Z 1) with 1%Q. Lqa.lra.
Qed.

(** The mean of a non-empty list of scores on the scale is on the scale. *)
Lemma mean_on_scale (l : list PyNum.pyfloat) :
  l <> [] -> Forall on_scale l -> on_scale (PyNum.mean l).
Proof.
  intros Hne Hl. unfold PyNum.mean.
  destruct (sum_on_scale l Hl 0%Q) as (t & -> & Hlo & Hhi).
  unfold PyNum.of_int, PyNum.fdiv.
  set (n := inject_Z (Z.of_nat (length l))) in *.
  assert (Hn : (0 < n)%Q).
  { unfold n. destruct l; [congruence|].
    unfold Qlt; cbn [Qnum Qden inject_Z length]. lia. }
  destruct (Qeq_bool n 0) eqn:E.
  { apply Qeq_bool_iff in E. Lqa.lra. }
  exists (t / n)%Q. split; [reflexivity|]. split.
  - apply Qle_shift_div_l; [assumption|]. Lqa.lra.
  - apply Qle_shift_div_r; [assumption|]. Lqa.lra.
Qed.

(** The eight scores [main] averages, slider by slider. *)
Lemma slider_fit_scores (slider : string -> Z) :
  Slider.fit_scores Slider.ngo_capabilities (map slider Slider.themes)
  = [ Slider.fit_score 5 (slider "Generational Development");
      Slider.fit_score 4 (slider "Community Cohesion");
      Slider.fit_score 5 (slider "Tradition Preservation");
      Slider.fit_score 3 (slider "Infrastructure");
      Slider.fit_score 4 (slider "Employment");
      Slider.fit_score 2 (slider "Revenue");
      Slider.fit_score 4 (slider "Habitat Conservation");
      Slider.fit_score 6 (slider "Shark Population") ].
Proof. reflexivity. Qed.

(** The overall fit does not depend on the slider of the last theme. *)
Lemma overall_fit_ignores_last_slider (s s' : string -> Z) :
  (forall theme, theme <> "Protected Land" -> s theme = s' theme) ->
  exists page h page' h',
    Slider.main s ∅ = (PyHeap.Ok page, h)
    /\ Slider.main s' ∅ = (PyHeap.Ok page', h')
    /\ Slider.overall_fit page = Slider.overall_fit page'
    /\ Slider.advice page = Slider.advice page'.
Proof.
  intros Hs.
  destruct (slider_main_run s) as (? & ? & ? & ? & fig & _ & Hrun).
  destruct (slider_main_run s') as (? & ? & ? & ? & fig' & _ & Hrun').
  do 4 eexists. split; [exact Hrun|]. split; [exact Hrun'|].
  cbn [Slider.overall_fit Slider.advice].
  rewrite !slider_fit_scores.
  rewrite !Hs by discriminate. split; reflexivity.
Qed.

(** C10. A score [min(org, comm) + 0.1 |org - comm|] of two integers in
    [0, 10] is a number in [0, 10], and it is 10 only for (10, 10); a mean
    of such scores is in [0, 10] again; so the overall fit that [main]
    shows over "/10" is a number in [0, 10] wherever the sliders stand. *)
Theorem slider_fit_stays_on_scale :
  (forall org comm : Z,
     (0 <= org <= 10)%Z -> (0 <= comm <= 10)%Z ->
     exists s,
       Slider.fit_score org comm = PyNum.Fin s
       /\ (0 <= s)%Q /\ (s <= 10)%Q
       /\ ((s == 10)%Q <-> org = 10%Z /\ comm = 10%Z))
  /\
  (forall scores : list PyNum.pyfloat,
     scores <> [] -> Forall on_scale scores -> on_scale (PyNum.mean scores))
  /\
  (forall slider : string -> Z,
     (forall theme, 0 <= slider theme <= 10)%Z ->
     exists page h,
       Slider.main slider ∅ = (PyHeap.Ok page, h)
       /\ on_scale (Slider.overall_fit page)).
Proof.
  split; [exact fit_score_scale|]. split; [exact mean_on_scale|].
  intros slider Hs.
  destruct (slider_main_run slider) as (? & ? & ? & ? & fig & _ & Hrun).
  do 2 eexists. split; [exact Hrun|].
  cbn [Slider.overall_fit]. rewrite slider_fit_scores.
  apply mean_on_scale; [discriminate|].
  repeat (apply List.Forall_cons; [apply fit_score_on_scale; [lia|apply Hs]|]).
  apply List.Forall_nil.
Qed.

Lemma slider_fit_stays_on_scale_witness :
  (exists s,
     Slider.fit_score 5 0 = PyNum.Fin s
     /\ (0 <= s)%Q /\ (s <= 10)%Q
     /\ ((s == 10)%Q <-> 5%Z = 10%Z /\ 0%Z = 10%Z))
  /\
  (exists page h,
     Slider.main last_slider_up ∅ = (PyHeap.Ok page, h)
     /\ on_scale (Slider.overall_fit page)).
Proof.
  split.
  - apply (proj1 slider_fit_stays_on_scale 5%Z 0%Z); lia.
  - apply (proj2 (proj2 slider_fit_stays_on_scale) last_slider_up).
    intros theme. unfold last_slider_up.
    destruct (String.eqb theme "Protected Land"); lia.
Defined.

(** C3, as the code has it.  With the sliders at rest the overall fit is
    33/80, the mean of the scores of the first EIGHT themes; moving the
    slider of the ninth theme to 10 changes nothing, although its own
    score goes from 0.6 to 6.4 and the mean over all nine themes from
    13/30 to 97/90. *)
Theorem overall_fit_leaves_out_the_last_theme :
  exists page h page' h',
    Slider.main sliders_at_rest ∅ = (PyHeap.Ok page, h)
    /\ Slider.main last_slider_up ∅ = (PyHeap.Ok page', h')
    /\ length (Slider.fit_scores Slider.ngo_capabilities
                 (map last_slider_up Slider.themes)) = 8
    /\ PyNum.same (Slider.overall_fit page) (PyNum.Fin (33 # 80))
    /\ PyNum.same (Slider.overall_fit page') (PyNum.Fin (33 # 80))
    /\ PyNum.same (Slider.fit_score 6 (sliders_at_rest "Protected Land"))
         (PyNum.Fin (6 # 10))
    /\ PyNum.same (Slider.fit_score 6 (last_slider_up "Protected Land"))
         (PyNum.Fin (64 # 10))
    /\ PyNum.same
         (spec_overall_fit Slider.ngo_capabilities
            (map sliders_at_rest Slider.themes))
         (PyNum.Fin (13 # 30))
    /\ PyNum.same
         (spec_overall_fit Slider.ngo_capabilities
            (map last_slider_up Slider.themes))
         (PyNum.Fin (97 # 90)).
Proof.
  destruct (slider_main_run sliders_at_rest) as (? & ? & ? & ? & fig & _ & Hrun).
  destruct (slider_main_run last_slider_up) as (? & ? & ? & ? & fig' & _ & Hrun').
  do 4 eexists. split; [exact Hrun|]. split; [exact Hrun'|].
  cbn [Slider.overall_fit].
  repeat split; vm_compute; reflexivity.
Qed.

Lemma recommend_spec (f : Q) :
  (Slider.recommend (PyNum.Fin f) = Slider.Excellent <-> (8 <= f)%Q)
  /\ (Slider.recommend (PyNum.Fin f) = Slider.Good <-> (6 <= f)%Q /\ (f < 8)%Q)
  /\ (Slider.recommend (PyNum.Fin f) = Slider.Limited <-> (f < 6)%Q).
Proof.
  unfold Slider.recommend, PyNum.fle, PyNum.of_int.
  change (inject_Z 8) with 8%Q. change (inject_Z 6) with 6%Q.
  destruct (Qle_bool 8 f) eqn:E8.
  { apply Qle_bool_iff in E8.
    split; [|split]; split; try discriminate; intros; try reflexivity;
      try assumption; exfalso; Lqa.lra. }
  apply Qle_bool_false in E8.
  destruct (Qle_bool 6 f) eqn:E6.
  - apply Qle_bool_iff in E6.
    split; [|split]; split; try discriminate; intros; try reflexivity;
      try (split; assumption); exfalso; Lqa.lra.
  - apply Qle_bool_false in E6.
    split; [|split]; split; try discriminate; intros; try reflexivity;
      try assumption; exfalso; Lqa.lra.
Qed.

(** ** Strings and the recommendation lookup *)

Lemma append_String c (a b : string) :
  (String c a ++ b)%string = String c (a ++ b)%string.
Proof. reflexivity. Qed.

Lemma prefix_spec (n h : string) :
  String.prefix n h = true <-> exists b, h = (n ++ b)%string.
Proof.
  revert h. induction n as [|a n IH]; intros h; destruct h as [|c h]; simpl.
  - split; [intros _; now exists EmptyString|reflexivity].
  - split; [intros _; now exists (String c h)|reflexivity].
  - split; [discriminate|]. intros (b & Hb). discriminate.
  - destruct (Ascii.ascii_dec a c) as [->|Hne].
    + rewrite IH. split; intros (b & Hb); exists b;
        rewrite append_String in *; congruence.
    + split; [discriminate|]. intros (b & Hb).
      rewrite append_String in Hb. congruence.
Qed.

(** [contains] is the substring test. *)
Lemma contains_spec (n h : string) :
  PyStr.contains n h = true <-> exists a b, h = (a ++ n ++ b)%string.
Proof.
  induction h as [|c h IH]; cbn [PyStr.contains].
  - rewrite orb_false_r, prefix_spec. split.
    + intros (b & Hb). now exists EmptyString, b.
    + intros ([|c a] & b & Hab); [now exists b|discriminate].
  - rewrite orb_true_iff, prefix_spec, IH. split.
    + intros [(b & Hb)|(a & b & Hab)].
      * now exists EmptyString, b.
      * exists (String c a), b. now rewrite append_String, Hab.
    + intros ([|c' a] & b & Hab).
      * left. now exists b.
      * right. exists a, b. rewrite append_String in Hab. congruence.
Qed.

Lemma key_matches_spec (key theme : string) :
  Excel.key_matches key theme = true <->
  PyStr.contains (PyStr.lower key) (PyStr.lower theme) = true
  \/ exists word, In word (PyStr.split (PyStr.lower key))
       /\ PyStr.contains word (PyStr.lower theme) = true.
Proof.
  unfold Excel.key_matches. rewrite orb_true_iff, existsb_exists. reflexivity.
Qed.

(** The loop returns the text of the FIRST entry that matches. *)
Lemma first_match_spec items theme value :
  Excel.first_match items theme = Some value <->
  exists before key after,
    items = before ++ (key, value) :: after
    /\ Excel.key_matches key theme = true
    /\ Forall (fun entry => Excel.key_matches (fst entry) theme = false) before.
Proof.
  induction items as [|[k v] items IH]; simpl.
  - split; [discriminate|]. intros (before & key & after & E & _).
    now destruct before.
  - destruct (Excel.key_matches k theme) eqn:Ek.
    + split.
      * intros [= <-]. exists [], k, items. repeat split; auto.
      * intros ([|[k' v'] before] & key & after & E & Hk & Hb).
        -- now inversion E.
        -- inversion E; subst. inversion Hb; subst. simpl in *. congruence.
    + rewrite IH. split.
      * intros (before & key & after & -> & Hk & Hb).
        exists ((k, v) :: before), key, after. repeat split; auto.
      * intros ([|[k' v'] before] & key & after & E & Hk & Hb).
        -- inversion E; subst. congruence.
        -- inversion E; subst. inversion Hb; subst.
           exists before, key, after. repeat split; auto.
Qed.

Lemma first_match_none items theme :
  Excel.first_match items theme = None <->
  Forall (fun entry => Excel.key_matches (fst entry) theme = false) items.
Proof.
  induction items as [|[k v] items IH]; simpl.
  - split; auto.
  - destruct (Excel.key_matches k theme) eqn:Ek.
    + split; [discriminate|]. intros H. inversion H; subst. simpl in *. congruence.
    + rewrite IH. split; [intros H; constructor; auto|].
      intros H. now inversion H.
Qed.

(** The lookup of the blue branch: first match in catalogue order, or
    the generic text. *)
Lemma find_recommendation_spec theme :
  (exists before key value after,
     Excel.strategic_recommendations = before ++ (key, value) :: after
     /\ Excel.key_matches key theme = true
     /\ Forall (fun entry => Excel.key_matches (fst entry) theme = false) before
     /\ Excel.find_recommendation theme = value)
  \/ (Forall (fun entry => Excel.key_matches (fst entry) theme = false)
        Excel.strategic_recommendations
      /\ Excel.find_recommendation theme = "general strategic adjustments").
Proof.
  unfold Excel.find_recommendation.
  destruct (Excel.first_match Excel.strategic_recommendations theme) as [v|] eqn:E.
  - left. apply first_match_spec in E as (before & key & after & E1 & E2 & E3).
    exists before, key, v, after. auto.
  - right. split; [now apply first_match_none|reflexivity].
Qed.

(** C1, as the code has it.  The label "2.1 Income & Revenue" with
    org = 6 and comm = 3 scores -1 and takes the blue branch, but the
    lookup stops at the FIRST catalogue entry, "1.1 Awareness &
    Education": one of the words of that key is "&", and "&" occurs in
    the label.  The theme gets the awareness text, not the
    income/revenue text. *)
Theorem income_revenue_label_gets_awareness_text :
  Excel.theme_score (PyNum.Fin 6) (PyNum.Fin 3) = PyNum.Fin (-1)
  /\ Excel.classify (PyNum.Fin (-1)) = Excel.PartialGap
  /\ PyStr.split (PyStr.lower "1.1 Awareness & Education")
     = ["1.1"; "awareness"; "&"; "education"]
  /\ PyStr.contains "&" (PyStr.lower "2.1 Income & Revenue") = true
  /\ Excel.key_matches "1.1 Awareness & Education" "2.1 Income & Revenue" = true
  /\ Excel.find_recommendation "2.1 Income & Revenue"
     = "improving communication on the effects of conservation, or reaching out to younger generations"
  /\ Excel.find_recommendation "2.1 Income & Revenue"
     <> "adapting business model to increase the portion of the revenue reserved for tour guide salaries and conservation"
  /\ Excel.comment (Excel.classify (Excel.theme_score (PyNum.Fin 6) (PyNum.Fin 3)))
       (Excel.Text "2.1 Income & Revenue")
     = Some "There is a gap between the community context and the strategy of the NGO. This could potentially be solved by changing the strategy to include: improving communication on the effects of conservation, or reaching out to younger generations".
Proof.
  repeat split; try reflexivity.
  vm_compute. discriminate.
Qed.

(** ** The normalizer: header row, row count, ranges *)

Lemma first_out_of_range_some comm ngo :
  forall i k,
    Excel.first_out_of_range i comm ngo = Some k ->
    exists j c n,
      k = i + j /\ nth_error comm j = Some c /\ nth_error ngo j = Some n
      /\ (Excel.in_range c = false \/ Excel.in_range n = false)
      /\ (forall j' c' n', j' < j ->
            nth_error comm j' = Some c' -> nth_error ngo j' = Some n' ->
            Excel.in_range c' = true /\ Excel.in_range n' = true).
Proof.
  revert ngo. induction comm as [|c comm IH]; intros [|n ngo] i k; simpl;
    try discriminate.
  destruct (Excel.in_range c) eqn:Ec; destruct (Excel.in_range n) eqn:En; simpl.
  2-4: intros [= <-]; exists 0, c, n; rewrite Nat.add_0_r;
       repeat split; auto; intros; lia.
  intros H. destruct (IH ngo (S i) k H) as (j & c0 & n0 & -> & Hc & Hn & Hbad & Hok).
  exists (S j), c0, n0.
  split; [lia|]. split; [assumption|]. split; [assumption|].
  split; [assumption|].
  intros [|j'] c' n' Hlt Hc' Hn'; simpl in *.
  - split; congruence.
  - apply (Hok j'); auto. lia.
Qed.

Lemma first_out_of_range_none comm ngo :
  forall i,
    Excel.first_out_of_range i comm ngo = None ->
    length comm = length ngo ->
    Forall (fun v => Excel.in_range v = true) comm
    /\ Forall (fun v => Excel.in_range v = true) ngo.
Proof.
  revert ngo. induction comm as [|c comm IH]; intros [|n ngo] i; simpl;
    try discriminate; auto.
  destruct (Excel.in_range c) eqn:Ec; destruct (Excel.in_range n) eqn:En; simpl;
    try discriminate.
  intros H [= Hlen]. destruct (IH ngo (S i) H Hlen). split; constructor; auto.
Qed.

Lemma floats_nth l vs j v :
  Excel.floats l = Some vs -> nth_error vs j = Some v ->
  exists x, nth_error l j = Some x /\ Excel.py_float x = Some v.
Proof.
  revert vs j. induction l as [|x l IH]; simpl; intros vs j H Hj.
  - inversion H; subst. now destruct j.
  - destruct (Excel.py_float x) as [w|] eqn:Ex; [|discriminate].
    destruct (Excel.floats l) as [ws|]; [|discriminate].
    inversion H; subst. destruct j as [|j]; simpl in *.
    + inversion Hj; subst. eauto.
    + eapply IH; eauto.
Qed.

Lemma iloc_slice_nth df s e c j x :
  nth_error (Excel.iloc_slice df s e c) j = Some x ->
  exists row, nth_error (Excel.rows df) (s + j) = Some row
    /\ x = Excel.entry c row.
Proof.
  unfold Excel.iloc_slice. rewrite nth_error_map.
  destruct (nth_error (firstn (e - s) (skipn s (Excel.rows df))) j) as [row|] eqn:E;
    [|discriminate].
  intros [= <-]. exists row. split; [|reflexivity].
  rewrite nth_error_firstn in E.
  destruct (j <? e - s)%nat; [|discriminate].
  now rewrite nth_error_skipn in E.
Qed.

(** On the frame, a header row on top of a table whose first row is
    numeric is skipped: the outcome is the one of the table without it,
    with the row numbers of the messages moved by one. *)
Lemma normalize_skips_header_row names header rows :
  Excel.start_row {| Excel.columns := names; Excel.rows := header :: rows |}
    = Some 1 ->
  Excel.start_row {| Excel.columns := names; Excel.rows := rows |} = Some 0 ->
  Excel.normalize {| Excel.columns := names; Excel.rows := header :: rows |}
  = match Excel.normalize {| Excel.columns := names; Excel.rows := rows |} with
    | inl e => inl (one_row_down e)
    | inr a => inr a
    end.
Proof.
  intros Hh Hr.
  set (df1 := {| Excel.columns := names; Excel.rows := header :: rows |}).
  set (df0 := {| Excel.columns := names; Excel.rows := rows |}).
  destruct (Nat.lt_ge_cases (length names) 3) as [Hc|Hc].
  { unfold Excel.normalize, Excel.shape1. simpl.
    now destruct (Nat.ltb_spec (length names) 3); [|lia]. }
  destruct (Nat.lt_ge_cases (length rows) 9) as [Hn|Hn].
  { rewrite (normalize_too_few_rows df1 1), (normalize_too_few_rows df0 0);
      try assumption; try reflexivity; unfold Excel.shape0; simpl; lia. }
  rewrite (normalize_enough_rows df1 1), (normalize_enough_rows df0 0);
    try assumption; try (unfold Excel.shape0; simpl; lia).
  assert (Hs : forall c, Excel.iloc_slice df1 1 (1 + 9) c
                         = Excel.iloc_slice df0 0 (0 + 9) c) by reflexivity.
  rewrite !Hs.
  destruct (Excel.floats (Excel.iloc_slice df0 0 (0 + 9) 1)) as [comm|];
    [|reflexivity].
  destruct (Excel.floats (Excel.iloc_slice df0 0 (0 + 9) 2)) as [ngo|];
    [|reflexivity].
  destruct (Excel.first_out_of_range 0 comm ngo) as [i|]; [|reflexivity].
  simpl. do 2 f_equal. lia.
Qed.

(** Header detection on frames: with or without the header row on top,
    the same Assessment. *)
Lemma header_row_on_frames names header rows a :
  Excel.start_row {| Excel.columns := names; Excel.rows := header :: rows |}
    = Some 1 ->
  Excel.start_row {| Excel.columns := names; Excel.rows := rows |} = Some 0 ->
  Excel.normalize {| Excel.columns := names; Excel.rows := rows |} = inr a ->
  Excel.normalize {| Excel.columns := names; Excel.rows := header :: rows |}
    = inr a.
Proof.
  intros Hh Hr Ha. now rewrite normalize_skips_header_row, Ha.
Qed.

(** But [read_csv] has taken the first line of the file away before the
    header test runs: no file of nine lines is accepted, whatever its
    first line is. *)
Lemma nine_line_file_is_rejected file :
  length file = 9 ->
  Excel.load_data_from_csv file = inl Excel.SchemaError
  \/ Excel.load_data_from_csv file = inl (Excel.RowCountError 9)
  \/ Excel.load_data_from_csv file = inl (Excel.RowCountError 10).
Proof.
  intros Hlen. destruct file as [|names lines]; [discriminate|].
  simpl in Hlen. unfold Excel.load_data_from_csv, Excel.read_csv.
  set (df := {| Excel.columns := names; Excel.rows := lines |}).
  destruct (Nat.lt_ge_cases (Excel.shape1 df) 3) as [Hc|Hc].
  { left. unfold Excel.normalize.
    now destruct (Nat.ltb_spec (Excel.shape1 df) 3); [|lia]. }
  right.
  destruct (Excel.start_row df) as [s|] eqn:Hs.
  - destruct (start_row_cases df s Hs) as [-> | ->]; [left|right];
      apply normalize_too_few_rows; auto; unfold df, Excel.shape0; simpl; lia.
  - unfold Excel.start_row in Hs. simpl in Hs.
    destruct lines; [discriminate|].
    repeat match type of Hs with
           | context [match ?x with _ => _ end] => destruct x
           end; discriminate.
Qed.

(** C2, as the code has it.  The sample table with its header line
    loads; the same nine data lines without the header line do not:
    [read_csv] makes the first data line the column names, eight rows
    are left, and the load stops at the row count. *)
Theorem headerless_table_is_rejected :
  Excel.load_data_from_csv (sample_header :: sample_lines)
    = inr sample_assessment
  /\ length sample_lines = 9
  /\ Excel.read_csv sample_lines
     = Some {| Excel.columns := sample_line "1.1 Awareness & Education" 7 8;
               Excel.rows := tl sample_lines |}
  /\ Excel.start_row {| Excel.columns := sample_line "1.1 Awareness & Education" 7 8;
                        Excel.rows := tl sample_lines |} = Some 0
  /\ Excel.load_data_from_csv sample_lines = inl (Excel.RowCountError 9).
Proof. repeat split; reflexivity. Qed.

(** Nothing is clamped: the values of a successful load are the coerced
    fields themselves, and all of them are in [0, 10]. *)
Lemma load_ok_in_range file a :
  Excel.load_data_from_csv file = inr a ->
  Forall (fun v => Excel.in_range v = true) (Excel.community_capacities a)
  /\ Forall (fun v => Excel.in_range v = true) (Excel.ngo_capabilities a).
Proof.
  intros Hload. destruct (load_ok_lengths _ _ Hload) as (_ & Hc & Hn).
  unfold Excel.load_data_from_csv in Hload.
  destruct (Excel.read_csv file) as [df|]; [|discriminate].
  apply normalize_ok in Hload as (s & _ & _ & _ & _ & _ & _ & Hrange).
  apply (first_out_of_range_none _ _ 0 Hrange). congruence.
Qed.

(** The row a range message names is the position, counted from 1, of
    the first offending row IN THE FRAME: [row - 1] rows of the frame come
    before it, the data rows among them are in range. *)
Lemma range_error_names_frame_row df row :
  Excel.normalize df = inl (Excel.RangeError row) ->
  exists s j cells comm_cap ngo_cap,
    Excel.start_row df = Some s
    /\ row = j + s + 1
    /\ nth_error (Excel.rows df) (row - 1) = Some cells
    /\ Excel.py_float (Excel.entry 1 cells) = Some comm_cap
    /\ Excel.py_float (Excel.entry 2 cells) = Some ngo_cap
    /\ (Excel.in_range comm_cap = false \/ Excel.in_range ngo_cap = false)
    /\ (forall j' cells', j' < j ->
          nth_error (Excel.rows df) (s + j') = Some cells' ->
          exists c n,
            Excel.py_float (Excel.entry 1 cells') = Some c
            /\ Excel.py_float (Excel.entry 2 cells') = Some n
            /\ Excel.in_range c = true /\ Excel.in_range n = true).
Proof.
  intros H.
  assert (Hc : 3 <= Excel.shape1 df).
  { unfold Excel.normalize in H.
    destruct (Nat.ltb_spec (Excel.shape1 df) 3); [discriminate|assumption]. }
  destruct (Excel.start_row df) as [s|] eqn:Hs.
  2:{ unfold Excel.normalize in H. rewrite Hs in H.
      now destruct (Excel.shape1 df <? 3)%nat. }
  assert (Hr : s + 9 <= Excel.shape0 df).
  { destruct (Nat.le_gt_cases (s + 9) (Excel.shape0 df)); [assumption|].
    rewrite (normalize_too_few_rows df s) in H by assumption. discriminate. }
  rewrite (normalize_enough_rows df s) in H by assumption.
  destruct (Excel.floats (Excel.iloc_slice df s (s + 9) 1)) as [comm|] eqn:Ecomm;
    [|discriminate].
  destruct (Excel.floats (Excel.iloc_slice df s (s + 9) 2)) as [ngo|] eqn:Engo;
    [|discriminate].
  destruct (Excel.first_out_of_range 0 comm ngo) as [i|] eqn:Hrange;
    [|discriminate].
  inversion H; subst row; clear H.
  destruct (first_out_of_range_some _ _ _ _ Hrange)
    as (j & c & n & -> & Hcj & Hnj & Hbad & Hok).
  destruct (floats_nth _ _ _ _ Ecomm Hcj) as (xc & Hxc & Hfc).
  destruct (floats_nth _ _ _ _ Engo Hnj) as (xn & Hxn & Hfn).
  apply iloc_slice_nth in Hxc as (cells & Hcells & ->).
  apply iloc_slice_nth in Hxn as (cells2 & Hcells2 & ->).
  assert (cells2 = cells) by congruence. subst cells2.
  exists s, j, cells, c, n.
  split; [reflexivity|]. split; [reflexivity|].
  split; [replace (0 + j + s + 1 - 1) with (s + j) by lia; assumption|].
  split; [assumption|]. split; [assumption|]. split; [assumption|].
  intros j' cells' Hlt Hcells'.
  assert (Hj9 : j < 9).
  { assert (Hcj' : nth_error comm j <> None) by congruence.
    apply nth_error_Some in Hcj'.
    rewrite (floats_length _ _ Ecomm), iloc_slice_length in Hcj'; assumption. }
  destruct (nth_error comm j') as [c'|] eqn:Hc'.
  2:{ apply nth_error_None in Hc'.
      rewrite (floats_length _ _ Ecomm), iloc_slice_length in Hc'; [lia|assumption]. }
  destruct (nth_error ngo j') as [n'|] eqn:Hn'.
  2:{ apply nth_error_None in Hn'.
      rewrite (floats_length _ _ Engo), iloc_slice_length in Hn'; [lia|assumption]. }
  destruct (Hok j' c' n' Hlt Hc' Hn') as (Hic & Hin).
  destruct (floats_nth _ _ _ _ Ecomm Hc') as (yc & Hyc & Hgc).
  destruct (floats_nth _ _ _ _ Engo Hn') as (yn & Hyn & Hgn).
  apply iloc_slice_nth in Hyc as (r1 & Hr1 & ->).
  apply iloc_slice_nth in Hyn as (r2 & Hr2 & ->).
  assert (r1 = cells') by congruence. assert (r2 = cells') by congruence.
  subst r1 r2. exists c', n'. auto.
Qed.

(** In the file the offending line is one further down than the message
    says: line [row + 1]. *)
Lemma range_error_line_of_file file row :
  Excel.load_data_from_csv file = inl (Excel.RangeError row) ->
  exists cells comm_cap ngo_cap,
    nth_error file row = Some cells
    /\ Excel.py_float (Excel.entry 1 cells) = Some comm_cap
    /\ Excel.py_float (Excel.entry 2 cells) = Some ngo_cap
    /\ (Excel.in_range comm_cap = false \/ Excel.in_range ngo_cap = false).
Proof.
  unfold Excel.load_data_from_csv, Excel.read_csv.
  destruct file as [|names lines]; [discriminate|].
  intros (s & j & cells & c & n & _ & -> & Hcells & Hc & Hn & Hbad & _)
    %range_error_names_frame_row.
  exists cells, c, n. simpl in Hcells.
  replace (j + s + 1) with (S (j + s + 1 - 1)) by lia. simpl. auto.
Qed.

(** C4, as the code has it.  A capacity of 11 in the fifth data line, a
    header line on top: the offending line is line 6 of the file, the
    message says row 5.  Without the header line, and with a tenth data
    line so that nine rows are left, the offending line is line 5 of the
    file and the message says row 4.  The value itself is refused, not
    clamped. *)
Theorem range_error_row_is_one_short :
  nth_error (sample_header :: bad_lines) 5
    = Some (sample_line "2.2 Employment" 11 7)
  /\ Excel.in_range (PyNum.of_int 11) = false
  /\ Excel.load_data_from_csv (sample_header :: bad_lines)
     = inl (Excel.RangeError 5)
  /\ nth_error (bad_lines ++ [extra_line]) 4
     = Some (sample_line "2.2 Employment" 11 7)
  /\ Excel.load_data_from_csv (bad_lines ++ [extra_line])
     = inl (Excel.RangeError 4).
Proof. repeat split; reflexivity. Qed.

(** Rows after the ninth data row are never looked at. *)
Lemma normalize_ignores_further_rows df s :
  3 <= Excel.shape1 df -> Excel.start_row df = Some s ->
  s + 9 <= Excel.shape0 df ->
  Excel.normalize df
  = Excel.normalize {| Excel.columns := Excel.columns df;
                       Excel.rows := firstn (s + 9) (Excel.rows df) |}.
Proof.
  intros Hc Hs Hr.
  set (df' := {| Excel.columns := Excel.columns df;
                 Excel.rows := firstn (s + 9) (Excel.rows df) |}).
  assert (Hs' : Excel.start_row df' = Some s).
  { unfold Excel.start_row in *. simpl.
    destruct (Excel.rows df) as [|row0 rest]; [discriminate|].
    now replace (s + 9) with (S (s + 8)) by lia. }
  assert (Hr' : s + 9 <= Excel.shape0 df').
  { unfold Excel.shape0 in *. simpl. rewrite length_firstn. lia. }
  rewrite (normalize_enough_rows df s), (normalize_enough_rows df' s) by assumption.
  assert (Hslice : forall c, Excel.iloc_slice df' s (s + 9) c
                             = Excel.iloc_slice df s (s + 9) c).
  { intros c. unfold Excel.iloc_slice. simpl.
    rewrite skipn_firstn_comm, firstn_firstn. f_equal. f_equal. lia. }
  now rewrite !Hslice.
Qed.

Lemma iloc_slice_data df s c :
  Excel.iloc_slice df s (s + 9) c
  = map (Excel.entry c) (firstn 9 (skipn s (Excel.rows df))).
Proof.
  unfold Excel.iloc_slice. now replace (s + 9 - s) with 9 by lia.
Qed.

Lemma first_out_of_range_all comm ngo :
  forall i,
    Forall (fun v => Excel.in_range v = true) comm ->
    Forall (fun v => Excel.in_range v = true) ngo ->
    Excel.first_out_of_range i comm ngo = None.
Proof.
  revert ngo. induction comm as [|c comm IH]; intros [|n ngo] i Hc Hn;
    simpl; auto.
  inversion Hc; subst. inversion Hn; subst.
  rewrite H1, H3. simpl. now apply IH.
Qed.

Lemma data_row_floats data :
  forallb data_row data = true ->
  exists comm ngo,
    Excel.floats (map (Excel.entry 1) data) = Some comm
    /\ Excel.floats (map (Excel.entry 2) data) = Some ngo.
Proof.
  induction data as [|line data IH]; cbn [forallb map Excel.floats].
  - intros _. exists [], []. split; reflexivity.
  - intros ((_ & Hline)%andb_prop & Hdata)%andb_prop.
    destruct (IH Hdata) as (comm & ngo & -> & ->).
    destruct (Excel.py_float (Excel.entry 1 line)) as [c|]; [|discriminate].
    destruct (Excel.py_float (Excel.entry 2 line)) as [n|]; [|discriminate].
    eauto.
Qed.

Lemma forallb_firstn {V : Type} (f : V -> bool) n l :
  forallb f l = true -> forallb f (firstn n l) = true.
Proof.
  revert n. induction l as [|x l IH]; intros [|n]; cbn; auto.
  intros (-> & H)%andb_prop. cbn. auto.
Qed.

Lemma start_row_numeric names row0 rest :
  numeric_line row0 = true ->
  Excel.start_row {| Excel.columns := names; Excel.rows := row0 :: rest |}
  = Some 0.
Proof.
  unfold numeric_line, Excel.start_row. cbn [Excel.rows].
  destruct (Excel.pd_to_numeric (Excel.entry 1 row0));
    [destruct (Excel.pd_to_numeric (Excel.entry 2 row0))|]; now intros.
Qed.

Lemma forallb_in_range l :
  forallb Excel.in_range l = true -> Forall (fun v => Excel.in_range v = true) l.
Proof.
  induction l as [|v l IH]; cbn; [constructor|].
  intros (Hv & Hl)%andb_prop. constructor; auto.
Qed.

(** C5, amended.  At least nine data rows are required, and more are
    accepted.  A well-formed file of at least three columns whose data
    rows hold numbers in columns 2 and 3:
    - with a header line above one to eight data rows, it fails with the
      row-count message and there is no Assessment (the total the message
      states is left open here);
    - with a header line above nine or more data rows, it does not fail
      on the row count, and when the first nine data rows are in range
      the Assessment is made of these nine, whatever follows them;
    - without header line, two to eight lines of data fail with the
      row-count message, which states the 9 rows required. *)
Theorem row_count_is_a_minimum :
  (forall header data,
     well_formed (header :: data) = true -> 3 <= length header ->
     numeric_line header = false ->
     forallb data_row data = true ->
     (1 <= length data < 9 ->
      exists n,
        Excel.load_data_from_csv (header :: data)
        = inl (Excel.RowCountError n))
     /\ (9 <= length data ->
         (forall n, Excel.load_data_from_csv (header :: data)
                    <> inl (Excel.RowCountError n))
         /\ exists comm ngo,
              Excel.floats (map (Excel.entry 1) (firstn 9 data)) = Some comm
              /\ Excel.floats (map (Excel.entry 2) (firstn 9 data)) = Some ngo
              /\ (forallb Excel.in_range comm = true ->
                  forallb Excel.in_range ngo = true ->
                  Excel.load_data_from_csv (header :: data)
                  = inr (first_nine data comm ngo))))
  /\ (forall first rest,
        well_formed (first :: rest) = true -> 3 <= length first ->
        forallb data_row (first :: rest) = true ->
        2 <= length (first :: rest) < 9 ->
        Excel.load_data_from_csv (first :: rest)
        = inl (Excel.RowCountError 9)).
Proof.
  split.
  - intros header data _ Hc _ Hdata.
    unfold Excel.load_data_from_csv, Excel.read_csv.
    set (df := {| Excel.columns := header; Excel.rows := data |}).
    split.
    + intros [Hlo Hhi]. exists (9 + 0).
      destruct data as [|row0 rest]; [simpl in Hlo; lia|].
      cbn [forallb] in Hdata.
      apply andb_prop in Hdata as ((Hrow0 & _)%andb_prop & _).
      apply (normalize_too_few_rows df 0);
        [exact Hc | now apply start_row_numeric
        | unfold df, Excel.shape0; cbn [Excel.rows]; lia].
    + intros Hge.
      assert (Hs : Excel.start_row df = Some 0).
      { destruct data as [|row0 rest]; [simpl in Hge; lia|].
        cbn [forallb] in Hdata.
        apply andb_prop in Hdata as ((Hrow0 & _)%andb_prop & _).
        now apply start_row_numeric. }
      assert (Hr : 0 + 9 <= Excel.shape0 df)
        by (unfold df, Excel.shape0; cbn [Excel.rows]; lia).
      rewrite (normalize_enough_rows df 0) by assumption.
      rewrite !iloc_slice_data. cbn [Excel.rows df]. rewrite !skipn_O.
      destruct (data_row_floats (firstn 9 data)
                  (forallb_firstn _ 9 _ Hdata)) as (comm & ngo & Hcomm & Hngo).
      rewrite Hcomm, Hngo. split.
      * intros n. destruct (Excel.first_out_of_range 0 comm ngo); discriminate.
      * exists comm, ngo. split; [reflexivity|]. split; [reflexivity|].
        intros Hrc Hrn.
        now rewrite (first_out_of_range_all comm ngo 0
                       (forallb_in_range _ Hrc) (forallb_in_range _ Hrn)).
  - intros first rest _ Hc Hdata [Hlo Hhi].
    unfold Excel.load_data_from_csv, Excel.read_csv.
    set (df := {| Excel.columns := first; Excel.rows := rest |}).
    destruct rest as [|row0 rest]; [simpl in Hlo; lia|].
    cbn [forallb] in Hdata.
    apply andb_prop in Hdata as (_ & ((Hrow0 & _)%andb_prop & _)%andb_prop).
    apply (normalize_too_few_rows df 0);
      [exact Hc | now apply start_row_numeric
      | unfold df, Excel.shape0; simpl in Hhi |- *; lia].
Qed.

Lemma row_count_is_a_minimum_witness :
  (exists n,
     Excel.load_data_from_csv (sample_header :: firstn 8 sample_lines)
     = inl (Excel.RowCountError n))
  /\ Excel.load_data_from_csv (firstn 8 sample_lines)
     = inl (Excel.RowCountError 9)
  /\ (forall n,
        Excel.load_data_from_csv (sample_header :: sample_lines ++ [extra_line])
        <> inl (Excel.RowCountError n))
  /\ exists comm ngo,
       Excel.floats (map (Excel.entry 1) (firstn 9 (sample_lines ++ [extra_line])))
       = Some comm
       /\ Excel.floats (map (Excel.entry 2) (firstn 9 (sample_lines ++ [extra_line])))
          = Some ngo
       /\ (forallb Excel.in_range comm = true ->
           forallb Excel.in_range ngo = true ->
           Excel.load_data_from_csv (sample_header :: sample_lines ++ [extra_line])
           = inr (first_nine (sample_lines ++ [extra_line]) comm ngo)).
Proof.
  split; [|split].
  - apply (proj1 row_count_is_a_minimum sample_header (firstn 8 sample_lines));
      [reflexivity | simpl; lia | reflexivity | reflexivity | simpl; lia].
  - apply (proj2 row_count_is_a_minimum
             (sample_line "1.1 Awareness & Education" 7 8)
             (tl (firstn 8 sample_lines)));
      [reflexivity | simpl; lia | reflexivity | simpl; lia].
  - apply (proj1 row_count_is_a_minimum sample_header
             (sample_lines ++ [extra_line]));
      [reflexivity | simpl; lia | reflexivity | reflexivity | simpl; lia].
Defined.

(** C5, as stated, fails: ten data lines under the header line are not
    nine, and yet the load succeeds, on the first nine. *)
Lemma ten_data_lines_are_accepted :
  length (sample_lines ++ [extra_line]) = 10
  /\ Excel.start_row {| Excel.columns := sample_header;
                        Excel.rows := sample_lines ++ [extra_line] |} = Some 0
  /\ Excel.load_data_from_csv (sample_header :: sample_lines ++ [extra_line])
     = inr sample_assessment
  /\ ~ (exists n,
          Excel.load_data_from_csv (sample_header :: sample_lines ++ [extra_line])
          = inl (Excel.RowCountError n)).
Proof.
  repeat split; try reflexivity.
  intros (n & Hn). vm_compute in Hn. discriminate.
Qed.

(** * Further properties *)

(** ** The figures *)

Lemma removelast_closed {V : Type} (l : list V) :
  l <> [] -> removelast (l ++ firstn 1 l) = l.
Proof.
  destruct l as [|x l]; [congruence|]. intros _.
  change (firstn 1 (x :: l)) with [x]. apply removelast_last.
Qed.

Lemma excel_chart_figure r1 r2 (cats : list Excel.cell) h ngo comm :
  r1 <> r2 -> h !! r1 = Some ngo -> h !! r2 = Some comm ->
  length ngo = length cats -> length comm = length cats -> cats <> [] ->
  Excel.create_radar_chart r1 r2 cats h
  = (PyHeap.Ok (excel_figure cats ngo comm),
     <[r2 := closed comm]> (<[r1 := closed ngo]> h)).
Proof.
  intros Hne H1 H2 Hl1 Hl2 Hcats.
  unfold Excel.create_radar_chart, PyHeap.bind.
  rewrite (geometry_run _ r1 r2 cats h ngo comm) by assumption.
  destruct cats as [|c cats]; [congruence|]. reflexivity.
Qed.

Lemma slider_chart_figure r1 r2 (cats : list string) h ngo comm :
  r1 <> r2 -> h !! r1 = Some ngo -> h !! r2 = Some comm ->
  length ngo = length cats -> length comm = length cats ->
  Slider.create_radar_chart r1 r2 cats h
  = (PyHeap.Ok (slider_figure cats ngo comm),
     <[r2 := closed comm]> (<[r1 := closed ngo]> h)).
Proof.
  intros Hne H1 H2 Hl1 Hl2.
  unfold Slider.create_radar_chart, PyHeap.bind.
  now rewrite (geometry_run _ r1 r2 cats h ngo comm) by assumption.
Qed.

(** X1. For any number N >= 1 of categories the chart angles are N
    equally spaced angles starting at 0, each [2 pi i / N] and below the
    full turn, one step [2 pi / N] apart, followed by the first angle
    again. *)
Theorem angles_are_equally_spaced N :
  0 < N ->
  length (Radar.closed_angles N) = N + 1
  /\ nth 0 (Radar.closed_angles N) 0%R = 0%R
  /\ (forall i, i < N ->
        nth i (Radar.closed_angles N) 0%R = (2 * PI * INR i / INR N)%R
        /\ (0 <= nth i (Radar.closed_angles N) 0)%R
        /\ (nth i (Radar.closed_angles N) 0 < 2 * PI)%R)
  /\ (forall i, S i < N ->
        (nth (S i) (Radar.closed_angles N) 0
         - nth i (Radar.closed_angles N) 0 = 2 * PI / INR N)%R)
  /\ nth N (Radar.closed_angles N) 0%R = nth 0 (Radar.closed_angles N) 0%R.
Proof.
  intros HN.
  assert (HN' : (0 < INR N)%R) by (apply lt_0_INR; lia).
  pose proof PI_RGT_0 as Hpi.
  split; [rewrite closed_angles_length; lia|].
  split; [rewrite closed_angles_nth by lia; apply angle_first|].
  split; [|split].
  - intros i Hi. rewrite closed_angles_nth by assumption.
    split; [apply angle_formula|]. split.
    + destruct i as [|i]; [rewrite angle_first; Lra.lra|].
      rewrite <- (angle_first N). apply Rlt_le, angle_increasing; lia.
    + now apply angle_below_full_turn.
  - intros i Hi. rewrite !closed_angles_nth by lia.
    unfold Radar.angle. rewrite S_INR. field. Lra.lra.
  - now apply closed_angles_last.
Qed.

Lemma angles_are_equally_spaced_witness :
  length (Radar.closed_angles 3) = 3 + 1
  /\ nth 0 (Radar.closed_angles 3) 0%R = 0%R
  /\ (forall i, i < 3 ->
        nth i (Radar.closed_angles 3) 0%R = (2 * PI * INR i / INR 3)%R
        /\ (0 <= nth i (Radar.closed_angles 3) 0)%R
        /\ (nth i (Radar.closed_angles 3) 0 < 2 * PI)%R)
  /\ (forall i, S i < 3 ->
        (nth (S i) (Radar.closed_angles 3) 0
         - nth i (Radar.closed_angles 3) 0 = 2 * PI / INR 3)%R)
  /\ nth 3 (Radar.closed_angles 3) 0%R = nth 0 (Radar.closed_angles 3) 0%R.
Proof. apply (angles_are_equally_spaced 3). lia. Defined.

Lemma xticks_are_base_angles N :
  removelast (Radar.closed_angles N) = map (Radar.angle N) (seq 0 N).
Proof.
  unfold Radar.closed_angles. destruct N as [|N]; [reflexivity|].
  apply removelast_closed. discriminate.
Qed.

(** X2. The category labels sit at the N base angles, not at the
    repeated closing angle: in both charts the angular ticks are the
    angles of the N categories in order, one per label, one fewer than
    the plotted points. *)
Theorem labels_sit_at_base_angles :
  (forall r1 r2 (cats : list Excel.cell) h ngo comm,
     r1 <> r2 -> h !! r1 = Some ngo -> h !! r2 = Some comm ->
     length ngo = length cats -> length comm = length cats -> cats <> [] ->
     exists fig h',
       Excel.create_radar_chart r1 r2 cats h = (PyHeap.Ok fig, h')
       /\ Radar.xticklabels (Excel.plot fig) = cats
       /\ Radar.xticks (Excel.plot fig)
          = map (Radar.angle (length cats)) (seq 0 (length cats))
       /\ length (Radar.xticks (Excel.plot fig))
          = length (Radar.xticklabels (Excel.plot fig))
       /\ length (Radar.angles (Excel.plot fig))
          = S (length (Radar.xticks (Excel.plot fig)))
       /\ length (Radar.ngo_line (Excel.plot fig))
          = length (Radar.angles (Excel.plot fig))
       /\ length (Radar.community_fill_values (Excel.plot fig))
          = length (Radar.angles (Excel.plot fig)))
  /\
  (forall r1 r2 (cats : list string) h ngo comm,
     r1 <> r2 -> h !! r1 = Some ngo -> h !! r2 = Some comm ->
     length ngo = length cats -> length comm = length cats -> cats <> [] ->
     exists fig h',
       Slider.create_radar_chart r1 r2 cats h = (PyHeap.Ok fig, h')
       /\ Radar.xticklabels (Slider.plot fig) = cats
       /\ Radar.xticks (Slider.plot fig)
          = map (Radar.angle (length cats)) (seq 0 (length cats))
       /\ length (Radar.xticks (Slider.plot fig))
          = length (Radar.xticklabels (Slider.plot fig))
       /\ length (Radar.angles (Slider.plot fig))
          = S (length (Radar.xticks (Slider.plot fig)))
       /\ length (Radar.ngo_line (Slider.plot fig))
          = length (Radar.angles (Slider.plot fig))
       /\ length (Radar.community_fill_values (Slider.plot fig))
          = length (Radar.angles (Slider.plot fig))).
Proof.
  split; intros r1 r2 cats h ngo comm Hne H1 H2 Hn Hm Hc.
  - do 2 eexists. split; [apply excel_chart_figure; eassumption|].
    cbn [excel_figure Excel.plot Radar.xticklabels Radar.xticks Radar.angles
         Radar.ngo_line Radar.community_fill_values].
    unfold closed.
    rewrite xticks_are_base_angles, !length_map, length_seq,
      closed_angles_length, !length_closed, Hn, Hm.
    destruct cats; [congruence|]. simpl length. repeat split; lia.
  - do 2 eexists. split; [apply slider_chart_figure; eassumption|].
    cbn [slider_figure Slider.plot Radar.xticklabels Radar.xticks Radar.angles
         Radar.ngo_line Radar.community_fill_values].
    unfold closed.
    rewrite xticks_are_base_angles, !length_map, length_seq,
      closed_angles_length, !length_closed, Hn, Hm.
    destruct cats; [congruence|]. simpl length. repeat split; lia.
Qed.

Lemma labels_sit_at_base_angles_witness :
  exists fig h',
    Slider.create_radar_chart 0 1 Slider.themes
      (two_lists Slider.ngo_capabilities [0; 1; 2; 3; 4; 5; 6; 7; 10]%Z)
    = (PyHeap.Ok fig, h')
    /\ Radar.xticklabels (Slider.plot fig) = Slider.themes
    /\ Radar.xticks (Slider.plot fig)
       = map (Radar.angle (length Slider.themes)) (seq 0 (length Slider.themes))
    /\ length (Radar.xticks (Slider.plot fig))
       = length (Radar.xticklabels (Slider.plot fig))
    /\ length (Radar.angles (Slider.plot fig))
       = S (length (Radar.xticks (Slider.plot fig)))
    /\ length (Radar.ngo_line (Slider.plot fig))
       = length (Radar.angles (Slider.plot fig))
    /\ length (Radar.community_fill_values (Slider.plot fig))
       = length (Radar.angles (Slider.plot fig)).
Proof.
  apply (proj2 labels_sit_at_base_angles 0 1 Slider.themes
           (two_lists Slider.ngo_capabilities [0; 1; 2; 3; 4; 5; 6; 7; 10]%Z)
           Slider.ngo_capabilities [0; 1; 2; 3; 4; 5; 6; 7; 10]%Z);
    [lia | reflexivity | reflexivity | reflexivity | reflexivity | discriminate].
Defined.

(** X3. When the caller passes the SAME list object for both arguments,
    either chart extends it twice: the object ends with two copies of its
    first element, N + 2 elements in all. *)
Theorem same_list_twice_grows_by_two :
  (forall r (cats : list Excel.cell) (h : gmap nat (list PyNum.pyfloat)) x l,
     h !! r = Some (x :: l) ->
     snd (Excel.create_radar_chart r r cats h) !! r = Some ((x :: l) ++ [x; x])
     /\ length ((x :: l) ++ [x; x]) = length (x :: l) + 2)
  /\
  (forall r (cats : list string) (h : gmap nat (list Z)) x l,
     h !! r = Some (x :: l) ->
     snd (Slider.create_radar_chart r r cats h) !! r = Some ((x :: l) ++ [x; x])
     /\ length ((x :: l) ++ [x; x]) = length (x :: l) + 2).
Proof.
  split; intros r cats h x l Hr.
  - rewrite excel_chart_store, (geometry_aliased_arguments _ r cats h x l Hr).
    now rewrite lookup_insert_eq, length_app.
  - rewrite slider_chart_store, (geometry_aliased_arguments _ r cats h x l Hr).
    now rewrite lookup_insert_eq, length_app.
Qed.

Lemma same_list_twice_grows_by_two_witness :
  snd (Slider.create_radar_chart 0 0 Slider.themes
         (two_lists [5; 4; 5]%Z Slider.ngo_capabilities)) !! 0
  = Some ([5; 4; 5]%Z ++ [5; 5]%Z)
  /\ length ([5; 4; 5]%Z ++ [5; 5]%Z) = length [5; 4; 5]%Z + 2.
Proof.
  apply (proj2 same_list_twice_grows_by_two 0 Slider.themes
           (two_lists [5; 4; 5]%Z Slider.ngo_capabilities) 5%Z [4; 5]%Z).
  reflexivity.
Defined.

(** X4. The numbers written on the tabular chart: for i = 1..10 the blue
    number i is at radius i on angle 0, and the green number i is at
    radius 11 - i on the angle [pi/N], half an angular step.  A community
    capacity of i is plotted at radius 10 - i, so each green number is one
    unit outward of the radius it names. *)
Theorem green_numbers_are_one_unit_out :
  forall r1 r2 (cats : list Excel.cell) h ngo comm,
    r1 <> r2 -> h !! r1 = Some ngo -> h !! r2 = Some comm ->
    length ngo = length cats -> length comm = length cats -> cats <> [] ->
    exists fig h',
      Excel.create_radar_chart r1 r2 cats h = (PyHeap.Ok fig, h')
      /\ length (Excel.ngo_numbers fig) = 10
      /\ length (Excel.community_numbers fig) = 10
      /\ (PI / INR (length cats) = Radar.angle (length cats) 1 / 2)%R
      /\ forall i : Z, (1 <= i <= 10)%Z ->
           In (0%R, i, i) (Excel.ngo_numbers fig)
           /\ In ((PI / INR (length cats))%R, (11 - i)%Z, i)
                (Excel.community_numbers fig)
           /\ PyNum.fsub (PyNum.of_int 10) (PyNum.of_int i)
              = PyNum.of_int (11 - i - 1).
Proof.
  intros r1 r2 cats h ngo comm Hne H1 H2 Hn Hm Hc.
  do 2 eexists. split; [apply excel_chart_figure; eassumption|].
  cbn [excel_figure Excel.ngo_numbers Excel.community_numbers].
  split; [reflexivity|]. split; [reflexivity|]. split.
  { unfold Radar.angle. simpl (INR 1). field.
    apply not_0_INR. destruct cats; [congruence|discriminate]. }
  intros i Hi.
  assert (Hcases : exists k, In k (seq 1 10) /\ i = Z.of_nat k).
  { exists (Z.to_nat i). split; [apply in_seq; lia|lia]. }
  destruct Hcases as (k & Hk & ->).
  split; [|split].
  - apply (in_map (fun i => (0%R, i, i))), in_map, Hk.
  - replace (11 - Z.of_nat k)%Z with (10 - Z.of_nat k + 1)%Z by lia.
    apply (in_map (fun i => ((PI / INR (length cats))%R, (10 - i + 1)%Z, i))),
      in_map, Hk.
  - unfold PyNum.fsub, PyNum.of_int. f_equal.
    replace (11 - Z.of_nat k - 1)%Z with (10 + - Z.of_nat k)%Z by lia.
    rewrite inject_Z_plus, inject_Z_opp. reflexivity.
Qed.

Lemma green_numbers_are_one_unit_out_witness :
  exists fig h',
    Excel.create_radar_chart 0 1 sample_themes
      (two_lists sample_ngo sample_community) = (PyHeap.Ok fig, h')
    /\ length (Excel.ngo_numbers fig) = 10
    /\ length (Excel.community_numbers fig) = 10
    /\ (PI / INR (length sample_themes)
        = Radar.angle (length sample_themes) 1 / 2)%R
    /\ forall i : Z, (1 <= i <= 10)%Z ->
         In (0%R, i, i) (Excel.ngo_numbers fig)
         /\ In ((PI / INR (length sample_themes))%R, (11 - i)%Z, i)
              (Excel.community_numbers fig)
         /\ PyNum.fsub (PyNum.of_int 10) (PyNum.of_int i)
            = PyNum.of_int (11 - i - 1).
Proof.
  apply (green_numbers_are_one_unit_out 0 1 sample_themes
           (two_lists sample_ngo sample_community) sample_ngo sample_community);
    [lia | reflexivity | reflexivity | reflexivity | reflexivity | discriminate].
Defined.

(** ** More on the normalizer *)

Lemma floats_spec l vs :
  Excel.floats l = Some vs <-> map Excel.py_float l = map Some vs.
Proof.
  revert vs. induction l as [|x l IH]; intros vs; simpl.
  - split; [intros [= <-]; reflexivity|]. now destruct vs.
  - destruct (Excel.py_float x) as [v|].
    + destruct (Excel.floats l) as [ws|] eqn:E.
      * split.
        -- intros [= <-]. simpl. f_equal. now apply IH.
        -- destruct vs as [|v' vs]; [discriminate|]. simpl. intros [= -> H].
           apply IH in H. congruence.
      * split; [discriminate|].
        destruct vs as [|v' vs]; [discriminate|]. simpl. intros [= -> H].
        apply IH in H. discriminate.
    + split; [discriminate|]. now destruct vs.
Qed.

Lemma floats_none_at l j x :
  nth_error l j = Some x -> Excel.py_float x = None -> Excel.floats l = None.
Proof.
  revert j. induction l as [|y l IH]; intros [|j]; simpl; try discriminate.
  - intros [= ->] ->. reflexivity.
  - intros Hj Hx. rewrite (IH j Hj Hx). now destruct (Excel.py_float y).
Qed.

Lemma iloc_slice_at df s e c j cells :
  j < e - s -> nth_error (Excel.rows df) (s + j) = Some cells ->
  nth_error (Excel.iloc_slice df s e c) j = Some (Excel.entry c cells).
Proof.
  intros Hj Hcells. unfold Excel.iloc_slice.
  rewrite nth_error_map, nth_error_firstn.
  destruct (Nat.ltb_spec j (e - s)); [|lia].
  now rewrite nth_error_skipn, Hcells.
Qed.

(** X5. A well-formed table of fewer than three columns is refused
    with the column message whatever its fields hold and however many
    rows it has: no field is coerced, no row is counted. *)
Theorem too_few_columns_is_the_first_error names lines :
  well_formed (names :: lines) = true ->
  length names < 3 ->
  Excel.load_data_from_csv (names :: lines) = inl Excel.SchemaError.
Proof.
  intros _ Hc. unfold Excel.load_data_from_csv, Excel.read_csv, Excel.normalize,
    Excel.shape1. cbn [Excel.columns].
  now destruct (Nat.ltb_spec (length names) 3); [|lia].
Qed.

Lemma too_few_columns_is_the_first_error_witness :
  Excel.load_data_from_csv
    ([Excel.Text "Theme"; Excel.Text "Capacity"]
       :: [[Excel.Text "1.1 Awareness & Education"; Excel.Text "high"]])
  = inl Excel.SchemaError.
Proof.
  apply (too_few_columns_is_the_first_error
           [Excel.Text "Theme"; Excel.Text "Capacity"]
           [[Excel.Text "1.1 Awareness & Education"; Excel.Text "high"]]);
    [reflexivity | simpl; lia].
Defined.

(** X6. An empty file, and a file that is only its first line, do not
    get the row-count message: the first raises inside [read_csv], the
    second at [df.iloc[0, 1]], and both end in "Error reading CSV file". *)
Theorem file_without_rows_is_a_read_error :
  Excel.load_data_from_csv [] = inl Excel.ReadError
  /\ forall names,
       3 <= length names ->
       Excel.load_data_from_csv [names] = inl Excel.ReadError.
Proof.
  split; [reflexivity|]. intros names Hc.
  unfold Excel.load_data_from_csv, Excel.read_csv, Excel.normalize,
    Excel.shape1. cbn [Excel.columns].
  now destruct (Nat.ltb_spec (length names) 3); [lia|].
Qed.

Lemma file_without_rows_is_a_read_error_witness :
  Excel.load_data_from_csv [sample_header] = inl Excel.ReadError.
Proof.
  apply (proj2 file_without_rows_is_a_read_error sample_header). simpl. lia.
Defined.

(** X7. A file that loads has at least ten lines: the line [read_csv]
    takes as column names and nine rows. *)
Theorem loaded_file_has_ten_lines file a :
  Excel.load_data_from_csv file = inr a -> 10 <= length file.
Proof.
  unfold Excel.load_data_from_csv, Excel.read_csv.
  destruct file as [|names lines]; [discriminate|].
  intros (s & _ & _ & Hr & _)%normalize_ok.
  unfold Excel.shape0 in Hr. simpl in *. lia.
Qed.

Lemma loaded_file_has_ten_lines_witness :
  10 <= length (sample_header :: sample_lines).
Proof.
  apply (loaded_file_has_ten_lines (sample_header :: sample_lines)
           sample_assessment).
  reflexivity.
Defined.

(** X8. In a well-formed file, a field of the nine data rows that is
    not a number, in column 2 or 3, gives the "must be numeric" message,
    also when another value is out of range: all coercions are done
    before the first range test. *)
Theorem non_numeric_field_is_a_type_error names lines s j cells :
  well_formed (names :: lines) = true ->
  3 <= length names ->
  Excel.start_row {| Excel.columns := names; Excel.rows := lines |} = Some s ->
  s + 9 <= length lines ->
  j < 9 -> nth_error lines (s + j) = Some cells ->
  Excel.py_float (Excel.entry 1 cells) = None
  \/ Excel.py_float (Excel.entry 2 cells) = None ->
  Excel.load_data_from_csv (names :: lines) = inl Excel.TypeError.
Proof.
  intros _ Hc Hs Hr Hj Hcells Hbad.
  unfold Excel.load_data_from_csv, Excel.read_csv.
  set (df := {| Excel.columns := names; Excel.rows := lines |}) in *.
  rewrite (normalize_enough_rows df s) by assumption.
  destruct Hbad as [Hbad|Hbad].
  - rewrite (floats_none_at _ j (Excel.entry 1 cells)); auto.
    apply iloc_slice_at; [lia|assumption].
  - rewrite (floats_none_at (Excel.iloc_slice df s (s + 9) 2) j
               (Excel.entry 2 cells)); auto.
    + now destruct (Excel.floats (Excel.iloc_slice df s (s + 9) 1)).
    + apply iloc_slice_at; [lia|assumption].
Qed.

Lemma non_numeric_field_is_a_type_error_witness :
  Excel.load_data_from_csv (sample_header :: mixed_lines) = inl Excel.TypeError.
Proof.
  apply (non_numeric_field_is_a_type_error sample_header mixed_lines 0 8
           [Excel.Text "3.3 Protected Area"; Excel.Number (PyNum.of_int 8);
            Excel.Text "high"]);
    [reflexivity | simpl; lia | reflexivity | simpl; lia | lia | reflexivity
    | right; reflexivity].
Defined.

(** X9. When the frame pandas hands over loads, and what it loads.
    The load succeeds exactly when the frame has at least three columns
    and a row 0 ([start_row] is 0 or 1 by the header test), at least
    nine rows follow [start_row], and columns 2 and 3 of these nine rows
    coerce to numbers that are all in [0, 10]; the Assessment is then
    column 1 of the nine rows and the coerced values themselves. *)
Theorem frame_loads_exactly_when df a :
  Excel.normalize df = inr a
  <->
  exists s,
    3 <= Excel.shape1 df
    /\ Excel.start_row df = Some s
    /\ s + 9 <= Excel.shape0 df
    /\ Excel.themes a
       = map (Excel.entry 0) (firstn 9 (skipn s (Excel.rows df)))
    /\ map Some (Excel.community_capacities a)
       = map (fun cells => Excel.py_float (Excel.entry 1 cells))
           (firstn 9 (skipn s (Excel.rows df)))
    /\ map Some (Excel.ngo_capabilities a)
       = map (fun cells => Excel.py_float (Excel.entry 2 cells))
           (firstn 9 (skipn s (Excel.rows df)))
    /\ Forall (fun v => Excel.in_range v = true) (Excel.community_capacities a)
    /\ Forall (fun v => Excel.in_range v = true) (Excel.ngo_capabilities a).
Proof.
  split.
  - intros H.
    assert (Hlen : length (Excel.community_capacities a)
                   = length (Excel.ngo_capabilities a)).
    { destruct (normalize_ok_lengths df a H) as (_ & -> & ->). reflexivity. }
    destruct (normalize_ok df a H) as (s & Hc & Hs & Hr & Ht & Hcomm & Hngo & Hrange).
    exists s. rewrite !iloc_slice_data in *.
    apply floats_spec in Hcomm, Hngo. rewrite map_map in Hcomm, Hngo.
    destruct (first_out_of_range_none _ _ 0 Hrange Hlen).
    repeat split; auto.
  - intros (s & Hc & Hs & Hr & Ht & Hcomm & Hngo & Hrc & Hrn).
    rewrite (normalize_enough_rows df s) by assumption.
    rewrite !iloc_slice_data.
    rewrite <- (map_map (Excel.entry 1) Excel.py_float) in Hcomm.
    rewrite <- (map_map (Excel.entry 2) Excel.py_float) in Hngo.
    symmetry in Hcomm, Hngo.
    apply floats_spec in Hcomm, Hngo.
    rewrite Hcomm, Hngo, (first_out_of_range_all _ _ 0 Hrc Hrn).
    destruct a; simpl in *. now subst.
Qed.

(** X10. The "Expected exactly 9 rows of data" message is never shown:
    once the row count has passed, the three slices have nine entries. *)
Theorem exactly_nine_message_is_never_shown file :
  Excel.load_data_from_csv file <> inl Excel.NotNineRows.
Proof.
  unfold Excel.load_data_from_csv.
  destruct (Excel.read_csv file) as [df|]; [|discriminate].
  destruct (Nat.lt_ge_cases (Excel.shape1 df) 3) as [Hc|Hc].
  { unfold Excel.normalize.
    now destruct (Nat.ltb_spec (Excel.shape1 df) 3); [|lia]. }
  destruct (Excel.start_row df) as [s|] eqn:Hs.
  2:{ unfold Excel.normalize. rewrite Hs.
      now destruct (Excel.shape1 df <? 3)%nat. }
  destruct (Nat.lt_ge_cases (Excel.shape0 df) (s + 9)) as [Hr|Hr].
  { now rewrite (normalize_too_few_rows df s). }
  rewrite (normalize_enough_rows df s) by assumption.
  destruct (Excel.floats (Excel.iloc_slice df s (s + 9) 1)); [|discriminate].
  destruct (Excel.floats (Excel.iloc_slice df s (s + 9) 2)); [|discriminate].
  destruct (Excel.first_out_of_range 0 _ _); discriminate.
Qed.

Lemma entry_first_three c row :
  c < 3 -> Excel.entry c (firstn 3 row) = Excel.entry c row.
Proof.
  intros Hc. destruct row as [|x0 [|x1 [|x2 row]]];
    destruct c as [|[|[|c]]]; try reflexivity; lia.
Qed.

Lemma iloc_slice_first_three names names' lines s e c :
  c < 3 ->
  Excel.iloc_slice {| Excel.columns := names';
                      Excel.rows := map (firstn 3) lines |} s e c
  = Excel.iloc_slice {| Excel.columns := names; Excel.rows := lines |} s e c.
Proof.
  intros Hc. unfold Excel.iloc_slice. cbn [Excel.rows].
  rewrite skipn_map, firstn_map, map_map.
  apply map_ext. intros row. now apply entry_first_three.
Qed.

(** X11. Of the frame, only the first three columns are read, and of
    its column names only that there are at least three: the outcome is
    the one of the frame cut to its first three columns, under any other
    names. *)
Theorem only_three_columns_are_read names names' rows :
  3 <= length names -> 3 <= length names' ->
  Excel.normalize {| Excel.columns := names; Excel.rows := rows |}
  = Excel.normalize {| Excel.columns := names';
                       Excel.rows := map (firstn 3) rows |}.
Proof.
  intros Hc Hc'.
  set (df := {| Excel.columns := names; Excel.rows := rows |}).
  set (df' := {| Excel.columns := names'; Excel.rows := map (firstn 3) rows |}).
  assert (Hstart : Excel.start_row df' = Excel.start_row df).
  { unfold Excel.start_row, df, df'. cbn [Excel.rows].
    destruct rows as [|row0 rows]; [reflexivity|]. cbn [map].
    now rewrite !entry_first_three by lia. }
  assert (Hshape : Excel.shape0 df' = Excel.shape0 df).
  { unfold Excel.shape0, df, df'. cbn [Excel.rows]. apply length_map. }
  destruct (Excel.start_row df) as [s|] eqn:Hs.
  2:{ unfold Excel.normalize. rewrite Hs, Hstart.
      unfold Excel.shape1, df, df'. cbn [Excel.columns].
      destruct (Nat.ltb_spec (length names) 3); [lia|].
      now destruct (Nat.ltb_spec (length names') 3); [lia|]. }
  destruct (Nat.lt_ge_cases (Excel.shape0 df) (s + 9)) as [Hr|Hr].
  { rewrite (normalize_too_few_rows df s), (normalize_too_few_rows df' s);
      auto. now rewrite Hshape. }
  rewrite (normalize_enough_rows df s), (normalize_enough_rows df' s);
    auto; [|now rewrite Hshape].
  unfold df, df'. now rewrite !(iloc_slice_first_three names names') by lia.
Qed.

Lemma only_three_columns_are_read_witness :
  Excel.normalize {| Excel.columns := sample_header ++ [Excel.Text "Notes"];
                     Excel.rows :=
                       map (fun line => line ++ [Excel.Text "checked"])
                           sample_lines |}
  = Excel.normalize {| Excel.columns := title_line;
                       Excel.rows :=
                         map (firstn 3)
                             (map (fun line => line ++ [Excel.Text "checked"])
                                  sample_lines) |}.
Proof.
  apply (only_three_columns_are_read (sample_header ++ [Excel.Text "Notes"])
           title_line
           (map (fun line => line ++ [Excel.Text "checked"]) sample_lines));
    simpl; lia.
Defined.

(** X12. The header test on the frame: a row 0 that is not numeric in
    column 2 or 3, above a row that is, is skipped.  The outcome is the
    one of the frame without its row 0, with the row numbers of the
    messages one higher. *)
Theorem header_row_of_the_frame_is_skipped names header row1 rows :
  numeric_line header = false ->
  numeric_line row1 = true ->
  Excel.normalize {| Excel.columns := names;
                     Excel.rows := header :: row1 :: rows |}
  = match Excel.normalize {| Excel.columns := names;
                             Excel.rows := row1 :: rows |} with
    | inl e => inl (one_row_down e)
    | inr a => inr a
    end.
Proof.
  intros Hh Hr. apply normalize_skips_header_row.
  - unfold numeric_line in Hh. unfold Excel.start_row. cbn [Excel.rows].
    destruct (Excel.pd_to_numeric (Excel.entry 1 header));
      [destruct (Excel.pd_to_numeric (Excel.entry 2 header))|];
      [discriminate|reflexivity|reflexivity].
  - now apply start_row_numeric.
Qed.

Lemma header_row_of_the_frame_is_skipped_witness :
  Excel.normalize {| Excel.columns := title_line;
                     Excel.rows :=
                       sample_header
                         :: sample_line "1.1 Awareness & Education" 7 8
                         :: tl sample_lines |}
  = match Excel.normalize {| Excel.columns := title_line;
                             Excel.rows :=
                               sample_line "1.1 Awareness & Education" 7 8
                                 :: tl sample_lines |} with
    | inl e => inl (one_row_down e)
    | inr a => inr a
    end.
Proof.
  apply (header_row_of_the_frame_is_skipped title_line sample_header
           (sample_line "1.1 Awareness & Education" 7 8) (tl sample_lines));
    reflexivity.
Defined.

Lemma range_error_row_bound df row :
  Excel.normalize df = inl (Excel.RangeError row) ->
  exists s, Excel.start_row df = Some s /\ s + 1 <= row /\ row <= s + 9.
Proof.
  intros H.
  assert (Hc : 3 <= Excel.shape1 df).
  { unfold Excel.normalize in H.
    destruct (Nat.ltb_spec (Excel.shape1 df) 3); [discriminate|assumption]. }
  destruct (Excel.start_row df) as [s|] eqn:Hs.
  2:{ unfold Excel.normalize in H. rewrite Hs in H.
      now destruct (Excel.shape1 df <? 3)%nat. }
  assert (Hr : s + 9 <= Excel.shape0 df).
  { destruct (Nat.le_gt_cases (s + 9) (Excel.shape0 df)); [assumption|].
    rewrite (normalize_too_few_rows df s) in H by assumption. discriminate. }
  rewrite (normalize_enough_rows df s) in H by assumption.
  destruct (Excel.floats (Excel.iloc_slice df s (s + 9) 1)) as [comm|] eqn:Ec;
    [|discriminate].
  destruct (Excel.floats (Excel.iloc_slice df s (s + 9) 2)) as [ngo|] eqn:En;
    [|discriminate].
  destruct (Excel.first_out_of_range 0 comm ngo) as [i|] eqn:Hi; [|discriminate].
  destruct (first_out_of_range_some _ _ _ _ Hi) as (j & c & n & -> & Hcj & _).
  assert (Hlt : nth_error comm j <> None) by congruence.
  apply nth_error_Some in Hlt.
  rewrite (floats_length _ _ Ec), iloc_slice_length in Hlt by assumption.
  inversion H. exists s. split; [reflexivity|]. lia.
Qed.

(** X13. On a well-formed file a range message names the FIRST
    offending data row: the row it names (line [row + 1] of the file)
    has a value outside [0, 10] in column 2 or 3, it is one of the nine
    data rows, and every data row before it has both values in range. *)
Theorem range_error_names_the_first_offender file row :
  well_formed file = true ->
  Excel.load_data_from_csv file = inl (Excel.RangeError row) ->
  exists s j cells comm_cap ngo_cap,
    row = j + s + 1 /\ j < 9 /\ (s = 0 \/ s = 1)
    /\ nth_error file row = Some cells
    /\ Excel.py_float (Excel.entry 1 cells) = Some comm_cap
    /\ Excel.py_float (Excel.entry 2 cells) = Some ngo_cap
    /\ (Excel.in_range comm_cap = false \/ Excel.in_range ngo_cap = false)
    /\ (forall j' cells', j' < j ->
          nth_error file (j' + s + 1) = Some cells' ->
          exists c n,
            Excel.py_float (Excel.entry 1 cells') = Some c
            /\ Excel.py_float (Excel.entry 2 cells') = Some n
            /\ Excel.in_range c = true /\ Excel.in_range n = true).
Proof.
  intros _. unfold Excel.load_data_from_csv, Excel.read_csv.
  destruct file as [|names lines]; [discriminate|].
  set (df := {| Excel.columns := names; Excel.rows := lines |}).
  intros H.
  destruct (range_error_row_bound df row H) as (s0 & Hs0 & Hlo & Hhi).
  destruct (range_error_names_frame_row df row H)
    as (s & j & cells & c & n & Hs & -> & Hcells & Hc & Hn & Hbad & Hok).
  assert (s0 = s) by congruence. subst s0.
  exists s, j, cells, c, n.
  split; [reflexivity|]. split; [lia|].
  split; [exact (start_row_cases df s Hs)|].
  split.
  { replace (j + s + 1) with (S (j + s + 1 - 1)) by lia. exact Hcells. }
  split; [assumption|]. split; [assumption|]. split; [assumption|].
  intros j' cells' Hlt Hcells'. apply (Hok j' cells' Hlt).
  replace (j' + s + 1) with (S (s + j')) in Hcells' by lia. exact Hcells'.
Qed.

Lemma range_error_names_the_first_offender_witness :
  exists s j cells comm_cap ngo_cap,
    5 = j + s + 1 /\ j < 9 /\ (s = 0 \/ s = 1)
    /\ nth_error (sample_header :: bad_lines) 5 = Some cells
    /\ Excel.py_float (Excel.entry 1 cells) = Some comm_cap
    /\ Excel.py_float (Excel.entry 2 cells) = Some ngo_cap
    /\ (Excel.in_range comm_cap = false \/ Excel.in_range ngo_cap = false)
    /\ (forall j' cells', j' < j ->
          nth_error (sample_header :: bad_lines) (j' + s + 1) = Some cells' ->
          exists c n,
            Excel.py_float (Excel.entry 1 cells') = Some c
            /\ Excel.py_float (Excel.entry 2 cells') = Some n
            /\ Excel.in_range c = true /\ Excel.in_range n = true).
Proof.
  apply (range_error_names_the_first_offender (sample_header :: bad_lines) 5);
    reflexivity.
Defined.

(** ** The tabular [main] from upload to assessment *)

Lemma skipn_uncons {V : Type} (l : list V) :
  forall k m,
    length (skipn k l) = S m ->
    exists x, nth_error l k = Some x /\ skipn k l = x :: skipn (S k) l.
Proof.
  induction l as [|y l IH]; intros [|k] m H; simpl in *; try discriminate.
  - exists y. auto.
  - destruct (IH k m H) as (x & Hx & Hs). exists x.
    split; [exact Hx|exact Hs].
Qed.

Lemma assess_expected r_ngo r_comm i theme (h : gmap nat (list PyNum.pyfloat))
    ngo comm ngo_cap comm_cap :
  h !! r_ngo = Some ngo -> h !! r_comm = Some comm ->
  nth_error ngo i = Some ngo_cap -> nth_error comm i = Some comm_cap ->
  Excel.assess r_ngo r_comm i theme h
  = (match expected_row theme ngo_cap comm_cap with
     | Some row => PyHeap.Ok row
     | None => PyHeap.Raise PyHeap.AttributeError
     end, h).
Proof.
  intros Hn Hc Hni Hci.
  cbv [Excel.assess PyHeap.bind PyHeap.index PyHeap.deref PyHeap.ret PyHeap.raise].
  rewrite (content_lookup _ _ _ Hn), Hni, (content_lookup _ _ _ Hc), Hci.
  unfold expected_row.
  now destruct (Excel.comment _ theme).
Qed.

(** The loop over the store reads what the loop over values reads. *)
Lemma for_each_assess r_ngo r_comm (h : gmap nat (list PyNum.pyfloat)) ngo comm :
  h !! r_ngo = Some ngo -> h !! r_comm = Some comm ->
  forall themes k,
    length (skipn k ngo) = length themes ->
    length (skipn k comm) = length themes ->
    PyHeap.for_each
      (fun it => Excel.assess r_ngo r_comm (fst it) (snd it))
      (combine (seq k (length themes)) themes) h
    = (match expected_rows themes (skipn k ngo) (skipn k comm) with
       | Some rows => PyHeap.Ok rows
       | None => PyHeap.Raise PyHeap.AttributeError
       end, h).
Proof.
  intros Hn Hc. induction themes as [|theme themes IH]; intros k Hln Hlc.
  - reflexivity.
  - cbn [length] in *.
    destruct (skipn_uncons ngo k _ Hln) as (n & Hnk & Hns).
    destruct (skipn_uncons comm k _ Hlc) as (c & Hck & Hcs).
    rewrite Hns, Hcs in *. cbn [length] in Hln, Hlc.
    cbn [seq combine PyHeap.for_each expected_rows].
    unfold PyHeap.bind at 1. cbn [fst snd].
    rewrite (assess_expected r_ngo r_comm k theme h ngo comm n c) by assumption.
    destruct (expected_row theme n c) as [row|]; [|reflexivity].
    unfold PyHeap.bind at 1.
    rewrite (IH (S k)) by congruence.
    now destruct (expected_rows themes (skipn (S k) ngo) (skipn (S k) comm)).
Qed.

(** The tabular [main] on a file that loads: the figure of the loaded
    vectors, then the rows, or [AttributeError] from the loop; four list
    objects in the store either way. *)
Lemma excel_main_run file a :
  Excel.load_data_from_csv file = inr a ->
  exists h,
    Excel.main (Some file) ∅
    = (match expected_rows (Excel.themes a) (Excel.ngo_capabilities a)
               (Excel.community_capacities a) with
       | Some rows =>
           PyHeap.Ok
             (Excel.Assessed a
                (excel_figure (Excel.themes a) (Excel.ngo_capabilities a)
                   (Excel.community_capacities a))
                rows)
       | None => PyHeap.Raise PyHeap.AttributeError
       end, h).
Proof.
  intros Hload. destruct (load_ok_lengths _ _ Hload) as (Ht & Hc & Hn).
  unfold Excel.main. rewrite Hload.
  set (comm := Excel.community_capacities a) in *.
  set (ngo := Excel.ngo_capabilities a) in *.
  destruct (new_list_run comm ∅) as (rc & Hrc & Hrun1).
  unfold PyHeap.bind at 1. rewrite Hrun1.
  set (h1 := <[rc := comm]> ∅).
  destruct (new_list_run ngo h1) as (rn & Hrn & Hrun2).
  unfold PyHeap.bind at 1. rewrite Hrun2.
  set (h2 := <[rn := ngo]> h1).
  assert (Hn_c : rn <> rc).
  { intros ->. unfold h1 in Hrn. now rewrite lookup_insert_eq in Hrn. }
  destruct (copy_run rn ngo h2) as (rnc & Hrnc & Hrun3);
    [apply lookup_insert_eq|].
  unfold PyHeap.bind at 1. rewrite Hrun3.
  set (h3 := <[rnc := ngo]> h2).
  assert (Hnc_n : rnc <> rn).
  { intros ->. unfold h2 in Hrnc. now rewrite lookup_insert_eq in Hrnc. }
  assert (Hnc_c : rnc <> rc).
  { intros ->. unfold h2, h1 in Hrnc.
    now rewrite lookup_insert_ne, lookup_insert_eq in Hrnc by congruence. }
  destruct (copy_run rc comm h3) as (rcc & Hrcc & Hrun4).
  { unfold h3, h2, h1.
    now rewrite !lookup_insert_ne, lookup_insert_eq by congruence. }
  unfold PyHeap.bind at 1. rewrite Hrun4.
  set (h4 := <[rcc := comm]> h3).
  assert (Hcc_nc : rcc <> rnc).
  { intros ->. unfold h3 in Hrcc. now rewrite lookup_insert_eq in Hrcc. }
  assert (Hcc_n : rcc <> rn).
  { intros ->. unfold h3, h2 in Hrcc.
    now rewrite lookup_insert_ne, lookup_insert_eq in Hrcc by congruence. }
  assert (Hcc_c : rcc <> rc).
  { intros ->. unfold h3, h2, h1 in Hrcc.
    now rewrite !lookup_insert_ne, lookup_insert_eq in Hrcc by congruence. }
  unfold PyHeap.bind at 1.
  rewrite (excel_chart_figure rnc rcc (Excel.themes a) h4 ngo comm);
    try congruence.
  2:{ unfold h4, h3. now rewrite lookup_insert_ne, lookup_insert_eq by congruence. }
  2:{ apply lookup_insert_eq. }
  2:{ intros E. rewrite E in Ht. discriminate. }
  set (h5 := <[rcc := closed comm]> (<[rnc := closed ngo]> h4)).
  unfold PyHeap.bind.
  rewrite (for_each_assess rn rc h5 ngo comm) with (k := 0).
  - exists h5. rewrite !skipn_O. unfold PyHeap.ret.
    now destruct (expected_rows (Excel.themes a) ngo comm).
  - unfold h5, h4, h3, h2.
    now rewrite !lookup_insert_ne, lookup_insert_eq by congruence.
  - unfold h5, h4, h3, h2, h1.
    now rewrite !lookup_insert_ne, lookup_insert_eq by congruence.
  - rewrite skipn_O. congruence.
  - rewrite skipn_O. congruence.
Qed.


Lemma expected_rows_of_number themes :
  forall ngo comm j v n c,
    nth_error themes j = Some (Excel.Number v) ->
    nth_error ngo j = Some n -> nth_error comm j = Some c ->
    Excel.classify (Excel.theme_score n c) = Excel.PartialGap ->
    expected_rows themes ngo comm = None.
Proof.
  induction themes as [|theme themes IH]; intros ngo comm [|j] v n c Ht Hn Hc Hb;
    try discriminate; destruct ngo as [|n0 ngo], comm as [|c0 comm];
    try discriminate; cbn [nth_error expected_rows] in *.
  - injection Ht as ->. injection Hn as ->. injection Hc as ->.
    unfold expected_row. now rewrite Hb.
  - rewrite (IH ngo comm j v n c) by assumption.
    now destruct (expected_row theme n0 c0).
Qed.



(** X15. A theme that pandas read as a number and whose score falls in
    the blue branch, -2 <= score < 0, stops [main] with [AttributeError]:
    only that branch calls [theme.lower()].  The table and the chart have
    been shown by then. *)
Theorem numeric_theme_in_blue_branch_raises file a j v ngo_cap comm_cap :
  Excel.load_data_from_csv file = inr a ->
  nth_error (Excel.themes a) j = Some (Excel.Number v) ->
  nth_error (Excel.ngo_capabilities a) j = Some ngo_cap ->
  nth_error (Excel.community_capacities a) j = Some comm_cap ->
  Excel.classify (Excel.theme_score ngo_cap comm_cap) = Excel.PartialGap ->
  exists h,
    Excel.main (Some file) ∅ = (PyHeap.Raise PyHeap.AttributeError, h).
Proof.
  intros Hload Ht Hn Hc Hb.
  destruct (excel_main_run file a Hload) as (h & Hrun).
  rewrite (expected_rows_of_number _ _ _ j v ngo_cap comm_cap) in Hrun
    by assumption.
  now exists h.
Qed.

Lemma numeric_theme_in_blue_branch_raises_witness :
  exists h,
    Excel.main (Some (sample_header :: numbered_lines)) ∅
    = (PyHeap.Raise PyHeap.AttributeError, h).
Proof.
  apply (numeric_theme_in_blue_branch_raises
           (sample_header :: numbered_lines)
           {| Excel.themes := map (Excel.entry 0) numbered_lines;
              Excel.community_capacities := sample_community;
              Excel.ngo_capabilities := sample_ngo |}
           5 (PyNum.of_int 6) (PyNum.of_int 4) (PyNum.of_int 5));
    reflexivity.
Defined.

(** ** More on the recommendation lookup *)

Lemma lower_ascii_idempotent c :
  PyStr.lower_ascii (PyStr.lower_ascii c) = PyStr.lower_ascii c.
Proof. destruct c as [[] [] [] [] [] [] [] []]; reflexivity. Qed.

Lemma lower_idempotent s : PyStr.lower (PyStr.lower s) = PyStr.lower s.
Proof.
  induction s as [|c s IH]; [reflexivity|].
  simpl. now rewrite lower_ascii_idempotent, IH.
Qed.

Lemma prefix_empty s : String.prefix EmptyString s = true.
Proof. now destruct s. Qed.

Lemma ampersand_survives_lower theme :
  PyStr.contains "&" theme = true ->
  PyStr.contains "&" (PyStr.lower theme) = true.
Proof.
  induction theme as [|c theme IH]; [discriminate|].
  cbn [PyStr.contains PyStr.lower]. rewrite !orb_true_iff.
  intros [Hhere|Hlater]; [left|right; now apply IH].
  cbn [String.prefix] in *.
  destruct (Ascii.ascii_dec "&" c) as [<-|]; [|discriminate].
  apply prefix_empty.
Qed.

(** X16. Seven of the nine labels of the catalogue resolve to their own
    text.  The two others stop at an earlier entry that shares a word
    with them: "2.1 Income & Revenue" at the first entry (word "&") and
    "3.2 Shark Preservation" at the third (word "preservation"). *)
Theorem seven_catalogue_labels_find_their_text :
  Forall (fun entry =>
            Excel.find_recommendation (fst entry) = snd entry
            <-> fst entry <> "2.1 Income & Revenue"
                /\ fst entry <> "3.2 Shark Preservation")
         Excel.strategic_recommendations
  /\ Excel.first_match Excel.strategic_recommendations "2.1 Income & Revenue"
     = Excel.first_match Excel.strategic_recommendations
         "1.1 Awareness & Education"
  /\ Excel.first_match Excel.strategic_recommendations "3.2 Shark Preservation"
     = Excel.first_match Excel.strategic_recommendations
         "1.3 Tradition Preservation".
Proof.
  split; [|split; reflexivity].
  unfold Excel.strategic_recommendations.
  repeat (apply List.Forall_cons;
          [ cbn [fst snd]; split;
            [ intros H; first [ split; discriminate
                              | vm_compute in H; discriminate ]
            | intros [H1 H2]; first [ reflexivity | congruence ] ]
          | ]).
  apply List.Forall_nil.
Qed.

(** X17. Every theme whose name contains the character "&" gets the
    text of the first catalogue entry, whatever else the name says. *)
Theorem ampersand_themes_get_first_entry theme :
  PyStr.contains "&" theme = true ->
  Excel.find_recommendation theme
  = "improving communication on the effects of conservation, or reaching out to younger generations".
Proof.
  intros H%ampersand_survives_lower.
  unfold Excel.find_recommendation, Excel.strategic_recommendations.
  cbn [Excel.first_match].
  assert (Hk : Excel.key_matches "1.1 Awareness & Education" theme = true).
  { apply key_matches_spec. right. exists "&". split; [|exact H].
    vm_compute. auto. }
  now rewrite Hk.
Qed.

Lemma ampersand_themes_get_first_entry_witness :
  Excel.find_recommendation "Research & Monitoring"
  = "improving communication on the effects of conservation, or reaching out to younger generations".
Proof.
  apply (ampersand_themes_get_first_entry "Research & Monitoring").
  reflexivity.
Defined.

Lemma key_matches_lower key theme :
  Excel.key_matches key (PyStr.lower theme) = Excel.key_matches key theme.
Proof. unfold Excel.key_matches. now rewrite lower_idempotent. Qed.

Lemma first_match_same_lower items theme theme' :
  PyStr.lower theme = PyStr.lower theme' ->
  Excel.first_match items theme = Excel.first_match items theme'.
Proof.
  intros H. induction items as [|[k v] items IH]; [reflexivity|].
  cbn [Excel.first_match]. unfold Excel.key_matches. now rewrite H, IH.
Qed.

(** X18. The lookup does not see the case of the theme: two themes that
    differ in upper and lower case only get the same text, and a theme
    gets the text of its lower-case form. *)
Theorem lookup_ignores_case :
  (forall theme theme',
     PyStr.lower theme = PyStr.lower theme' ->
     Excel.find_recommendation theme = Excel.find_recommendation theme')
  /\ (forall theme,
        Excel.find_recommendation (PyStr.lower theme)
        = Excel.find_recommendation theme).
Proof.
  split.
  - intros theme theme' H. unfold Excel.find_recommendation.
    now rewrite (first_match_same_lower _ theme theme' H).
  - intros theme. unfold Excel.find_recommendation.
    now rewrite (first_match_same_lower _ (PyStr.lower theme) theme
                   (lower_idempotent theme)).
Qed.

Lemma lookup_ignores_case_witness :
  Excel.find_recommendation "2.2 EMPLOYMENT"
  = Excel.find_recommendation "2.2 employment".
Proof.
  apply (proj1 lookup_ignores_case "2.2 EMPLOYMENT" "2.2 employment").
  reflexivity.
Defined.

(** X19. The generic text "general strategic adjustments" is shown
    exactly when no catalogue entry matches the theme: neither the key
    nor any of its words occurs in the theme. *)
Theorem generic_text_exactly_without_match theme :
  Excel.find_recommendation theme = "general strategic adjustments"
  <-> Forall (fun entry => Excel.key_matches (fst entry) theme = false)
        Excel.strategic_recommendations.
Proof.
  unfold Excel.find_recommendation. split.
  - destruct (Excel.first_match Excel.strategic_recommendations theme)
      as [value|] eqn:E; [|intros _; now apply first_match_none].
    intros ->. exfalso.
    apply first_match_spec in E as (before & key & after & E & _).
    assert (Hin : In (key, "general strategic adjustments")
                    Excel.strategic_recommendations).
    { rewrite E. apply in_or_app. right. now left. }
    unfold Excel.strategic_recommendations in Hin. simpl in Hin.
    repeat (destruct Hin as [Hin|Hin]; [discriminate|]). exact Hin.
  - intros H%first_match_none. now rewrite H.
Qed.

(** ** More on the slider workflow *)

(** The score is nine tenths of the smaller value plus one tenth of the
    larger one. *)
Lemma fit_score_mix (n c : Z) :
  exists s,
    Slider.fit_score n c = PyNum.Fin s
    /\ (s == (9 # 10) * inject_Z (Z.min n c) + (1 # 10) * inject_Z (Z.max n c))%Q.
Proof.
  unfold Slider.fit_score, PyNum.of_int, PyNum.fmul, PyNum.fadd.
  eexists. split; [reflexivity|].
  assert (H : Z.abs (n - c) = (Z.max n c - Z.min n c)%Z) by lia.
  rewrite H. unfold Zminus. rewrite inject_Z_plus, inject_Z_opp. Lqa.lra.
Qed.

Lemma inject_Z_le (a b : Z) : (a <= b)%Z -> (inject_Z a <= inject_Z b)%Q.
Proof. intros H. unfold Qle. cbn [Qnum Qden inject_Z]. lia. Qed.

(** X20. The score of a theme is symmetric in the two values, equals
    the common value when they agree, and always is nine tenths of the
    smaller value plus one tenth of the larger one; so it lies between
    the two values. *)
Theorem fit_score_between_the_values (n c : Z) :
  Slider.fit_score n c = Slider.fit_score c n
  /\ PyNum.same (Slider.fit_score n n) (PyNum.of_int n)
  /\ exists s,
       Slider.fit_score n c = PyNum.Fin s
       /\ (s == (9 # 10) * inject_Z (Z.min n c)
                + (1 # 10) * inject_Z (Z.max n c))%Q
       /\ (inject_Z (Z.min n c) <= s)%Q /\ (s <= inject_Z (Z.max n c))%Q.
Proof.
  split; [|split].
  - unfold Slider.fit_score. rewrite (Z.min_comm n c).
    now replace (Z.abs (n - c)) with (Z.abs (c - n)) by lia.
  - unfold Slider.fit_score, PyNum.same, PyNum.of_int, PyNum.fadd, PyNum.fmul.
    rewrite Z.min_id, Z.sub_diag. change (inject_Z (Z.abs 0)) with 0%Q.
    Lqa.lra.
  - destruct (fit_score_mix n c) as (s & E & Hs). exists s.
    split; [exact E|]. split; [exact Hs|].
    assert (Hle : (inject_Z (Z.min n c) <= inject_Z (Z.max n c))%Q)
      by (apply inject_Z_le; lia).
    split; Lqa.lra.
Qed.

(** X21. Raising the community capacity of a theme never lowers its
    score, and raising any slider never lowers the overall fit. *)
Theorem fit_is_monotone :
  (forall n c c' : Z,
     (c <= c')%Z ->
     exists s s',
       Slider.fit_score n c = PyNum.Fin s
       /\ Slider.fit_score n c' = PyNum.Fin s' /\ (s <= s')%Q)
  /\
  (forall slider slider' : string -> Z,
     (forall theme, slider theme <= slider' theme)%Z ->
     exists page h page' h' f f',
       Slider.main slider ∅ = (PyHeap.Ok page, h)
       /\ Slider.main slider' ∅ = (PyHeap.Ok page', h')
       /\ Slider.overall_fit page = PyNum.Fin f
       /\ Slider.overall_fit page' = PyNum.Fin f'
       /\ (f <= f')%Q).
Proof.
  assert (Hscore : forall n c c' : Z,
             (c <= c')%Z ->
             exists s s',
               Slider.fit_score n c = PyNum.Fin s
               /\ Slider.fit_score n c' = PyNum.Fin s' /\ (s <= s')%Q).
  { intros n c c' Hc.
    destruct (fit_score_mix n c) as (s & E & Hs).
    destruct (fit_score_mix n c') as (s' & E' & Hs').
    exists s, s'. split; [exact E|]. split; [exact E'|].
    assert (Hmin : (inject_Z (Z.min n c) <= inject_Z (Z.min n c'))%Q)
      by (apply inject_Z_le; lia).
    assert (Hmax : (inject_Z (Z.max n c) <= inject_Z (Z.max n c'))%Q)
      by (apply inject_Z_le; lia).
    Lqa.lra. }
  split; [exact Hscore|].
  intros slider slider' Hle.
  destruct (slider_main_run slider) as (? & ? & ? & ? & fig & _ & Hrun).
  destruct (slider_main_run slider') as (? & ? & ? & ? & fig' & _ & Hrun').
  rewrite slider_fit_scores in Hrun, Hrun'.
  destruct (Hscore 5%Z _ _ (Hle "Generational Development")) as (a1 & b1 & E1 & F1 & H1).
  destruct (Hscore 4%Z _ _ (Hle "Community Cohesion")) as (a2 & b2 & E2 & F2 & H2).
  destruct (Hscore 5%Z _ _ (Hle "Tradition Preservation")) as (a3 & b3 & E3 & F3 & H3).
  destruct (Hscore 3%Z _ _ (Hle "Infrastructure")) as (a4 & b4 & E4 & F4 & H4).
  destruct (Hscore 4%Z _ _ (Hle "Employment")) as (a5 & b5 & E5 & F5 & H5).
  destruct (Hscore 2%Z _ _ (Hle "Revenue")) as (a6 & b6 & E6 & F6 & H6).
  destruct (Hscore 4%Z _ _ (Hle "Habitat Conservation")) as (a7 & b7 & E7 & F7 & H7).
  destruct (Hscore 6%Z _ _ (Hle "Shark Population")) as (a8 & b8 & E8 & F8 & H8).
  rewrite E1, E2, E3, E4, E5, E6, E7, E8 in Hrun.
  rewrite F1, F2, F3, F4, F5, F6, F7, F8 in Hrun'.
  do 6 eexists. split; [exact Hrun|]. split; [exact Hrun'|].
  cbn [Slider.overall_fit].
  split; [reflexivity|]. split; [reflexivity|].
  change (inject_Z (Z.of_nat 8)) with 8%Q.
  apply Qmult_le_compat_r; [Lqa.lra|]. discriminate.
Qed.

Lemma fit_is_monotone_witness :
  (exists s s',
     Slider.fit_score 5 0 = PyNum.Fin s
     /\ Slider.fit_score 5 10 = PyNum.Fin s' /\ (s <= s')%Q)
  /\
  (exists page h page' h' f f',
     Slider.main sliders_at_rest ∅ = (PyHeap.Ok page, h)
     /\ Slider.main last_slider_up ∅ = (PyHeap.Ok page', h')
     /\ Slider.overall_fit page = PyNum.Fin f
     /\ Slider.overall_fit page' = PyNum.Fin f'
     /\ (f <= f')%Q).
Proof.
  split.
  - apply (proj1 fit_is_monotone 5%Z 0%Z 10%Z). lia.
  - apply (proj2 fit_is_monotone sliders_at_rest last_slider_up).
    intros theme. unfold sliders_at_rest, last_slider_up.
    destruct (String.eqb theme "Protected Land"); lia.
Defined.

Lemma fit_score_against_constant (n c : Z) :
  (0 <= n <= 10)%Z -> (0 <= c <= 10)%Z ->
  exists s,
    Slider.fit_score n c = PyNum.Fin s
    /\ ((1 # 10) * inject_Z n <= s)%Q
    /\ (s <= (9 # 10) * inject_Z n + 1)%Q.
Proof.
  intros Hn Hc. destruct (fit_score_mix n c) as (s & E & Hs).
  exists s. split; [exact E|].
  assert (H1 : (inject_Z 0 <= inject_Z (Z.min n c))%Q) by (apply inject_Z_le; lia).
  assert (H2 : (inject_Z (Z.min n c) <= inject_Z n)%Q) by (apply inject_Z_le; lia).
  assert (H3 : (inject_Z n <= inject_Z (Z.max n c))%Q) by (apply inject_Z_le; lia).
  assert (H4 : (inject_Z (Z.max n c) <= inject_Z 10)%Q) by (apply inject_Z_le; lia).
  change (inject_Z 0) with 0%Q in H1. change (inject_Z 10) with 10%Q in H4.
  split; Lqa.lra.
Qed.

(** X22. With the NGO capabilities that [main] hard-codes, the overall
    fit is between 33/80 and 377/80 wherever the sliders stand, so the
    page always shows the "Limited fit" message: the "Excellent" and
    "Good" messages cannot appear. *)
Theorem slider_page_always_says_limited (slider : string -> Z) :
  (forall theme, 0 <= slider theme <= 10)%Z ->
  exists page h f,
    Slider.main slider ∅ = (PyHeap.Ok page, h)
    /\ Slider.overall_fit page = PyNum.Fin f
    /\ (33 # 80 <= f)%Q /\ (f <= 377 # 80)%Q
    /\ Slider.advice page = Slider.Limited.
Proof.
  intros Hs.
  destruct (slider_main_run slider) as (? & ? & ? & ? & fig & _ & Hrun).
  rewrite slider_fit_scores in Hrun.
  destruct (fit_score_against_constant 5 (slider "Generational Development"))
    as (a1 & E1 & L1 & U1); [lia|apply Hs|].
  destruct (fit_score_against_constant 4 (slider "Community Cohesion"))
    as (a2 & E2 & L2 & U2); [lia|apply Hs|].
  destruct (fit_score_against_constant 5 (slider "Tradition Preservation"))
    as (a3 & E3 & L3 & U3); [lia|apply Hs|].
  destruct (fit_score_against_constant 3 (slider "Infrastructure"))
    as (a4 & E4 & L4 & U4); [lia|apply Hs|].
  destruct (fit_score_against_constant 4 (slider "Employment"))
    as (a5 & E5 & L5 & U5); [lia|apply Hs|].
  destruct (fit_score_against_constant 2 (slider "Revenue"))
    as (a6 & E6 & L6 & U6); [lia|apply Hs|].
  destruct (fit_score_against_constant 4 (slider "Habitat Conservation"))
    as (a7 & E7 & L7 & U7); [lia|apply Hs|].
  destruct (fit_score_against_constant 6 (slider "Shark Population"))
    as (a8 & E8 & L8 & U8); [lia|apply Hs|].
  rewrite E1, E2, E3, E4, E5, E6, E7, E8 in Hrun.
  change (inject_Z 5) with 5%Q in *. change (inject_Z 4) with 4%Q in *.
  change (inject_Z 3) with 3%Q in *. change (inject_Z 2) with 2%Q in *.
  change (inject_Z 6) with 6%Q in *.
  set (total := (0 + a1 + a2 + a3 + a4 + a5 + a6 + a7 + a8)%Q).
  assert (Hmean : PyNum.mean [PyNum.Fin a1; PyNum.Fin a2; PyNum.Fin a3;
                              PyNum.Fin a4; PyNum.Fin a5; PyNum.Fin a6;
                              PyNum.Fin a7; PyNum.Fin a8]
                  = PyNum.Fin (total / 8)) by reflexivity.
  rewrite Hmean in Hrun.
  assert (Hlo : (33 # 80 <= total / 8)%Q).
  { apply Qle_shift_div_l; [reflexivity|]. unfold total. Lqa.lra. }
  assert (Hhi : (total / 8 <= 377 # 80)%Q).
  { apply Qle_shift_div_r; [reflexivity|]. unfold total. Lqa.lra. }
  do 3 eexists. split; [exact Hrun|]. cbn [Slider.overall_fit Slider.advice].
  split; [reflexivity|]. split; [exact Hlo|]. split; [exact Hhi|].
  apply recommend_spec. Lqa.lra.
Qed.

Lemma slider_page_always_says_limited_witness :
  exists page h f,
    Slider.main (fun _ => 10%Z) ∅ = (PyHeap.Ok page, h)
    /\ Slider.overall_fit page = PyNum.Fin f
    /\ (33 # 80 <= f)%Q /\ (f <= 377 # 80)%Q
    /\ Slider.advice page = Slider.Limited.
Proof.
  apply (slider_page_always_says_limited (fun _ => 10%Z)). intros _. lia.
Defined.

(** The page of the slider [main], figure included. *)
Lemma slider_main_page (slider : string -> Z) :
  exists h,
    Slider.main slider ∅
    = (PyHeap.Ok
         {| Slider.chart :=
              slider_figure Slider.themes Slider.ngo_capabilities
                (map slider Slider.themes);
            Slider.overall_fit :=
              PyNum.mean (Slider.fit_scores Slider.ngo_capabilities
                            (map slider Slider.themes));
            Slider.advice :=
              Slider.recommend
                (PyNum.mean (Slider.fit_scores Slider.ngo_capabilities
                               (map slider Slider.themes))) |}, h).
Proof.
  unfold Slider.main.
  set (ngo := Slider.ngo_capabilities).
  set (comm := map slider Slider.themes).
  destruct (new_list_run ngo ∅) as (rn & Hrn & Hrun1).
  unfold PyHeap.bind at 1. rewrite Hrun1.
  set (h1 := <[rn := ngo]> ∅).
  destruct (new_list_run (@nil Z) h1) as (rc & Hrc & Hrun2).
  unfold PyHeap.bind at 1. rewrite Hrun2.
  assert (Hc_n : rc <> rn).
  { intros ->. unfold h1 in Hrc. now rewrite lookup_insert_eq in Hrc. }
  unfold PyHeap.bind at 1.
  rewrite (for_each_append slider Slider.themes rc _ []) by apply lookup_insert_eq.
  rewrite insert_insert_eq, app_nil_l. fold comm. cbv beta iota.
  set (h2 := <[rc := comm]> h1).
  destruct (copy_run rn ngo h2) as (rnc & Hrnc & Hrun3).
  { unfold h2, h1. now rewrite lookup_insert_ne, lookup_insert_eq by congruence. }
  unfold PyHeap.bind at 1. rewrite Hrun3.
  set (h3 := <[rnc := ngo]> h2).
  assert (Hnc_c : rnc <> rc).
  { intros ->. unfold h2 in Hrnc. now rewrite lookup_insert_eq in Hrnc. }
  assert (Hnc_n : rnc <> rn).
  { intros ->. unfold h2, h1 in Hrnc.
    now rewrite lookup_insert_ne, lookup_insert_eq in Hrnc by congruence. }
  destruct (copy_run rc comm h3) as (rcc & Hrcc & Hrun4).
  { unfold h3, h2. now rewrite lookup_insert_ne, lookup_insert_eq by congruence. }
  unfold PyHeap.bind at 1. rewrite Hrun4.
  set (h4 := <[rcc := comm]> h3).
  assert (Hcc_nc : rcc <> rnc).
  { intros ->. unfold h3 in Hrcc. now rewrite lookup_insert_eq in Hrcc. }
  assert (Hcc_c : rcc <> rc).
  { intros ->. unfold h3, h2 in Hrcc.
    now rewrite lookup_insert_ne, lookup_insert_eq in Hrcc by congruence. }
  assert (Hcc_n : rcc <> rn).
  { intros ->. unfold h3, h2, h1 in Hrcc.
    now rewrite !lookup_insert_ne, lookup_insert_eq in Hrcc by congruence. }
  unfold PyHeap.bind at 1.
  rewrite (slider_chart_figure rnc rcc Slider.themes h4 ngo comm);
    try (unfold comm, ngo; rewrite ?length_map; reflexivity); try congruence.
  2:{ unfold h4, h3. now rewrite lookup_insert_ne, lookup_insert_eq by congruence. }
  2:{ apply lookup_insert_eq. }
  unfold PyHeap.bind, PyHeap.deref, PyHeap.ret.
  rewrite (content_lookup _ rn ngo).
  2:{ unfold h4, h3, h2, h1.
      now rewrite !lookup_insert_ne, lookup_insert_eq by congruence. }
  rewrite (content_lookup _ rc comm).
  2:{ unfold h4, h3, h2.
      now rewrite !lookup_insert_ne, lookup_insert_eq by congruence. }
  eexists. reflexivity.
Qed.

(** X23. The chart on the slider page is drawn from [main]'s own data:
    the nine themes label the axes, the outward series is the constant
    NGO vector followed by its first value, and the inner boundary of the
    community series is at [10 - slider] for each theme, then again at
    the value of the first theme.  With all sliders at 0 the inner
    boundary lies on the outer ring. *)
Theorem slider_chart_shows_the_sliders (slider : string -> Z) :
  exists page h,
    Slider.main slider ∅ = (PyHeap.Ok page, h)
    /\ Radar.xticklabels (Slider.plot (Slider.chart page)) = Slider.themes
    /\ Radar.ngo_line (Slider.plot (Slider.chart page))
       = [5; 4; 5; 3; 4; 2; 4; 6; 6; 5]%Z
    /\ Radar.community_fill_values (Slider.plot (Slider.chart page))
       = map (fun theme => (10 - slider theme)%Z)
           (Slider.themes ++ ["Generational Development"])
    /\ ((forall theme, slider theme = 0%Z) ->
        Radar.community_fill_values (Slider.plot (Slider.chart page))
        = Radar.community_outer (Slider.plot (Slider.chart page))).
Proof.
  destruct (slider_main_page slider) as (h & Hrun).
  do 2 eexists. split; [exact Hrun|].
  cbn [Slider.chart slider_figure Slider.plot Radar.xticklabels Radar.ngo_line
       Radar.community_fill_values Radar.community_outer].
  split; [reflexivity|]. split; [reflexivity|]. split; [reflexivity|].
  intros Hzero. cbn. now rewrite !Hzero.
Qed.

Lemma first_out_of_range_at comm ngo :
  forall i j c n,
    nth_error comm j = Some c -> nth_error ngo j = Some n ->
    Excel.in_range c = false \/ Excel.in_range n = false ->
    (forall j' c' n', j' < j ->
       nth_error comm j' = Some c' -> nth_error ngo j' = Some n' ->
       Excel.in_range c' = true /\ Excel.in_range n' = true) ->
    Excel.first_out_of_range i comm ngo = Some (i + j).
Proof.
  revert ngo. induction comm as [|c0 comm IH]; intros [|n0 ngo] i [|j] c n Hc Hn Hbad Hok;
    try discriminate; cbn [nth_error Excel.first_out_of_range] in *.
  - injection Hc as ->. injection Hn as ->.
    rewrite Nat.add_0_r.
    destruct Hbad as [-> | ->]; [reflexivity|].
    now destruct (Excel.in_range c).
  - destruct (Hok 0 c0 n0) as (-> & ->); [lia|reflexivity|reflexivity|].
    cbn [negb orb].
    assert (Hrest : Excel.first_out_of_range (S i) comm ngo = Some (S i + j)).
    { apply (IH ngo (S i) j c n); auto.
      intros j' c' n' Hlt Hc' Hn'. apply (Hok (S j')); auto. lia. }
    rewrite Hrest. now replace (i + S j) with (S i + j) by lia.
Qed.

(** X24. When the nine data rows of a well-formed file all coerce, the
    load fails with the range message for the first row that has a value
    outside [0, 10], named by its position in the frame.  A missing field
    counts: it coerces to NaN, passes the numeric test, and is out of
    range. *)
Theorem first_value_out_of_range_is_reported names lines s comm ngo j c n :
  well_formed (names :: lines) = true ->
  3 <= length names ->
  Excel.start_row {| Excel.columns := names; Excel.rows := lines |} = Some s ->
  s + 9 <= length lines ->
  Excel.floats (map (Excel.entry 1) (firstn 9 (skipn s lines))) = Some comm ->
  Excel.floats (map (Excel.entry 2) (firstn 9 (skipn s lines))) = Some ngo ->
  nth_error comm j = Some c -> nth_error ngo j = Some n ->
  Excel.in_range c = false \/ Excel.in_range n = false ->
  (forall j' c' n', j' < j ->
     nth_error comm j' = Some c' -> nth_error ngo j' = Some n' ->
     Excel.in_range c' = true /\ Excel.in_range n' = true) ->
  Excel.load_data_from_csv (names :: lines)
  = inl (Excel.RangeError (j + s + 1)).
Proof.
  intros _ Hc Hs Hr Hcomm Hngo Hcj Hnj Hbad Hok.
  unfold Excel.load_data_from_csv, Excel.read_csv.
  set (df := {| Excel.columns := names; Excel.rows := lines |}) in *.
  rewrite (normalize_enough_rows df s) by assumption.
  rewrite !iloc_slice_data. cbn [Excel.rows df].
  rewrite Hcomm, Hngo.
  now rewrite (first_out_of_range_at comm ngo 0 j c n).
Qed.

Lemma first_value_out_of_range_is_reported_witness :
  Excel.load_data_from_csv (sample_header :: gap_lines)
  = inl (Excel.RangeError (2 + 0 + 1)).
Proof.
  apply (first_value_out_of_range_is_reported sample_header gap_lines 0
           (map PyNum.of_int [7; 5]%Z ++ [PyNum.NaN]
              ++ map PyNum.of_int [6; 4; 5; 9; 7; 8]%Z)
           sample_ngo 2 PyNum.NaN (PyNum.of_int 7));
    [reflexivity | simpl; lia | reflexivity | simpl; lia | reflexivity
    | reflexivity | reflexivity | reflexivity | left; reflexivity | ].
  intros [|[|j']] c' n' Hlt Hc Hn; [| |lia];
    injection Hc as <-; injection Hn as <-; split; reflexivity.
Defined.
